(** * ArborAI file search engine: filter predicate, collector, move and delete

    A shallow embedding of [Arbor_Search_Engine/ArborAI_File_Search_Engine.py].

    - Python [str] values are Rocq strings; a character is a code point below
      256 (ASCII and Latin-1), which is where [lower] and [strip] are
      defined here.
    - The file system is a finite map from path strings to nodes; a node
      records what [os.path] and [os] report for that path, including the
      failures ([os.path.getsize] raising, [os.listdir] raising, [os.remove]
      raising) that the program catches.
    - [print] and [input] act on a world that holds the lines still to be read
      and the messages written so far; one constructor of [msg] stands for
      one [print] or prompt of the source.
    - [os.path.getsize(p) / 1024] is Python's true division.  It is taken
      here over the rationals: the only use of the quotient in a test
      compares it with 1024, the division by a power of two is exact for
      every size below 2^53, and rounding is monotone above, so the
      comparisons agree with the floating-point ones.
    - Clock readings and modification times are rationals, and the clock
      stands still during one action.  [should_include_reads] keeps apart
      the two pairs of reads the two modification-time tests make, for the
      statement that depends on them.
    - [shutil.move], [shutil.rmtree], [os.makedirs], [os.walk] and the
      writing of the JSON file are library calls the program only delegates
      to; the actions take them as parameters, each with the exception it
      may raise, and the statements hold for each of their behaviours. *)

From Stdlib Require Import ZArith QArith Ascii String.
From stdpp Require Import gmap strings list fin_maps.

Local Open Scope Z_scope.

(* ====================================================================== *)
(** ** Python string methods *)
(* ====================================================================== *)

Module PyStr.

Definition code (c : ascii) : nat := nat_of_ascii c.

(** [str.lower] on one code point: A-Z, and the Latin-1 capitals
    U+00C0..U+00DE without the multiplication sign U+00D7. *)
Definition lower_char (c : ascii) : ascii :=
  let n := code c in
  if ((65 <=? n) && (n <=? 90))%nat then ascii_of_nat (n + 32)
  else if ((192 <=? n) && (n <=? 222) && negb (n =? 215))%nat
       then ascii_of_nat (n + 32)
  else c.

Fixpoint lower (s : string) : string :=
  match s with
  | EmptyString => EmptyString
  | String c s' => String (lower_char c) (lower s')
  end.

(** [s.startswith(p)] *)
Fixpoint startswith (s p : string) {struct p} : bool :=
  match p, s with
  | EmptyString, _ => true
  | String _ _, EmptyString => false
  | String a p', String b s' => if Ascii.eqb a b then startswith s' p' else false
  end.

Fixpoint drop (n : nat) (s : string) : string :=
  match n, s with
  | O, _ => s
  | S _, EmptyString => EmptyString
  | S n', String _ s' => drop n' s'
  end.

(** [s.endswith(p)] *)
Definition endswith (s p : string) : bool :=
  let ls := String.length s in
  let lp := String.length p in
  (lp <=? ls)%nat && String.eqb (drop (ls - lp) s) p.

(** [needle in hay] *)
Fixpoint contains (hay needle : string) : bool :=
  match hay with
  | EmptyString => startswith hay needle
  | String _ hay' => startswith hay needle || contains hay' needle
  end.

(** Truth value of a string: the empty string is false. *)
Definition truthy (s : string) : bool :=
  match s with EmptyString => false | String _ _ => true end.

(** [str.isspace] on one code point below 256. *)
Definition is_space (c : ascii) : bool :=
  let n := code c in
  (((9 <=? n) && (n <=? 13)) || ((28 <=? n) && (n <=? 32))
   || (n =? 133) || (n =? 160))%nat.

Fixpoint lstrip (s : string) : string :=
  match s with
  | EmptyString => EmptyString
  | String c s' => if is_space c then lstrip s' else s
  end.

(** Drops trailing white space: a character is kept when it is not white
    space or something is kept after it. *)
Fixpoint rstrip (s : string) : string :=
  match s with
  | EmptyString => EmptyString
  | String c s' =>
      match rstrip s' with
      | EmptyString => if is_space c then EmptyString else String c EmptyString
      | r => String c r
      end
  end.

(** [s.strip()] *)
Definition strip (s : string) : string := rstrip (lstrip s).

(** [s.replace(old, new)] for a non-empty [old]: occurrences are found
    from the left and do not overlap.  [skip] counts the characters of
    the occurrence just replaced that are still to be passed over. *)
Fixpoint replace_from (skip : nat) (old new s : string) : string :=
  match s with
  | EmptyString => EmptyString
  | String c s' =>
      match skip with
      | S k => replace_from k old new s'
      | O =>
          if startswith s old
          then new +:+ replace_from (String.length old - 1) old new s'
          else String c (replace_from O old new s')
      end
  end.

Fixpoint intersperse (new s : string) : string :=
  match s with
  | EmptyString => EmptyString
  | String c s' => String c (new +:+ intersperse new s')
  end.

(** [s.replace(old, new)]; with an empty [old] Python puts [new] before
    every character and at the end. *)
Definition replace (s old new : string) : string :=
  match old with
  | EmptyString => new +:+ intersperse new s
  | String _ _ => replace_from O old new s
  end.

(** Number of occurrences of a character, [s.count(c)]. *)
Fixpoint count_char (c : ascii) (s : string) : nat :=
  match s with
  | EmptyString => O
  | String a s' => (if Ascii.eqb a c then 1 else 0) + count_char c s'
  end.

End PyStr.

(* ====================================================================== *)
(** ** What the filter reads from the operating system *)
(* ====================================================================== *)

(** [os.path.getsize] and [os.path.getmtime] either return or raise; [None]
    stands for raising.  [time_time] is the clock read by [time.time()]. *)
Record StatView := {
  getsize : string -> option Z;
  getmtime : string -> option Q;
  time_time : Q
}.

Definition Qlt_bool (x y : Q) : bool := negb (Qle_bool y x).

(* ====================================================================== *)
(** ** FilterCriteria *)
(* ====================================================================== *)

Record FilterCriteria := {
  only_files : bool;
  only_dirs : bool;
  only_jar : bool;
  only_json : bool;
  size_less_than_1mb : bool;
  size_more_than_1mb : bool;
  exclude_keyword : option string;
  include_keyword : option string;
  modified_last_24h : bool;
  modified_over_24h : bool;
  show_tree : bool
}.

(** [FilterCriteria.__init__] *)
Definition FilterCriteria_init : FilterCriteria := {|
  only_files := false;
  only_dirs := false;
  only_jar := false;
  only_json := false;
  size_less_than_1mb := false;
  size_more_than_1mb := false;
  exclude_keyword := None;
  include_keyword := None;
  modified_last_24h := false;
  modified_over_24h := false;
  show_tree := false
|}.

(** Attribute assignments, as [setup_filters] makes them:
    [criteria.only_jar = v], [criteria.size_less_than_1mb = v],
    [criteria.size_more_than_1mb = v]. *)
Definition set_only_jar (v : bool) (c : FilterCriteria) : FilterCriteria := {|
  only_files := only_files c;
  only_dirs := only_dirs c;
  only_jar := v;
  only_json := only_json c;
  size_less_than_1mb := size_less_than_1mb c;
  size_more_than_1mb := size_more_than_1mb c;
  exclude_keyword := exclude_keyword c;
  include_keyword := include_keyword c;
  modified_last_24h := modified_last_24h c;
  modified_over_24h := modified_over_24h c;
  show_tree := show_tree c
|}.

Definition set_size_less_than_1mb (v : bool) (c : FilterCriteria) : FilterCriteria := {|
  only_files := only_files c;
  only_dirs := only_dirs c;
  only_jar := only_jar c;
  only_json := only_json c;
  size_less_than_1mb := v;
  size_more_than_1mb := size_more_than_1mb c;
  exclude_keyword := exclude_keyword c;
  include_keyword := include_keyword c;
  modified_last_24h := modified_last_24h c;
  modified_over_24h := modified_over_24h c;
  show_tree := show_tree c
|}.

Definition set_size_more_than_1mb (v : bool) (c : FilterCriteria) : FilterCriteria := {|
  only_files := only_files c;
  only_dirs := only_dirs c;
  only_jar := only_jar c;
  only_json := only_json c;
  size_less_than_1mb := size_less_than_1mb c;
  size_more_than_1mb := v;
  exclude_keyword := exclude_keyword c;
  include_keyword := include_keyword c;
  modified_last_24h := modified_last_24h c;
  modified_over_24h := modified_over_24h c;
  show_tree := show_tree c
|}.

Section ShouldInclude.

Variable os : StatView.
Variable self : FilterCriteria.

(** Filters 5 and 6.  [true] when one of the two [return False] inside the
    [try] is taken; when [getsize] raises, the [except: pass] skips both. *)
Definition size_filter_rejects (entry_path : string) : bool :=
  match getsize os entry_path with
  | Some size =>
      let file_size_kb := (inject_Z size / 1024)%Q in
      if size_less_than_1mb self && Qle_bool 1024 file_size_kb then true
      else if size_more_than_1mb self && Qlt_bool file_size_kb 1024 then true
      else false
  | None => false
  end.

(** Filter 7 *)
Definition exclude_keyword_rejects (entry_name : string) : bool :=
  match exclude_keyword self with
  | Some k => PyStr.truthy k && PyStr.contains (PyStr.lower entry_name) (PyStr.lower k)
  | None => false
  end.

(** Filter 8 *)
Definition include_keyword_rejects (entry_name : string) : bool :=
  match include_keyword self with
  | Some k =>
      PyStr.truthy k && negb (PyStr.contains (PyStr.lower entry_name) (PyStr.lower k))
  | None => false
  end.

(** Filter 9: the [except] branch returns [False] as well. *)
Definition modified_last_24h_rejects (entry_path : string) : bool :=
  if modified_last_24h self then
    match getmtime os entry_path with
    | Some mtime => Qlt_bool 86400 (time_time os - mtime)%Q
    | None => true
    end
  else false.

(** Filter 10 *)
Definition modified_over_24h_rejects (entry_path : string) : bool :=
  if modified_over_24h self then
    match getmtime os entry_path with
    | Some mtime => Qle_bool (time_time os - mtime)%Q 86400
    | None => true
    end
  else false.

(** [FilterCriteria.should_include] *)
Definition should_include (entry_name entry_path : string) (is_dir : bool) : bool :=
  if only_files self && is_dir then false
  else if only_dirs self && negb is_dir then false
  else if is_dir then true
  else if only_jar self && negb (PyStr.endswith (PyStr.lower entry_name) ".jar") then false
  else if only_json self && negb (PyStr.endswith (PyStr.lower entry_name) ".json") then false
  else if size_filter_rejects entry_path then false
  else if exclude_keyword_rejects entry_name then false
  else if include_keyword_rejects entry_name then false
  else if modified_last_24h_rejects entry_path then false
  else if modified_over_24h_rejects entry_path then false
  else true.

End ShouldInclude.

(** [should_include] with the two pairs of reads kept apart.  Filter 10
    calls [os.path.getmtime] and [time.time()] afresh: when filter 9 has
    made its calls before, these are second calls, and [os2] is what they
    return; [os] is what the first call of each function returns.
    [should_include os] is [should_include_reads os os]: the same answers at
    both reads. *)
Definition should_include_reads (os os2 : StatView) (self : FilterCriteria)
    (entry_name entry_path : string) (is_dir : bool) : bool :=
  if only_files self && is_dir then false
  else if only_dirs self && negb is_dir then false
  else if is_dir then true
  else if only_jar self && negb (PyStr.endswith (PyStr.lower entry_name) ".jar") then false
  else if only_json self && negb (PyStr.endswith (PyStr.lower entry_name) ".json") then false
  else if size_filter_rejects os self entry_path then false
  else if exclude_keyword_rejects self entry_name then false
  else if include_keyword_rejects self entry_name then false
  else if modified_last_24h_rejects os self entry_path then false
  else if modified_over_24h_rejects (if modified_last_24h self then os2 else os)
            self entry_path then false
  else true.

(* ====================================================================== *)
(** ** The file system *)
(* ====================================================================== *)

(** The exception classes the program can meet. *)
Inductive exn :=
| FileNotFoundError
| PermissionError
| NotADirectoryError
| IsADirectoryError
| RecursionError
| EOFError
| OSError
| ValueError.

Inductive kind :=
| KFile
| KDir (listing : list string + exn)   (* what [os.listdir] returns or raises *)
| KOther.                              (* exists, neither file nor directory *)

(** What the operating system answers for one path.  [n_size] and [n_mtime]
    are [None] when the call raises; [n_remove] is the exception
    [os.remove] raises for this path, if any. *)
Record node := {
  n_kind : kind;
  n_size : option Z;
  n_mtime : option Q;
  n_remove : option exn
}.

Module OsPath.

(** [os.path.join] (POSIX) on two components. *)
Definition join (a b : string) : string :=
  if PyStr.startswith b "/" then b
  else if negb (PyStr.truthy a) || PyStr.endswith a "/" then a +:+ b
  else a +:+ "/" +:+ b.

Definition exists_ (fs : gmap string node) (p : string) : bool :=
  match fs !! p with Some _ => true | None => false end.

Definition isfile (fs : gmap string node) (p : string) : bool :=
  match fs !! p with
  | Some n => match n_kind n with KFile => true | _ => false end
  | None => false
  end.

Definition isdir (fs : gmap string node) (p : string) : bool :=
  match fs !! p with
  | Some n => match n_kind n with KDir _ => true | _ => false end
  | None => false
  end.

End OsPath.

Module Os.

(** [os.listdir] *)
Definition listdir (fs : gmap string node) (p : string) : list string + exn :=
  match fs !! p with
  | Some n =>
      match n_kind n with
      | KDir l => l
      | _ => inr NotADirectoryError
      end
  | None => inr FileNotFoundError
  end.

(** The listing of directory [d] once the entry at path [p] is gone. *)
Definition prune (p d : string) (n : node) : node :=
  match n_kind n with
  | KDir (inl names) =>
      {| n_kind := KDir (inl (List.filter
                                (fun name => negb (String.eqb (OsPath.join d name) p))
                                names));
         n_size := n_size n; n_mtime := n_mtime n; n_remove := n_remove n |}
  | _ => n
  end.

Definition unlink (p : string) (fs : gmap string node) : gmap string node :=
  map_imap (fun d n => Some (prune p d n)) (delete p fs).

(** [os.remove] *)
Definition remove (p : string) (fs : gmap string node) : gmap string node + exn :=
  match fs !! p with
  | None => inr FileNotFoundError
  | Some n =>
      match n_kind n with
      | KDir _ => inr IsADirectoryError
      | _ =>
          match n_remove n with
          | Some e => inr e
          | None => inl (unlink p fs)
          end
      end
  end.

End Os.

(** The view [should_include] has of a file system at clock reading [now]. *)
Definition stat_view (fs : gmap string node) (now : Q) : StatView := {|
  getsize := fun p => fs !! p ≫= n_size;
  getmtime := fun p => fs !! p ≫= n_mtime;
  time_time := now
|}.

(* ====================================================================== *)
(** ** Entry records and messages *)
(* ====================================================================== *)

Inductive entry_type := Directory | File_.

(** The [Size] string of an entry record, by the branch that formats it. *)
Inductive size_str :=
| ZeroBytes                (* "0 bytes" *)
| KB (size_kb : Q)         (* f"{size_kb:.2f} KB" *)
| MB (size_mb : Q)         (* f"{size_mb:.2f} MB" *)
| Unknown.                 (* "Unknown" *)

(** The dict [{"Name": ..., "Type": ..., "Size": ...}] *)
Record file_data := {
  Name : string;
  Type_ : entry_type;
  Size : size_str
}.

(** What [json.dump] is given: the full records or, for store type 2, the
    names only. *)
Inductive json_doc :=
| FullData (data : list file_data)
| NamesOnly (names : list string).

(** One constructor for each [print] and each [input] prompt. *)
Inductive msg :=
(* show_directory_tree *)
| TreeDirLine (indent : nat) (entry : string)
| TreeFileLine (indent : nat) (entry : string) (size : option Z)
| TreePermissionDenied (indent : nat)
| TreeError (indent : nat) (e : exn)
(* collect_files *)
| MsgPathNotExist (path : string)
| MsgJustAFile
| MsgFileBasename (path : string)
| MsgFileSize (size : Z)
| MsgFileLocation (path : string)
| MsgRuleBefore
| MsgTreeTitle (path : string)
| MsgRule
| MsgRuleAfter
| MsgCollected (n : nat)
| MsgPermissionDeniedAccessing (path : string)
| MsgErrorCollecting (e : exn)
(* choice_1 *)
| PromptDirectoryPath
| MsgNoFilesCollected
| PromptCreateJson
| MsgDoNotIncludeExtension
| PromptJsonName
| MsgFileWillBeNamed (json_name : string)
| PromptWhereToStore
| MsgUsingDefaultLocation (json_path : string)
| MsgSavingTo (json_path : string)
| MsgInvalidDirectory
| MsgFallbackLocation (json_path : string)
| PromptFullJsonPath
| MsgStorageOptions
| MsgStorageFull
| MsgStorageNamesOnly
| PromptChooseStorage
| MsgDataSavedTo (json_path : string)
| MsgErrorSavingJson (e : exn)
(* choice_3 *)
| PromptMoveSource
| MsgSourceNotExist
| PromptDestination
| PromptMovingDirectory
| MsgMoveCancelled
| MsgMoved (source destination : string)
| MsgErrorMoving (e : exn)
(* choice_4 *)
| MsgDeletionIsPermanent
| MsgProceedWithCaution
| PromptPathToDelete
| PromptDeleteFile (target : string)
| MsgDeleted (target : string)
| MsgErrorDeleting (e : exn)
| MsgFiltersActive
| MsgNothingToDelete
| MsgFilesToDelete (n : nat)
| MsgListItem (name : string)
| PromptDeleteAll (n : nat)
| MsgDeletedItem (name : string)
| MsgErrorDeletingItem (name : string) (e : exn)
| MsgDeletedCount (deleted total : nat)
| PromptDeleteEntire (target : string).

(** [if criteria and not criteria.should_include(...)]: with no criteria
    every entry is kept. *)
Definition passes (os : StatView) (criteria : option FilterCriteria)
    (entry full_path : string) (is_dir : bool) : bool :=
  match criteria with
  | Some c => should_include os c entry full_path is_dir
  | None => true
  end.

(* ====================================================================== *)
(** ** show_directory_tree *)
(* ====================================================================== *)

(** [depth] is the number of nested calls the interpreter still allows.  A
    call beyond it raises [RecursionError] ([None] here), which the [except
    Exception] of the calling frame catches: the caller prints the error line
    and leaves its loop.  Every other exception is caught in the frame that
    raised it. *)
Fixpoint show_directory_tree (depth : nat) (fs : gmap string node) (now : Q)
    (path : string) (indent : nat) (criteria : option FilterCriteria)
    : option (list msg) :=
  match depth with
  | O => None
  | S depth' =>
      Some
        match Os.listdir fs path with
        | inr PermissionError => [TreePermissionDenied indent]
        | inr e => [TreeError indent e]
        | inl entries =>
            (fix each (entries : list string) : list msg :=
               match entries with
               | [] => []
               | entry :: rest =>
                   let full_path := OsPath.join path entry in
                   let is_dir := OsPath.isdir fs full_path in
                   if negb (passes (stat_view fs now) criteria entry full_path is_dir)
                   then each rest
                   else if is_dir then
                     TreeDirLine indent entry ::
                     match show_directory_tree depth' fs now full_path (S indent) criteria with
                     | Some out => out ++ each rest
                     | None => [TreeError indent RecursionError]
                     end
                   else
                     TreeFileLine indent entry (getsize (stat_view fs now) full_path)
                     :: each rest
               end) entries
        end
  end.

(* ====================================================================== *)
(** ** collect_files *)
(* ====================================================================== *)

(** The [Size] entry computed for a listed entry. *)
Definition size_string (os : StatView) (full_path : string) (is_dir : bool) : size_str :=
  if is_dir then ZeroBytes
  else
    match getsize os full_path with
    | Some size_bytes =>
        let size_kb := (inject_Z size_bytes / 1024)%Q in
        if Qlt_bool size_kb 1024 then KB size_kb
        else MB (size_kb / 1024)%Q
    | None => Unknown
    end.

(** The [for entry in entries] loop of the regular collection. *)
Fixpoint collect_entries (fs : gmap string node) (now : Q) (path : string)
    (criteria : option FilterCriteria) (entries : list string) : list file_data :=
  match entries with
  | [] => []
  | entry :: rest =>
      let full_path := OsPath.join path entry in
      let is_dir := OsPath.isdir fs full_path in
      if negb (passes (stat_view fs now) criteria entry full_path is_dir)
      then collect_entries fs now path criteria rest
      else
        {| Name := entry;
           Type_ := if is_dir then Directory else File_;
           Size := size_string (stat_view fs now) full_path is_dir |}
        :: collect_entries fs now path criteria rest
  end.

(** [if criteria and criteria.show_tree] *)
Definition tree_mode (criteria : option FilterCriteria) : bool :=
  match criteria with
  | Some c => show_tree c
  | None => false
  end.

(** [collect_files]: the lines it prints and the value it returns, [None]
    for Python's [None].  [depth] is the recursion depth left for the tree
    printer below the first call. *)
Definition collect_files (depth : nat) (fs : gmap string node) (now : Q)
    (path : string) (criteria : option FilterCriteria)
    : list msg * option (list file_data) :=
  if negb (OsPath.exists_ fs path) then
    ([MsgPathNotExist path], None)
  else if OsPath.isfile fs path then
    ([MsgJustAFile; MsgFileBasename path] ++
     match getsize (stat_view fs now) path with
     | Some size => [MsgFileSize size; MsgFileLocation path]
     | None => []
     end, None)
  else if tree_mode criteria then
    ([MsgRuleBefore; MsgTreeTitle path; MsgRule] ++
     default [] (show_directory_tree (S depth) fs now path 0 criteria) ++
     [MsgRuleAfter], Some [])
  else
    match Os.listdir fs path with
    | inl entries =>
        let data := collect_entries fs now path criteria entries in
        ([MsgCollected (length data)], Some data)
    | inr PermissionError => ([MsgPermissionDeniedAccessing path], None)
    | inr e => ([MsgErrorCollecting e], None)
    end.

(* ====================================================================== *)
(** ** The world the menu actions run in *)
(* ====================================================================== *)

Record World := {
  w_fs : gmap string node;
  w_now : Q;
  w_stdin : list string;      (* the lines [input] will return *)
  w_stdout : list msg         (* what was printed, oldest first *)
}.

Inductive result (A : Type) :=
| Ok (a : A)
| Raise (e : exn).

Arguments Ok {A} a.
Arguments Raise {A} e.

(** A computation that reads and changes the world and either returns or
    raises. *)
Definition M (A : Type) : Type := World -> result A * World.

Definition ret {A} (a : A) : M A := fun w => (Ok a, w).

Definition bind {A B} (c : M A) (k : A -> M B) : M B :=
  fun w =>
    match c w with
    | (Ok a, w') => k a w'
    | (Raise e, w') => (Raise e, w')
    end.

Declare Scope action_scope.
Delimit Scope action_scope with action.

Notation "'let*' x ':=' c 'in' k" := (bind c (fun x => k))
  (at level 10, x name, c at level 100, k at level 200) : action_scope.
Notation "c ';;' k" := (bind c (fun _ => k))
  (at level 100, k at level 200, right associativity) : action_scope.

Definition print (m : msg) : M unit :=
  fun w => (Ok tt, {| w_fs := w_fs w; w_now := w_now w; w_stdin := w_stdin w;
                      w_stdout := w_stdout w ++ [m] |}).

Definition print_all (ms : list msg) : M unit :=
  fun w => (Ok tt, {| w_fs := w_fs w; w_now := w_now w; w_stdin := w_stdin w;
                      w_stdout := w_stdout w ++ ms |}).

(** [input(prompt)]: writes the prompt, then returns the next line or raises
    [EOFError] at the end of the input. *)
Definition input (prompt : msg) : M string :=
  fun w =>
    match w_stdin w with
    | line :: rest =>
        (Ok line, {| w_fs := w_fs w; w_now := w_now w; w_stdin := rest;
                     w_stdout := w_stdout w ++ [prompt] |})
    | [] =>
        (Raise EOFError, {| w_fs := w_fs w; w_now := w_now w; w_stdin := [];
                            w_stdout := w_stdout w ++ [prompt] |})
    end.

Definition get_fs : M (gmap string node) := fun w => (Ok (w_fs w), w).

Definition get_now : M Q := fun w => (Ok (w_now w), w).

Definition put_fs (fs : gmap string node) : M unit :=
  fun w => (Ok tt, {| w_fs := fs; w_now := w_now w; w_stdin := w_stdin w;
                      w_stdout := w_stdout w |}).

(** A library call that changes the file system and may raise; a call that
    raises may already have changed something. *)
Definition os_call (f : gmap string node -> gmap string node * option exn) : M unit :=
  fun w =>
    let '(fs', err) := f (w_fs w) in
    let w' := {| w_fs := fs'; w_now := w_now w; w_stdin := w_stdin w;
                 w_stdout := w_stdout w |} in
    match err with
    | None => (Ok tt, w')
    | Some e => (Raise e, w')
    end.

(** [try: body  except Exception as e: handler(e)] *)
Definition try_except {A} (body : M A) (handler : exn -> M A) : M A :=
  fun w =>
    match body w with
    | (Ok a, w') => (Ok a, w')
    | (Raise e, w') => handler e w'
    end.

Local Open Scope action_scope.

Section Actions.

(** Set at import time by whether [colorama] can be loaded. *)
Variable COLORAMA_AVAILABLE : bool.

(** [os.path.dirname(os.path.abspath(__file__))] *)
Variable script_dir : string.

(** Nested calls [show_directory_tree] may make below its first one. *)
Variable recursion_depth : nat.

(** Library calls the program delegates to; none of them is constrained. *)
Variable os_makedirs : string -> gmap string node -> gmap string node * option exn.
Variable json_dump_to :
  string -> json_doc -> gmap string node -> gmap string node * option exn.
Variable shutil_move :
  string -> string -> gmap string node -> gmap string node * option exn.
Variable shutil_rmtree : string -> gmap string node -> gmap string node * option exn.

(** The call [collect_files(path, criteria)] made by an action. *)
Definition call_collect_files (path : string) (criteria : option FilterCriteria)
    : M (option (list file_data)) :=
  let* fs := get_fs in
  let* now := get_now in
  let '(out, data) := collect_files recursion_depth fs now path criteria in
  print_all out ;;
  ret data.

(** Lines 300-306 of [choice_1]: the file name from the stripped answer. *)
Definition json_file_name (name : string) : string :=
  if String.eqb name "" then "dataStore.json"
  else
    let name := PyStr.replace name ".json" "" in
    let name := PyStr.replace name "." "" in
    name +:+ ".json".

(** The [Data_Store] folder next to the program, created when absent. *)
Definition data_store_path (json_name : string) : M string :=
  let data_store_dir := OsPath.join script_dir "Data_Store" in
  os_call (os_makedirs data_store_dir) ;;
  ret (OsPath.join data_store_dir json_name).

(** [choice_1] from the question about the JSON file on (line 293). *)
Definition choice_1_store (data : list file_data) : M unit :=
  let* create_json := input PromptCreateJson in
  let* json_path :=
    if String.eqb (PyStr.lower create_json) "yes" then
      print MsgDoNotIncludeExtension ;;
      let* name := input PromptJsonName in
      let json_name := json_file_name (PyStr.strip name) in
      print (MsgFileWillBeNamed json_name) ;;
      let* location := input PromptWhereToStore in
      let location := PyStr.strip location in
      if String.eqb location "" then
        let* json_path := data_store_path json_name in
        print (MsgUsingDefaultLocation json_path) ;;
        ret json_path
      else
        let* fs := get_fs in
        if OsPath.isdir fs location then
          let json_path := OsPath.join location json_name in
          print (MsgSavingTo json_path) ;;
          ret json_path
        else
          print MsgInvalidDirectory ;;
          let* json_path := data_store_path json_name in
          print (MsgFallbackLocation json_path) ;;
          ret json_path
    else
      let* json_path := input PromptFullJsonPath in
      ret (PyStr.strip json_path)
  in
  print MsgStorageOptions ;;
  print MsgStorageFull ;;
  print MsgStorageNamesOnly ;;
  let* store_type := input PromptChooseStorage in
  let doc :=
    if String.eqb store_type "2" then NamesOnly (List.map Name data)
    else FullData data in
  try_except
    (os_call (json_dump_to json_path doc) ;;
     print (MsgDataSavedTo json_path))
    (fun e => print (MsgErrorSavingJson e)).

(** [choice_1] after [collect_files] has returned [data] (line 286 on). *)
Definition choice_1_on_collected (data : option (list file_data)) : M unit :=
  match data with
  | None => ret tt
  | Some data =>
      if (length data =? 0)%nat then print MsgNoFilesCollected
      else choice_1_store data
  end.

Definition choice_1 (criteria : option FilterCriteria) : M unit :=
  let* path := input PromptDirectoryPath in
  let* data := call_collect_files path criteria in
  choice_1_on_collected data.

Definition choice_3 (criteria : option FilterCriteria) : M unit :=
  let* source := input PromptMoveSource in
  let* fs := get_fs in
  if negb (OsPath.exists_ fs source) then print MsgSourceNotExist
  else
    let* destination := input PromptDestination in
    let move :=
      try_except
        (os_call (shutil_move source destination) ;;
         print (MsgMoved source destination))
        (fun e => print (MsgErrorMoving e)) in
    let* fs := get_fs in
    if OsPath.isdir fs source then
      let* confirm := input PromptMovingDirectory in
      if negb (String.eqb (PyStr.lower confirm) "yes") then print MsgMoveCancelled
      else move
    else move.

(** The [for item in data] loop that removes the collected entries; it
    returns the final value of [deleted]. *)
Fixpoint delete_collected (target : string) (data : list file_data) (deleted : nat)
    : M nat :=
  match data with
  | [] => ret deleted
  | item :: rest =>
      let file_path := OsPath.join target (Name item) in
      let* fs := get_fs in
      if OsPath.isfile fs file_path then
        match Os.remove file_path fs with
        | inl fs' =>
            put_fs fs' ;;
            print (MsgDeletedItem (Name item)) ;;
            delete_collected target rest (S deleted)
        | inr e =>
            print (MsgErrorDeletingItem (Name item) e) ;;
            delete_collected target rest deleted
        end
      else delete_collected target rest deleted
  end.

(** The filtered branch of [choice_4] after [collect_files] has returned
    [data] (line 461 on). *)
Definition choice_4_on_collected (target : string) (data : option (list file_data))
    : M unit :=
  match data with
  | None | Some [] => print MsgNothingToDelete
  | Some data =>
      print (MsgFilesToDelete (length data)) ;;
      print_all (List.map (fun item => MsgListItem (Name item)) data) ;;
      let* confirm := input (PromptDeleteAll (length data)) in
      if String.eqb (PyStr.lower confirm) "yes" then
        let* deleted := delete_collected target data 0 in
        print (MsgDeletedCount deleted (length data))
      else ret tt
  end.

Definition choice_4 (criteria : option FilterCriteria) : M unit :=
  (if COLORAMA_AVAILABLE
   then print MsgDeletionIsPermanent ;; print MsgProceedWithCaution
   else print MsgDeletionIsPermanent) ;;
  let* target := input PromptPathToDelete in
  let* fs := get_fs in
  if negb (OsPath.exists_ fs target) then print (MsgPathNotExist target)
  else if OsPath.isfile fs target then
    let* confirm := input (PromptDeleteFile target) in
    if String.eqb (PyStr.lower confirm) "yes" then
      match Os.remove target fs with
      | inl fs' => put_fs fs' ;; print (MsgDeleted target)
      | inr e => print (MsgErrorDeleting e)
      end
    else ret tt
  else if OsPath.isdir fs target then
    match criteria with
    | Some _ =>
        print MsgFiltersActive ;;
        let* data := call_collect_files target criteria in
        choice_4_on_collected target data
    | None =>
        let* confirm := input (PromptDeleteEntire target) in
        if String.eqb (PyStr.lower confirm) "yes" then
          try_except
            (os_call (shutil_rmtree target) ;;
             print (MsgDeleted target))
            (fun e => print (MsgErrorDeleting e))
        else ret tt
    end
  else ret tt.

End Actions.

(* ====================================================================== *)
(** ** The rest of the menu: setup_filters, choice_2, main *)
(* ====================================================================== *)

(** The other attribute assignments of [setup_filters]. *)
Definition set_only_files (v : bool) (c : FilterCriteria) : FilterCriteria := {|
  only_files := v;
  only_dirs := only_dirs c;
  only_jar := only_jar c;
  only_json := only_json c;
  size_less_than_1mb := size_less_than_1mb c;
  size_more_than_1mb := size_more_than_1mb c;
  exclude_keyword := exclude_keyword c;
  include_keyword := include_keyword c;
  modified_last_24h := modified_last_24h c;
  modified_over_24h := modified_over_24h c;
  show_tree := show_tree c
|}.

Definition set_only_dirs (v : bool) (c : FilterCriteria) : FilterCriteria := {|
  only_files := only_files c;
  only_dirs := v;
  only_jar := only_jar c;
  only_json := only_json c;
  size_less_than_1mb := size_less_than_1mb c;
  size_more_than_1mb := size_more_than_1mb c;
  exclude_keyword := exclude_keyword c;
  include_keyword := include_keyword c;
  modified_last_24h := modified_last_24h c;
  modified_over_24h := modified_over_24h c;
  show_tree := show_tree c
|}.

Definition set_only_json (v : bool) (c : FilterCriteria) : FilterCriteria := {|
  only_files := only_files c;
  only_dirs := only_dirs c;
  only_jar := only_jar c;
  only_json := v;
  size_less_than_1mb := size_less_than_1mb c;
  size_more_than_1mb := size_more_than_1mb c;
  exclude_keyword := exclude_keyword c;
  include_keyword := include_keyword c;
  modified_last_24h := modified_last_24h c;
  modified_over_24h := modified_over_24h c;
  show_tree := show_tree c
|}.

Definition set_exclude_keyword (v : option string) (c : FilterCriteria)
    : FilterCriteria := {|
  only_files := only_files c;
  only_dirs := only_dirs c;
  only_jar := only_jar c;
  only_json := only_json c;
  size_less_than_1mb := size_less_than_1mb c;
  size_more_than_1mb := size_more_than_1mb c;
  exclude_keyword := v;
  include_keyword := include_keyword c;
  modified_last_24h := modified_last_24h c;
  modified_over_24h := modified_over_24h c;
  show_tree := show_tree c
|}.

Definition set_include_keyword (v : option string) (c : FilterCriteria)
    : FilterCriteria := {|
  only_files := only_files c;
  only_dirs := only_dirs c;
  only_jar := only_jar c;
  only_json := only_json c;
  size_less_than_1mb := size_less_than_1mb c;
  size_more_than_1mb := size_more_than_1mb c;
  exclude_keyword := exclude_keyword c;
  include_keyword := v;
  modified_last_24h := modified_last_24h c;
  modified_over_24h := modified_over_24h c;
  show_tree := show_tree c
|}.

Definition set_modified_last_24h (v : bool) (c : FilterCriteria) : FilterCriteria := {|
  only_files := only_files c;
  only_dirs := only_dirs c;
  only_jar := only_jar c;
  only_json := only_json c;
  size_less_than_1mb := size_less_than_1mb c;
  size_more_than_1mb := size_more_than_1mb c;
  exclude_keyword := exclude_keyword c;
  include_keyword := include_keyword c;
  modified_last_24h := v;
  modified_over_24h := modified_over_24h c;
  show_tree := show_tree c
|}.

Definition set_modified_over_24h (v : bool) (c : FilterCriteria) : FilterCriteria := {|
  only_files := only_files c;
  only_dirs := only_dirs c;
  only_jar := only_jar c;
  only_json := only_json c;
  size_less_than_1mb := size_less_than_1mb c;
  size_more_than_1mb := size_more_than_1mb c;
  exclude_keyword := exclude_keyword c;
  include_keyword := include_keyword c;
  modified_last_24h := modified_last_24h c;
  modified_over_24h := v;
  show_tree := show_tree c
|}.

Definition set_show_tree (v : bool) (c : FilterCriteria) : FilterCriteria := {|
  only_files := only_files c;
  only_dirs := only_dirs c;
  only_jar := only_jar c;
  only_json := only_json c;
  size_less_than_1mb := size_less_than_1mb c;
  size_more_than_1mb := size_more_than_1mb c;
  exclude_keyword := exclude_keyword c;
  include_keyword := include_keyword c;
  modified_last_24h := modified_last_24h c;
  modified_over_24h := modified_over_24h c;
  show_tree := v
|}.

(** [s.split(sep)] for a separator of one character: the pieces between the
    separators, empty ones included; never the empty list. *)
Fixpoint split_on (sep : ascii) (s : string) : list string :=
  match s with
  | EmptyString => [EmptyString]
  | String c s' =>
      if Ascii.eqb c sep then EmptyString :: split_on sep s'
      else
        match split_on sep s' with
        | piece :: pieces => String c piece :: pieces
        | [] => [String c EmptyString]
        end
  end.

(** The lines printed by [setup_filters], [choice_2] and [main], one
    constructor for each [print] or prompt; the numbered lines of the two
    menus carry their number. *)
Inductive menu_msg :=
(* setup_filters *)
| PromptApplyFilters
| MsgAvailableFilters
| MsgFilterChoice (n : nat)
| MsgSelectMultiple
| PromptFilterNumbers
| MsgFilterOn (n : nat)
| PromptExcludeKeyword
| MsgExcludeOn (keyword : string)
| PromptIncludeKeyword
| MsgIncludeOn (keyword : string)
(* choice_2 *)
| PromptSearchPath
| PromptSearchTerm
| MsgSearching (search_term path : string)
| MsgDashes
| MsgFound (found_count : nat) (file : string)
| MsgFoundPath (full_path : string)
| MsgFoundSize (size : Z)
| MsgNoneFound (search_term : string)
| MsgFoundTotal (found_count : nat) (search_term : string)
(* main *)
| MsgRule60
| MsgWelcome
| MsgMenuRule
| MsgMenuTitle
| MsgMenuChoice (n : nat)
| MsgMenuExit
| PromptChoice
| MsgGoodbye
| MsgFiltersRule
| MsgFiltersRuleEnd
| MsgInvalidChoice.

(** A line of the whole session: printed by one of the actions above or by
    the menu code. *)
Inductive line :=
| Act (m : msg)
| Menu (m : menu_msg).

Record Session := {
  s_fs : gmap string node;
  s_now : Q;
  s_stdin : list string;
  s_stdout : list line
}.

Definition SM (A : Type) : Type := Session -> result A * Session.

Definition sret {A} (a : A) : SM A := fun s => (Ok a, s).

Definition sbind {A B} (c : SM A) (k : A -> SM B) : SM B :=
  fun s =>
    match c s with
    | (Ok a, s') => k a s'
    | (Raise e, s') => (Raise e, s')
    end.

Declare Scope session_scope.
Delimit Scope session_scope with session.

Notation "'let*' x ':=' c 'in' k" := (sbind c (fun x => k))
  (at level 10, x name, c at level 100, k at level 200) : session_scope.
Notation "c ';;' k" := (sbind c (fun _ => k))
  (at level 100, k at level 200, right associativity) : session_scope.

Definition sprint (m : menu_msg) : SM unit :=
  fun s => (Ok tt, {| s_fs := s_fs s; s_now := s_now s; s_stdin := s_stdin s;
                      s_stdout := s_stdout s ++ [Menu m] |}).

Definition sprint_all (ms : list menu_msg) : SM unit :=
  fun s => (Ok tt, {| s_fs := s_fs s; s_now := s_now s; s_stdin := s_stdin s;
                      s_stdout := s_stdout s ++ List.map Menu ms |}).

Definition sinput (prompt : menu_msg) : SM string :=
  fun s =>
    match s_stdin s with
    | l :: rest =>
        (Ok l, {| s_fs := s_fs s; s_now := s_now s; s_stdin := rest;
                  s_stdout := s_stdout s ++ [Menu prompt] |})
    | [] =>
        (Raise EOFError, {| s_fs := s_fs s; s_now := s_now s; s_stdin := [];
                            s_stdout := s_stdout s ++ [Menu prompt] |})
    end.

Definition sget : SM Session := fun s => (Ok s, s).

Definition sraise {A} (e : exn) : SM A := fun s => (Raise e, s).

(** An action of the first part run inside the session: it starts on the
    session's file system, clock and input, and its lines are added to the
    session's. *)
Definition act {A} (a : M A) : SM A :=
  fun s =>
    let '(r, w) := a {| w_fs := s_fs s; w_now := s_now s; w_stdin := s_stdin s;
                        w_stdout := [] |} in
    (r, {| s_fs := w_fs w; s_now := w_now w; s_stdin := w_stdin w;
           s_stdout := s_stdout s ++ List.map Act (w_stdout w) |}).

Local Open Scope session_scope.

(** One pass of the [for f in filter_list] loop. *)
Definition apply_filter (f : string) (criteria : FilterCriteria) : SM FilterCriteria :=
  if String.eqb f "1" then sprint (MsgFilterOn 1) ;; sret (set_only_files true criteria)
  else if String.eqb f "2" then sprint (MsgFilterOn 2) ;; sret (set_only_dirs true criteria)
  else if String.eqb f "3" then sprint (MsgFilterOn 3) ;; sret (set_only_jar true criteria)
  else if String.eqb f "4" then sprint (MsgFilterOn 4) ;; sret (set_only_json true criteria)
  else if String.eqb f "5" then
    sprint (MsgFilterOn 5) ;; sret (set_size_less_than_1mb true criteria)
  else if String.eqb f "6" then
    sprint (MsgFilterOn 6) ;; sret (set_size_more_than_1mb true criteria)
  else if String.eqb f "7" then
    let* keyword := sinput PromptExcludeKeyword in
    sprint (MsgExcludeOn keyword) ;;
    sret (set_exclude_keyword (Some keyword) criteria)
  else if String.eqb f "8" then
    let* keyword := sinput PromptIncludeKeyword in
    sprint (MsgIncludeOn keyword) ;;
    sret (set_include_keyword (Some keyword) criteria)
  else if String.eqb f "9" then
    sprint (MsgFilterOn 9) ;; sret (set_modified_last_24h true criteria)
  else if String.eqb f "10" then
    sprint (MsgFilterOn 10) ;; sret (set_modified_over_24h true criteria)
  else if String.eqb f "11" then
    sprint (MsgFilterOn 11) ;; sret (set_show_tree true criteria)
  else sret criteria.

Fixpoint apply_filters (filter_list : list string) (criteria : FilterCriteria)
    : SM FilterCriteria :=
  match filter_list with
  | [] => sret criteria
  | f :: rest =>
      let* criteria := apply_filter f criteria in
      apply_filters rest criteria
  end.

(** [[f.strip() for f in filter_input.split(",")]] *)
Definition filter_tokens (filter_input : string) : list string :=
  List.map PyStr.strip (split_on ","%char filter_input).

Definition setup_filters : SM (option FilterCriteria) :=
  let* filter_choice := sinput PromptApplyFilters in
  if negb (String.eqb (PyStr.lower filter_choice) "yes") then sret None
  else
    sprint MsgAvailableFilters ;;
    sprint_all (List.map MsgFilterChoice (seq 1 11)) ;;
    sprint MsgSelectMultiple ;;
    let* filter_input := sinput PromptFilterNumbers in
    let* criteria := apply_filters (filter_tokens filter_input) FilterCriteria_init in
    sret (Some criteria).

(** The [for file in files] loop of [choice_2] for one directory of the
    walk: the lines printed and the new value of [found_count]. *)
Fixpoint search_files (os : StatView) (criteria : option FilterCriteria)
    (search_term root : string) (files : list string) (found_count : nat)
    : list menu_msg * nat :=
  match files with
  | [] => ([], found_count)
  | file :: rest =>
      if PyStr.contains (PyStr.lower file) search_term then
        let full_path := OsPath.join root file in
        if negb (passes os criteria file full_path false)
        then search_files os criteria search_term root rest found_count
        else
          let found_count := S found_count in
          let '(out, n) := search_files os criteria search_term root rest found_count in
          (MsgFound found_count file :: MsgFoundPath full_path ::
           match getsize os full_path with
           | Some size => [MsgFoundSize size]
           | None => []
           end ++ out, n)
      else search_files os criteria search_term root rest found_count
  end.

(** The [for root, dirs, files in os.walk(path)] loop. *)
Fixpoint search_walk (os : StatView) (criteria : option FilterCriteria)
    (search_term : string) (walk : list (string * list string * list string))
    (found_count : nat) : list menu_msg * nat :=
  match walk with
  | [] => ([], found_count)
  | (root, _, files) :: rest =>
      let '(out, n) := search_files os criteria search_term root files found_count in
      let '(out', n') := search_walk os criteria search_term rest n in
      (out ++ out', n')
  end.

(** How [main] ends: [sys.exit] or an exception nothing catches. *)
Inductive ending :=
| SystemExit (code : Z)
| Uncaught (e : exn).

Section Menu.

Variable COLORAMA_AVAILABLE : bool.
Variable script_dir : string.
Variable recursion_depth : nat.
Variable os_makedirs : string -> gmap string node -> gmap string node * option exn.
Variable json_dump_to :
  string -> json_doc -> gmap string node -> gmap string node * option exn.
Variable shutil_move :
  string -> string -> gmap string node -> gmap string node * option exn.
Variable shutil_rmtree : string -> gmap string node -> gmap string node * option exn.

(** What iterating [os.walk(path)] gives on a file system: the triples
    [(root, dirs, files)] it yields, in the order of the walk, and the
    exception that ends the iteration when there is one.  [os.walk] swallows
    the errors of the directories it cannot scan, but not, for one, the
    [ValueError] of a path that holds a NUL character.  The program reads
    the walk and does nothing else with it. *)
Variable os_walk :
  gmap string node -> string ->
  list (string * list string * list string) * option exn.

Definition choice_2 (criteria : option FilterCriteria) : SM unit :=
  let* path := sinput PromptSearchPath in
  let* search_term := sinput PromptSearchTerm in
  let search_term := PyStr.lower search_term in
  sprint (MsgSearching search_term path) ;;
  sprint MsgDashes ;;
  let* s := sget in
  let '(walk, raised) := os_walk (s_fs s) path in
  let '(out, found_count) :=
    search_walk (stat_view (s_fs s) (s_now s)) criteria search_term walk 0 in
  sprint_all out ;;
  match raised with
  | Some e => sraise e
  | None =>
      sprint MsgDashes ;;
      if (found_count =? 0)%nat then sprint (MsgNoneFound search_term)
      else sprint (MsgFoundTotal found_count search_term)
  end.

(** One pass of the [while True] loop of [main]: [Some code] when
    [sys.exit(code)] is called, [None] when the loop goes round again. *)
Definition main_pass : SM (option Z) :=
  sprint MsgMenuRule ;;
  sprint MsgMenuTitle ;;
  sprint_all (List.map MsgMenuChoice (seq 1 4)) ;;
  sprint MsgMenuExit ;;
  sprint MsgRule60 ;;
  let* choice := sinput PromptChoice in
  let choice := PyStr.lower (PyStr.strip choice) in
  if String.eqb choice "exit" then
    sprint MsgGoodbye ;;
    sret (Some 0)
  else
    sprint MsgFiltersRule ;;
    let* criteria := setup_filters in
    sprint MsgFiltersRuleEnd ;;
    (if String.eqb choice "1" then
       act (choice_1 script_dir recursion_depth os_makedirs json_dump_to criteria)
     else if String.eqb choice "2" then choice_2 criteria
     else if String.eqb choice "3" then act (choice_3 shutil_move criteria)
     else if String.eqb choice "4" then
       act (choice_4 COLORAMA_AVAILABLE recursion_depth shutil_rmtree criteria)
     else sprint MsgInvalidChoice) ;;
    sret None.

(** The loop, for at most [passes_left] passes; [None] when they are used
    up before the program ends. *)
Fixpoint main_loop (passes_left : nat) (s : Session) : option (ending * Session) :=
  match passes_left with
  | O => None
  | S passes_left' =>
      match main_pass s with
      | (Raise e, s') => Some (Uncaught e, s')
      | (Ok (Some code), s') => Some (SystemExit code, s')
      | (Ok None, s') => main_loop passes_left' s'
      end
  end.

(** [main]: the banner, then the loop.  Every pass reads a line or ends the
    program, so one pass more than there are lines is enough (proved below). *)
Definition main (s : Session) : option (ending * Session) :=
  match (sprint MsgRule60 ;; sprint MsgWelcome ;; sprint MsgRule60) s with
  | (_, s') => main_loop (S (length (s_stdin s'))) s'
  end.

(** [run_file_module] *)
Definition run_file_module (s : Session) : option (ending * Session) := main s.

End Menu.

Local Close Scope session_scope.

(* ====================================================================== *)
(** ** Vocabulary of the statements *)
(* ====================================================================== *)

(** The exception [os.remove] would raise for the node at [p], if any. *)
Definition remove_error (fs : gmap string node) (p : string) : option exn :=
  fs !! p ≫= n_remove.

(** The file system after the entries at [removed] went, first one first. *)
Definition unlink_all (removed : list string) (fs : gmap string node)
    : gmap string node :=
  fold_left (fun fs p => Os.unlink p fs) removed fs.

(** How many lines report a successful removal of the batch. *)
Definition count_deleted_items (out : list msg) : nat :=
  length (List.filter
            (fun m => match m with MsgDeletedItem _ => true | _ => false end) out).

(** The warning [choice_4] starts with: two lines with [colorama], one
    without. *)
Definition deletion_warning (colorama_available : bool) : list msg :=
  if colorama_available then [MsgDeletionIsPermanent; MsgProceedWithCaution]
  else [MsgDeletionIsPermanent].

(** A caller tells absence from the empty result when its continuation
    after [collect_files] does not do the same on [None] and on [[]]. *)
Definition distinguishes (k : option (list file_data) -> M unit) : Prop :=
  forall w, k None w <> k (Some []) w.

(** The name of the JSON file as the specification words it, to be compared
    with [json_file_name]: a [.json] suffix is stripped, then the dots, and
    one [.json] is put at the end.  [removesuffix] is Python's
    [str.removesuffix]. *)
Definition removesuffix (s suffix : string) : string :=
  if PyStr.endswith s suffix
  then String.substring 0 (String.length s - String.length suffix) s
  else s.

Fixpoint without_dots (s : string) : string :=
  match s with
  | EmptyString => EmptyString
  | String c s' =>
      if Ascii.eqb c "."%char then without_dots s' else String c (without_dots s')
  end.

Definition json_file_name_as_worded (name : string) : string :=
  if String.eqb name "" then "dataStore.json"
  else without_dots (removesuffix name ".json") +:+ ".json".

(* ====================================================================== *)
(** ** Sample worlds *)
(* ====================================================================== *)

Definition sample_file (size : Z) : node :=
  {| n_kind := KFile; n_size := Some size; n_mtime := Some 0%Q; n_remove := None |}.

Definition sample_dir (listing : list string + exn) : node :=
  {| n_kind := KDir listing; n_size := Some 4096; n_mtime := Some 0%Q;
     n_remove := None |}.

(** [d] holds a 10-byte [a.jar] and a 2000000-byte [b.txt]; [texts] holds
    one text file; [locked] cannot be listed. *)
Definition sample_fs : gmap string node :=
  <["d" := sample_dir (inl ["a.jar"; "b.txt"])]>
  (<["d/a.jar" := sample_file 10]>
  (<["d/b.txt" := sample_file 2000000]>
  (<["texts" := sample_dir (inl ["notes.txt"])]>
  (<["texts/notes.txt" := sample_file 1048576]>
  (<["locked" := sample_dir (inr PermissionError)]> ∅))))).

Definition sample_world (lines : list string) : World :=
  {| w_fs := sample_fs; w_now := 100%Q; w_stdin := lines; w_stdout := [] |}.

Definition jar_only : FilterCriteria := set_only_jar true FilterCriteria_init.

Definition tree_only : FilterCriteria := {|
  only_files := false;
  only_dirs := false;
  only_jar := false;
  only_json := false;
  size_less_than_1mb := false;
  size_more_than_1mb := false;
  exclude_keyword := None;
  include_keyword := None;
  modified_last_24h := false;
  modified_over_24h := false;
  show_tree := true
|}.

Definition both_kinds : FilterCriteria := {|
  only_files := true;
  only_dirs := true;
  only_jar := false;
  only_json := false;
  size_less_than_1mb := false;
  size_more_than_1mb := false;
  exclude_keyword := None;
  include_keyword := None;
  modified_last_24h := false;
  modified_over_24h := false;
  show_tree := false
|}.

Definition small_and_recent : FilterCriteria := {|
  only_files := false;
  only_dirs := false;
  only_jar := false;
  only_json := false;
  size_less_than_1mb := true;
  size_more_than_1mb := false;
  exclude_keyword := None;
  include_keyword := None;
  modified_last_24h := true;
  modified_over_24h := false;
  show_tree := false
|}.

(** A system on which only the size of a file cannot be read, one on which
    only its modification time cannot, and one that reports 1048576 bytes. *)
Definition size_unreadable : StatView :=
  {| getsize := fun _ => None; getmtime := fun _ => Some 50%Q; time_time := 100%Q |}.

Definition mtime_unreadable : StatView :=
  {| getsize := fun _ => Some 10; getmtime := fun _ => None; time_time := 100%Q |}.

Definition exactly_1024_kib : StatView :=
  {| getsize := fun _ => Some 1048576; getmtime := fun _ => Some 50%Q;
     time_time := 100%Q |}.

(** Stand-ins for the library calls: a [shutil.move] that renames, an
    [os.makedirs] that creates the folder, a [json.dump] that writes a file
    and an [shutil.rmtree] that removes the directory node. *)
Definition sample_move (source destination : string) (fs : gmap string node)
    : gmap string node * option exn :=
  match fs !! source with
  | Some n => (<[destination := n]> (delete source fs), None)
  | None => (fs, Some FileNotFoundError)
  end.

Definition sample_makedirs (d : string) (fs : gmap string node)
    : gmap string node * option exn :=
  match fs !! d with
  | Some _ => (fs, None)
  | None => (<[d := sample_dir (inl [])]> fs, None)
  end.

Definition sample_json_dump (json_path : string) (doc : json_doc)
    (fs : gmap string node) : gmap string node * option exn :=
  (<[json_path := sample_file 1]> fs, None).

Definition sample_rmtree (target : string) (fs : gmap string node)
    : gmap string node * option exn :=
  (delete target fs, None).

(* ====================================================================== *)
(** ** Vocabulary of the further statements *)
(* ====================================================================== *)



(** The entries a tree shows at depth [indent], in the order of the lines. *)
Definition entries_at (indent : nat) (out : list msg) : list string :=
  omap (fun m =>
          match m with
          | TreeDirLine i entry | TreeFileLine i entry _ =>
              if (i =? indent)%nat then Some entry else None
          | _ => None
          end) out.

(** The indentation of a line of the tree. *)
Definition tree_indent (m : msg) : option nat :=
  match m with
  | TreeDirLine i _ | TreeFileLine i _ _ | TreePermissionDenied i | TreeError i _ =>
      Some i
  | _ => None
  end.

(** Whether the number [n] is among the tokens of the filter line. *)
Definition chosen (n filter_input : string) : bool :=
  existsb (String.eqb n) (filter_tokens filter_input).

(** The files of a walk a search reports, with their directories, in the
    order of the walk: the name contains the term, whatever the case of the
    name, and the file passes the criteria. *)
Definition search_matches (os : StatView) (criteria : option FilterCriteria)
    (search_term : string) (walk : list (string * list string * list string))
    : list (string * string) :=
  List.concat
    (List.map
       (fun '(root, _, files) =>
          List.map (fun file => (root, file))
            (List.filter
               (fun file =>
                  PyStr.contains (PyStr.lower file) search_term
                  && passes os criteria file (OsPath.join root file) false)
               files))
       walk).

(** The numbered "Found" lines of a search output. *)
Definition found_lines (out : list menu_msg) : list (nat * string) :=
  omap (fun m => match m with MsgFound k file => Some (k, file) | _ => None end) out.

(** The lines of the menu up to the question, and the banner. *)
Definition menu_lines : list menu_msg :=
  [MsgMenuRule; MsgMenuTitle; MsgMenuChoice 1; MsgMenuChoice 2; MsgMenuChoice 3;
   MsgMenuChoice 4; MsgMenuExit; MsgRule60; PromptChoice].

Definition banner_lines : list menu_msg := [MsgRule60; MsgWelcome; MsgRule60].

(** A line typed at the menu that means exit. *)
Definition is_exit (l : string) : bool :=
  String.eqb (PyStr.lower (PyStr.strip l)) "exit".

(** The nine flags of the criteria, and the numbers that set them in
    [setup_filters], in the same order. *)
Definition flag_values (c : FilterCriteria) : list bool :=
  [only_files c; only_dirs c; only_jar c; only_json c; size_less_than_1mb c;
   size_more_than_1mb c; modified_last_24h c; modified_over_24h c; show_tree c].

Definition flag_numbers : list string :=
  ["1"; "2"; "3"; "4"; "5"; "6"; "9"; "10"; "11"].

(** How many tokens ask for a keyword. *)
Definition keyword_questions (tokens : list string) : nat :=
  length (List.filter (fun f => String.eqb f "7" || String.eqb f "8") tokens).

(** The "Path" lines of a search output. *)
Definition found_paths (out : list menu_msg) : list string :=
  omap (fun m => match m with MsgFoundPath p => Some p | _ => None end) out.

(** An action that reads its input forwards (what is left to read is an end
    of what there was) and raises only exceptions in [P]. *)
Definition behaves {A} (P : exn -> Prop) (a : M A) : Prop :=
  forall w,
    w_stdin (snd (a w)) `suffix_of` w_stdin w
    /\ forall e, fst (a w) = Raise e -> P e.

Definition sbehaves {A} (P : exn -> Prop) (a : SM A) : Prop :=
  forall s,
    s_stdin (snd (a s)) `suffix_of` s_stdin s
    /\ forall e, fst (a s) = Raise e -> P e.

(** The exceptions that can leave the menu: the end of the input, or one
    that [os.makedirs] raises. *)
Definition end_of_input_or_makedirs
    (os_makedirs : string -> gmap string node -> gmap string node * option exn)
    (e : exn) : Prop :=
  e = EOFError \/ exists d fs, snd (os_makedirs d fs) = Some e.

(** The exceptions that can end [main]: those above, or one that ends the
    iteration of [os.walk]. *)
Definition end_of_input_makedirs_or_walk
    (os_makedirs : string -> gmap string node -> gmap string node * option exn)
    (os_walk : gmap string node -> string ->
               list (string * list string * list string) * option exn)
    (e : exn) : Prop :=
  end_of_input_or_makedirs os_makedirs e
  \/ exists fs path, snd (os_walk fs path) = Some e.

(** ** More sample worlds *)

Definition sample_session (lines : list string) : Session :=
  {| s_fs := sample_fs; s_now := 100%Q; s_stdin := lines; s_stdout := [] |}.

(** A walk of the sample file system: each directory holds files only, a
    directory that cannot be listed yields nothing, and a path that holds a
    NUL character raises [ValueError]. *)
Definition sample_walk (fs : gmap string node) (path : string)
    : list (string * list string * list string) * option exn :=
  if PyStr.contains path (String Ascii.zero EmptyString) then ([], Some ValueError)
  else
    match Os.listdir fs path with
    | inl entries => ([(path, [], entries)], None)
    | inr _ => ([], None)
    end.

(** A path that holds a NUL character. *)
Definition nul_path : string := String "a"%char (String Ascii.zero "b").

(** A walk that raises after it has yielded one directory with two files. *)
Definition breaking_walk (fs : gmap string node) (path : string)
    : list (string * list string * list string) * option exn :=
  ([(path, [], ["a.jar"; "b.txt"])], Some RecursionError).

(** The two pairs of reads of a file last modified at time 0: the clock at
    86400 for the first test, one second later for the second. *)
Definition first_reads : StatView :=
  {| getsize := fun _ => Some 10; getmtime := fun _ => Some 0%Q; time_time := 86400%Q |}.

Definition second_reads : StatView :=
  {| getsize := fun _ => Some 10; getmtime := fun _ => Some 0%Q; time_time := 86401%Q |}.

Definition jar_and_json : FilterCriteria := set_only_json true jar_only.

Definition both_sizes : FilterCriteria :=
  set_size_more_than_1mb true (set_size_less_than_1mb true FilterCriteria_init).

Definition both_mtimes : FilterCriteria :=
  set_modified_over_24h true (set_modified_last_24h true FilterCriteria_init).

Definition files_only : FilterCriteria := set_only_files true FilterCriteria_init.

(** [top] holds a file, a directory [sub] with one file, and a directory
    [shut] that cannot be listed. *)
Definition tree_fs : gmap string node :=
  <["top" := sample_dir (inl ["one.txt"; "sub"; "shut"; "two.txt"])]>
  (<["top/one.txt" := sample_file 1]>
  (<["top/sub" := sample_dir (inl ["deep.txt"])]>
  (<["top/sub/deep.txt" := sample_file 2]>
  (<["top/shut" := sample_dir (inr PermissionError)]>
  (<["top/two.txt" := sample_file 3]> ∅))))).

(** A file that [os.remove] refuses to remove, next to one it removes. *)
Definition guarded_fs : gmap string node :=
  <["g" := sample_dir (inl ["kept.jar"; "gone.jar"])]>
  (<["g/kept.jar" := {| n_kind := KFile; n_size := Some 5; n_mtime := Some 0%Q;
                        n_remove := Some PermissionError |}]>
  (<["g/gone.jar" := sample_file 5]> ∅)).



Definition failing_move (source destination : string) (fs : gmap string node)
    : gmap string node * option exn := (fs, Some PermissionError).

(* ====================================================================== *)
(** * Properties *)
(* ====================================================================== *)

(** ** The filter predicate *)

(** The quotient [size / 1024] reaches 1024 exactly from 1048576 bytes on. *)
Lemma size_kb_ge_1024 (size : Z) :
  Qle_bool 1024 (inject_Z size / 1024) = (1048576 <=? size).
Proof.
  destruct (Z.leb_spec 1048576 size) as [H | H].
  - apply Qle_bool_iff. unfold Qle. cbn. lia.
  - destruct (Qle_bool 1024 (inject_Z size / 1024)) eqn:E; [| reflexivity].
    apply Qle_bool_iff in E. unfold Qle in E. cbn in E. lia.
Qed.

Lemma size_kb_lt_1024 (size : Z) :
  Qlt_bool (inject_Z size / 1024) 1024 = (size <? 1048576).
Proof.
  unfold Qlt_bool. rewrite size_kb_ge_1024.
  rewrite Z.ltb_antisym. reflexivity.
Qed.

(** What filters 5 and 6 decide once the size is known. *)
Lemma size_filter_rejects_known os c path size :
  getsize os path = Some size ->
  size_filter_rejects os c path =
    (size_less_than_1mb c && (1048576 <=? size))
    || (size_more_than_1mb c && (size <? 1048576)).
Proof.
  intros Hsize. unfold size_filter_rejects. rewrite Hsize.
  cbv zeta. rewrite size_kb_ge_1024, size_kb_lt_1024.
  destruct (size_less_than_1mb c), (size_more_than_1mb c),
    (1048576 <=? size) eqn:E1, (size <? 1048576) eqn:E2; reflexivity.
Qed.

Lemma size_filter_rejects_unknown os c path :
  getsize os path = None -> size_filter_rejects os c path = false.
Proof. intros Hsize. unfold size_filter_rejects. now rewrite Hsize. Qed.

(** A file is included exactly when none of the file filters rejects it. *)
Lemma should_include_file os c name path :
  should_include os c name path false =
    negb (only_dirs c)
    && negb (only_jar c && negb (PyStr.endswith (PyStr.lower name) ".jar"))
    && negb (only_json c && negb (PyStr.endswith (PyStr.lower name) ".json"))
    && negb (size_filter_rejects os c path)
    && negb (exclude_keyword_rejects c name)
    && negb (include_keyword_rejects c name)
    && negb (modified_last_24h_rejects os c path)
    && negb (modified_over_24h_rejects os c path).
Proof.
  unfold should_include.
  rewrite andb_false_r. cbn [negb]. rewrite andb_true_r.
  destruct (only_dirs c); [reflexivity |].
  destruct (only_jar c && _); [reflexivity |].
  destruct (only_json c && _); [reflexivity |].
  destruct (size_filter_rejects os c path); [reflexivity |].
  destruct (exclude_keyword_rejects c name); [reflexivity |].
  destruct (include_keyword_rejects c name); [reflexivity |].
  destruct (modified_last_24h_rejects os c path); [reflexivity |].
  destruct (modified_over_24h_rejects os c path); reflexivity.
Qed.

(** C9.  With the criteria as [__init__] leaves them (no flag set, no
    keyword), [should_include] returns true for every entry: any name, any
    path, file or directory, whatever the stat calls answer. *)
Theorem should_include_init_identity :
  forall (os : StatView) (entry_name entry_path : string) (is_dir : bool),
    should_include os FilterCriteria_init entry_name entry_path is_dir = true.
Proof.
  intros os entry_name entry_path [|]; [reflexivity |].
  rewrite should_include_file.
  unfold size_filter_rejects, exclude_keyword_rejects, include_keyword_rejects,
    modified_last_24h_rejects, modified_over_24h_rejects.
  cbn. destruct (getsize os entry_path); reflexivity.
Qed.

(** C3.  When the files-only flag and the directories-only flag are both
    set, [should_include] returns false for every entry, file or directory
    alike. *)
Theorem both_kind_flags_exclude_everything :
  forall (os : StatView) (c : FilterCriteria)
         (entry_name entry_path : string) (is_dir : bool),
    only_files c = true ->
    only_dirs c = true ->
    should_include os c entry_name entry_path is_dir = false.
Proof.
  intros os c entry_name entry_path is_dir Hfiles Hdirs.
  unfold should_include. rewrite Hfiles, Hdirs.
  destruct is_dir; reflexivity.
Qed.

(** C4.  A directory passes whenever the files-only flag is not set,
    whatever the extension, size, keyword and modification-time settings
    are; a directory named "secret.jar" passes the criteria whose only
    flag is jar-only. *)
Theorem directory_passes_unless_files_only :
  (forall (os : StatView) (c : FilterCriteria) (entry_name entry_path : string),
      only_files c = false ->
      should_include os c entry_name entry_path true = true)
  /\ (forall (os : StatView) (entry_path : string),
         should_include os (set_only_jar true FilterCriteria_init)
           "secret.jar" entry_path true = true).
Proof.
  split.
  - intros os c entry_name entry_path Hfiles.
    unfold should_include. rewrite Hfiles.
    cbn. rewrite andb_false_r. reflexivity.
  - intros os entry_path. reflexivity.
Qed.

(** C2.  For a file: when the size cannot be read, the two size filters
    decide nothing.  The answer is the one given with both size flags off,
    on any system that reports the same modification time and clock,
    whatever it reports as the size; so the file is included whenever it
    would be with a size that can be read, and with no criteria but size
    flags it is included.  When the modification time cannot be read and one
    of the two modification-time flags is set, the file is excluded. *)
Theorem stat_failure_open_for_size_closed_for_mtime :
  forall (os : StatView) (c : FilterCriteria) (entry_name entry_path : string),
    (getsize os entry_path = None ->
       (forall os' : StatView,
           getmtime os' entry_path = getmtime os entry_path ->
           time_time os' = time_time os ->
           should_include os c entry_name entry_path false =
           should_include os'
             (set_size_less_than_1mb false (set_size_more_than_1mb false c))
             entry_name entry_path false
           /\ (should_include os' c entry_name entry_path false = true ->
               should_include os c entry_name entry_path false = true))
       /\ (forall less more : bool,
             should_include os
               (set_size_less_than_1mb less
                  (set_size_more_than_1mb more FilterCriteria_init))
               entry_name entry_path false = true))
    /\ (getmtime os entry_path = None ->
        modified_last_24h c = true \/ modified_over_24h c = true ->
        should_include os c entry_name entry_path false = false).
Proof.
  intros os c entry_name entry_path. split.
  - intros Hsize. split.
    + intros os' Hmtime Hclock.
      assert (Hflags : size_filter_rejects os'
                (set_size_less_than_1mb false (set_size_more_than_1mb false c))
                entry_path = false).
      { unfold size_filter_rejects. cbn.
        destruct (getsize os' entry_path); reflexivity. }
      assert (Heq : should_include os c entry_name entry_path false =
                    should_include os'
                      (set_size_less_than_1mb false (set_size_more_than_1mb false c))
                      entry_name entry_path false).
      { rewrite !should_include_file.
        rewrite (size_filter_rejects_unknown _ _ _ Hsize), Hflags.
        unfold modified_last_24h_rejects, modified_over_24h_rejects.
        cbn. rewrite Hmtime, Hclock. reflexivity. }
      split; [exact Heq |].
      intros Hpass. rewrite Heq. revert Hpass.
      rewrite !should_include_file, Hflags.
      cbn. destruct (size_filter_rejects os' c entry_path); cbn.
      * rewrite !andb_false_r. cbn. discriminate.
      * trivial.
    + intros less more. rewrite should_include_file.
      rewrite (size_filter_rejects_unknown _ _ _ Hsize). reflexivity.
  - intros Hmtime Hflag. rewrite should_include_file.
    unfold modified_last_24h_rejects, modified_over_24h_rejects.
    rewrite Hmtime.
    destruct Hflag as [-> | ->].
    + rewrite andb_false_r. reflexivity.
    + apply andb_false_r.
Qed.

(** C6.  For a file whose size is known: at exactly 1048576 bytes the
    under-1MB filter excludes it and the over-1MB filter changes nothing;
    with the under-1MB flag alone the file passes exactly when its size is
    below 1048576, with the over-1MB flag alone exactly when its size is
    1048576 or more. *)
Theorem size_filters_split_at_1024_kib :
  forall (os : StatView) (entry_name entry_path : string) (size : Z),
    getsize os entry_path = Some size ->
    (forall c, size = 1048576 -> size_less_than_1mb c = true ->
               should_include os c entry_name entry_path false = false)
    /\ (forall c, size = 1048576 ->
                  should_include os (set_size_more_than_1mb true c)
                    entry_name entry_path false =
                  should_include os (set_size_more_than_1mb false c)
                    entry_name entry_path false)
    /\ should_include os (set_size_less_than_1mb true FilterCriteria_init)
         entry_name entry_path false = (size <? 1048576)
    /\ should_include os (set_size_more_than_1mb true FilterCriteria_init)
         entry_name entry_path false = (1048576 <=? size).
Proof.
  intros os entry_name entry_path size Hsize. repeat split.
  - intros c -> Hless. rewrite should_include_file.
    rewrite (size_filter_rejects_known _ _ _ _ Hsize), Hless.
    cbn. rewrite !andb_false_r. reflexivity.
  - intros c ->. rewrite !should_include_file.
    rewrite !(size_filter_rejects_known _ _ _ _ Hsize).
    reflexivity.
  - rewrite should_include_file, (size_filter_rejects_known _ _ _ _ Hsize).
    cbn. rewrite Z.ltb_antisym. destruct (1048576 <=? size); reflexivity.
  - rewrite should_include_file, (size_filter_rejects_known _ _ _ _ Hsize).
    cbn. rewrite Z.leb_antisym. destruct (size <? 1048576); reflexivity.
Qed.

(** ** Path tests *)

Lemma isdir_exists fs p : OsPath.isdir fs p = true -> OsPath.exists_ fs p = true.
Proof.
  unfold OsPath.isdir, OsPath.exists_. destruct (fs !! p); [reflexivity | discriminate].
Qed.

Lemma isfile_exists fs p : OsPath.isfile fs p = true -> OsPath.exists_ fs p = true.
Proof.
  unfold OsPath.isfile, OsPath.exists_. destruct (fs !! p); [reflexivity | discriminate].
Qed.

Lemma isdir_not_isfile fs p : OsPath.isdir fs p = true -> OsPath.isfile fs p = false.
Proof.
  unfold OsPath.isdir, OsPath.isfile.
  destruct (fs !! p) as [n |]; [| reflexivity].
  destruct (n_kind n); [discriminate | reflexivity | discriminate].
Qed.

Lemma listdir_inl_isdir fs p entries :
  Os.listdir fs p = inl entries -> OsPath.isdir fs p = true.
Proof.
  unfold Os.listdir, OsPath.isdir.
  destruct (fs !! p) as [n |]; [| discriminate].
  destruct (n_kind n); [discriminate | reflexivity | discriminate].
Qed.

(** ** The tree printer and the collector *)

(** The first call of the tree printer always returns. *)
Lemma show_directory_tree_returns depth fs now path indent criteria :
  is_Some (show_directory_tree (S depth) fs now path indent criteria).
Proof. cbn. eexists. reflexivity. Qed.

Lemma collect_entries_all_excluded fs now path criteria entries :
  (forall entry, In entry entries ->
     passes (stat_view fs now) criteria entry (OsPath.join path entry)
       (OsPath.isdir fs (OsPath.join path entry)) = false) ->
  collect_entries fs now path criteria entries = [].
Proof.
  induction entries as [| entry rest IH]; intros Hex; [reflexivity |].
  cbn. rewrite (Hex entry (or_introl eq_refl)). cbn.
  apply IH. intros e He. apply Hex. now right.
Qed.

Lemma collect_files_missing depth fs now path criteria :
  OsPath.exists_ fs path = false ->
  collect_files depth fs now path criteria = ([MsgPathNotExist path], None).
Proof. intros H. unfold collect_files. now rewrite H. Qed.

Lemma collect_files_tree depth fs now path c :
  show_tree c = true ->
  OsPath.isdir fs path = true ->
  collect_files depth fs now path (Some c) =
    ([MsgRuleBefore; MsgTreeTitle path; MsgRule] ++
     default [] (show_directory_tree (S depth) fs now path 0 (Some c)) ++
     [MsgRuleAfter], Some []).
Proof.
  intros Htree Hdir. unfold collect_files.
  rewrite (isdir_exists _ _ Hdir), (isdir_not_isfile _ _ Hdir).
  cbn [negb tree_mode]. now rewrite Htree.
Qed.

Lemma collect_files_listed depth fs now path criteria entries :
  tree_mode criteria = false ->
  Os.listdir fs path = inl entries ->
  collect_files depth fs now path criteria =
    ([MsgCollected (length (collect_entries fs now path criteria entries))],
     Some (collect_entries fs now path criteria entries)).
Proof.
  intros Htree Hlist. unfold collect_files.
  pose proof (listdir_inl_isdir _ _ _ Hlist) as Hdir.
  rewrite (isdir_exists _ _ Hdir), (isdir_not_isfile _ _ Hdir), Htree, Hlist.
  reflexivity.
Qed.

(** ** Running the actions *)

Arguments collect_files : simpl never.
Arguments Os.unlink : simpl never.
Arguments unlink_all : simpl never.

Ltac run_action :=
  unfold bind, ret, print, print_all, input, get_fs, get_now, put_fs, os_call,
    try_except, call_collect_files; cbn.

(** Brings the printed lines to one right-nested list. *)
Ltac flatten_out := repeat (rewrite <- ?app_assoc; cbn [app]).

Lemma app_singleton_neq {A} (l : list A) (x : A) : l <> l ++ [x].
Proof.
  intros H. apply (f_equal (@length A)) in H.
  rewrite length_app in H. cbn in H. lia.
Qed.

Lemma world_stdout_neq w m : (Ok tt, w) <> print m w.
Proof.
  unfold print. intros H. injection H as H.
  apply (f_equal w_stdout) in H. cbn in H.
  exact (app_singleton_neq _ _ H).
Qed.

Section ActionFacts.

Variable COLORAMA_AVAILABLE : bool.
Variable script_dir : string.
Variable recursion_depth : nat.
Variable os_makedirs : string -> gmap string node -> gmap string node * option exn.
Variable json_dump_to :
  string -> json_doc -> gmap string node -> gmap string node * option exn.
Variable shutil_move :
  string -> string -> gmap string node -> gmap string node * option exn.
Variable shutil_rmtree : string -> gmap string node -> gmap string node * option exn.

(** C8.  When the source of [choice_3] is a directory and the answer to
    the second question is anything but "yes" (in any letter case), the
    action prints the cancellation, returns, and leaves the file system as
    it was, whatever [shutil.move] would have done: it is not called. *)
Theorem move_directory_cancelled :
  forall (criteria : option FilterCriteria) (w : World)
         (source destination confirm : string) (rest : list string),
    w_stdin w = source :: destination :: confirm :: rest ->
    OsPath.isdir (w_fs w) source = true ->
    PyStr.lower confirm <> "yes" ->
    choice_3 shutil_move criteria w =
      (Ok tt,
       {| w_fs := w_fs w; w_now := w_now w; w_stdin := rest;
          w_stdout := w_stdout w ++
            [PromptMoveSource; PromptDestination; PromptMovingDirectory;
             MsgMoveCancelled] |}).
Proof.
  intros criteria [fs now stdin stdout] source destination confirm rest Hin Hdir Hno.
  cbn in Hin, Hdir. subst stdin.
  apply String.eqb_neq in Hno.
  unfold choice_3. run_action.
  rewrite (isdir_exists _ _ Hdir). cbn. rewrite Hdir. cbn. rewrite Hno. cbn.
  flatten_out. reflexivity.
Qed.

(** C10.  In tree mode on an existing directory [collect_files] returns the
    empty list whatever the directory holds; [choice_1] then prints that
    nothing was collected, asks nothing more and leaves the file system as
    it was (no folder made, no JSON written); and the value returned is the
    one a run without tree mode returns when its filters exclude every
    entry. *)
Theorem tree_mode_returns_empty_list :
  forall (fs : gmap string node) (now : Q) (path : string) (c : FilterCriteria),
    show_tree c = true ->
    OsPath.isdir fs path = true ->
    snd (collect_files recursion_depth fs now path (Some c)) = Some []
    /\ (forall (stdin : list string) (stdout : list msg),
          choice_1 script_dir recursion_depth os_makedirs json_dump_to (Some c)
            {| w_fs := fs; w_now := now; w_stdin := path :: stdin;
               w_stdout := stdout |} =
          (Ok tt,
           {| w_fs := fs; w_now := now; w_stdin := stdin;
              w_stdout := stdout ++ [PromptDirectoryPath] ++
                fst (collect_files recursion_depth fs now path (Some c)) ++
                [MsgNoFilesCollected] |}))
    /\ (forall (c' : FilterCriteria) (entries : list string),
          show_tree c' = false ->
          Os.listdir fs path = inl entries ->
          (forall entry, In entry entries ->
             should_include (stat_view fs now) c' entry (OsPath.join path entry)
               (OsPath.isdir fs (OsPath.join path entry)) = false) ->
          snd (collect_files recursion_depth fs now path (Some c')) =
          snd (collect_files recursion_depth fs now path (Some c))).
Proof.
  intros fs now path c Htree Hdir.
  pose proof (collect_files_tree recursion_depth fs now path c Htree Hdir) as Hcf.
  split; [| split].
  - now rewrite Hcf.
  - intros stdin stdout.
    remember (default [] (show_directory_tree _ fs now path 0 (Some c))) as tree.
    unfold choice_1. run_action.
    rewrite Hcf. cbn. unfold print. cbn.
    flatten_out. reflexivity.
  - intros c' entries Htree' Hlist Hex.
    rewrite Hcf.
    rewrite (collect_files_listed recursion_depth fs now path (Some c') entries Htree' Hlist).
    cbn [snd]. f_equal. apply collect_entries_all_excluded. exact Hex.
Qed.

(** C1 (amended).  [collect_files] returns [None] when the path does not
    exist, when it is a plain file, and, outside tree mode, when the listing
    raises; outside tree mode it returns the empty list when the listing
    succeeds and every entry is excluded.  [choice_1] tells the two apart: on
    [None] it returns without a word, on the empty list it prints that no
    files were collected.  The filtered branch of [choice_4] does not: on
    both it prints the same "nothing to delete" line and stops. *)
Theorem collect_files_absence_and_empty :
  forall (fs : gmap string node) (now : Q) (path : string)
         (criteria : option FilterCriteria),
    (OsPath.exists_ fs path = false ->
       snd (collect_files recursion_depth fs now path criteria) = None)
    /\ (OsPath.isfile fs path = true ->
       snd (collect_files recursion_depth fs now path criteria) = None)
    /\ (tree_mode criteria = false ->
        forall e, Os.listdir fs path = inr e ->
          snd (collect_files recursion_depth fs now path criteria) = None)
    /\ (tree_mode criteria = false ->
        forall entries, Os.listdir fs path = inl entries ->
          (forall entry, In entry entries ->
             passes (stat_view fs now) criteria entry (OsPath.join path entry)
               (OsPath.isdir fs (OsPath.join path entry)) = false) ->
          snd (collect_files recursion_depth fs now path criteria) = Some [])
    /\ (forall w,
          choice_1_on_collected script_dir os_makedirs json_dump_to None w = (Ok tt, w)
          /\ choice_1_on_collected script_dir os_makedirs json_dump_to (Some []) w =
             print MsgNoFilesCollected w)
    /\ distinguishes (choice_1_on_collected script_dir os_makedirs json_dump_to)
    /\ (forall target w,
          choice_4_on_collected target None w = print MsgNothingToDelete w
          /\ choice_4_on_collected target (Some []) w = print MsgNothingToDelete w).
Proof.
  intros fs now path criteria. repeat split.
  - intros H. now rewrite collect_files_missing.
  - intros H. unfold collect_files.
    rewrite (isfile_exists _ _ H), H. reflexivity.
  - intros Htree e He. unfold collect_files.
    destruct (OsPath.exists_ fs path); [| reflexivity]. cbn [negb].
    destruct (OsPath.isfile fs path); [reflexivity |].
    rewrite Htree, He. destruct e; reflexivity.
  - intros Htree entries Hlist Hex.
    rewrite (collect_files_listed _ _ _ _ _ _ Htree Hlist). cbn [snd].
    f_equal. apply collect_entries_all_excluded. exact Hex.
  - intros w. cbn. apply world_stdout_neq.
Qed.

End ActionFacts.

(** ** Removing entries *)

Lemma lookup_unlink p fs q :
  Os.unlink p fs !! q = if decide (q = p) then None else Os.prune p q <$> fs !! q.
Proof.
  unfold Os.unlink. rewrite map_lookup_imap, lookup_delete.
  destruct (decide (p = q)) as [-> | Hne].
  - rewrite decide_True by reflexivity. reflexivity.
  - rewrite decide_False by congruence.
    destruct (fs !! q); reflexivity.
Qed.

Lemma lookup_unlink_eq p fs : Os.unlink p fs !! p = None.
Proof. rewrite lookup_unlink. now rewrite decide_True. Qed.

Lemma lookup_unlink_ne p fs q :
  q <> p -> Os.unlink p fs !! q = Os.prune p q <$> fs !! q.
Proof. intros Hne. rewrite lookup_unlink. now rewrite decide_False. Qed.

(** Pruning a listing keeps everything else about a node. *)
Lemma prune_size p d n : n_size (Os.prune p d n) = n_size n.
Proof. unfold Os.prune. destruct (n_kind n) as [| [names | e] |]; reflexivity. Qed.

Lemma prune_remove p d n : n_remove (Os.prune p d n) = n_remove n.
Proof. unfold Os.prune. destruct (n_kind n) as [| [names | e] |]; reflexivity. Qed.


Lemma prune_is_file p d n :
  match n_kind (Os.prune p d n) with KFile => true | _ => false end =
  match n_kind n with KFile => true | _ => false end.
Proof.
  unfold Os.prune. destruct (n_kind n) as [| [names | e] |] eqn:E; cbn; now rewrite ?E.
Qed.




Lemma isfile_unlink_eq p fs : OsPath.isfile (Os.unlink p fs) p = false.
Proof. unfold OsPath.isfile. now rewrite lookup_unlink_eq. Qed.

Lemma isfile_unlink_ne p fs q :
  q <> p -> OsPath.isfile (Os.unlink p fs) q = OsPath.isfile fs q.
Proof.
  intros Hne. unfold OsPath.isfile. rewrite lookup_unlink_ne by exact Hne.
  destruct (fs !! q) as [n |]; cbn; [apply prune_is_file | reflexivity].
Qed.


Lemma remove_error_unlink_ne p fs q :
  q <> p -> remove_error (Os.unlink p fs) q = remove_error fs q.
Proof.
  intros Hne. unfold remove_error. rewrite lookup_unlink_ne by exact Hne.
  destruct (fs !! q) as [n |]; cbn; [apply prune_remove | reflexivity].
Qed.



(** What [os.remove] does to a path that is a file. *)
Lemma remove_file fs p :
  OsPath.isfile fs p = true ->
  Os.remove p fs =
    match remove_error fs p with
    | Some e => inr e
    | None => inl (Os.unlink p fs)
    end.
Proof.
  unfold OsPath.isfile, Os.remove, remove_error.
  destruct (fs !! p) as [n |]; [| discriminate]. cbn.
  destruct (n_kind n); [reflexivity | discriminate | discriminate].
Qed.

Lemma unlink_all_cons p removed fs :
  unlink_all (p :: removed) fs = unlink_all removed (Os.unlink p fs).
Proof. reflexivity. Qed.






(** ** The batch removal of [choice_4] *)

(** The loop runs to its end whatever fails on the way: it returns, removes
    a duplicate-free list of paths, each a file of the batch whose removal
    raises nothing, and prints one line for each removal and one for each
    failure. *)
Lemma delete_collected_run target data :
  forall (deleted : nat) (w : World),
  exists (removed : list string) (out : list msg),
    delete_collected target data deleted w =
      (Ok (deleted + length removed)%nat,
       {| w_fs := unlink_all removed (w_fs w); w_now := w_now w;
          w_stdin := w_stdin w; w_stdout := w_stdout w ++ out |})
    /\ NoDup removed
    /\ (forall p, In p removed ->
          OsPath.isfile (w_fs w) p = true
          /\ remove_error (w_fs w) p = None
          /\ exists item, In item data /\ p = OsPath.join target (Name item))
    /\ (forall item, In item data ->
          OsPath.isfile (w_fs w) (OsPath.join target (Name item)) = true ->
          remove_error (w_fs w) (OsPath.join target (Name item)) = None ->
          In (OsPath.join target (Name item)) removed)
    /\ (forall item e, In item data ->
          OsPath.isfile (w_fs w) (OsPath.join target (Name item)) = true ->
          remove_error (w_fs w) (OsPath.join target (Name item)) = Some e ->
          In (MsgErrorDeletingItem (Name item) e) out)
    /\ count_deleted_items out = length removed.
Proof.
  induction data as [| item rest IH]; intros deleted [fs now stdin stdout].
  - exists [], []. cbn. rewrite Nat.add_0_r, app_nil_r.
    repeat split; try constructor; try contradiction.
  - cbn [delete_collected]. run_action.
    set (p := OsPath.join target (Name item)).
    destruct (OsPath.isfile fs p) eqn:Hfile.
    + rewrite (remove_file _ _ Hfile).
      destruct (remove_error fs p) as [e |] eqn:Herr.
      * (* the removal raises: the error is printed, the loop goes on *)
        destruct (IH deleted
                    {| w_fs := fs; w_now := now; w_stdin := stdin;
                       w_stdout := stdout ++ [MsgErrorDeletingItem (Name item) e] |})
          as (removed & out & Hrun & Hnodup & Hrem & Hgone & Hfail & Hcount).
        cbn in Hrun, Hrem, Hgone, Hfail.
        exists removed, (MsgErrorDeletingItem (Name item) e :: out).
        split; [| split; [| split; [| split; [| split]]]].
        -- cbn. rewrite Hrun. cbn. flatten_out. reflexivity.
        -- exact Hnodup.
        -- intros q Hq. destruct (Hrem q Hq) as (Hf & He & it & Hit & Hp).
           repeat split; try assumption. exists it. split; [now right | exact Hp].
        -- intros it [<- | Hit] Hf He.
           ++ fold p in He. congruence.
           ++ now apply Hgone.
        -- intros it e' [<- | Hit] Hf He.
           ++ fold p in He. left. congruence.
           ++ right. now apply (Hfail it e').
        -- exact Hcount.
      * (* the removal succeeds *)
        destruct (IH (S deleted)
                    {| w_fs := Os.unlink p fs; w_now := now; w_stdin := stdin;
                       w_stdout := stdout ++ [MsgDeletedItem (Name item)] |})
          as (removed & out & Hrun & Hnodup & Hrem & Hgone & Hfail & Hcount).
        cbn in Hrun, Hrem, Hgone, Hfail.
        assert (Hfresh : ~ In p removed).
        { intros Hin. destruct (Hrem p Hin) as (Hf & _).
          rewrite isfile_unlink_eq in Hf. discriminate. }
        exists (p :: removed), (MsgDeletedItem (Name item) :: out).
        split; [| split; [| split; [| split; [| split]]]].
        -- cbn. rewrite Hrun, unlink_all_cons, Nat.add_succ_r.
           flatten_out. reflexivity.
        -- apply NoDup_cons. split; [| exact Hnodup].
           rewrite list_elem_of_In. exact Hfresh.
        -- intros q [<- | Hq].
           ++ repeat split; try assumption. exists item. split; [now left | reflexivity].
           ++ destruct (Hrem q Hq) as (Hf & He & it & Hit & Hp).
              assert (Hne : q <> p) by (intros ->; contradiction).
              rewrite isfile_unlink_ne in Hf by exact Hne.
              rewrite remove_error_unlink_ne in He by exact Hne.
              repeat split; try assumption. exists it. split; [now right | exact Hp].
        -- intros it Hit Hf He.
           destruct (decide (OsPath.join target (Name it) = p)) as [-> | Hne];
             [now left |].
           right. destruct Hit as [<- | Hit]; [now contradiction Hne |].
           apply Hgone; [exact Hit | |].
           ++ now rewrite isfile_unlink_ne.
           ++ now rewrite remove_error_unlink_ne.
        -- intros it e' Hit Hf He.
           destruct (decide (OsPath.join target (Name it) = p)) as [Heq | Hne];
             [rewrite Heq in He; congruence |].
           right. destruct Hit as [<- | Hit]; [now contradiction Hne |].
           apply (Hfail it e'); [exact Hit | |].
           ++ now rewrite isfile_unlink_ne.
           ++ now rewrite remove_error_unlink_ne.
        -- unfold count_deleted_items in Hcount |- *. cbn [List.filter length].
           now rewrite Hcount.
    + (* not a file: nothing is tried, nothing is counted *)
      destruct (IH deleted
                  {| w_fs := fs; w_now := now; w_stdin := stdin; w_stdout := stdout |})
        as (removed & out & Hrun & Hnodup & Hrem & Hgone & Hfail & Hcount).
      cbn in Hrun, Hrem, Hgone, Hfail.
      exists removed, out.
      split; [| split; [| split; [| split; [| split]]]].
      * cbn. exact Hrun.
      * exact Hnodup.
      * intros q Hq. destruct (Hrem q Hq) as (Hf & He & it & Hit & Hp).
        repeat split; try assumption. exists it. split; [now right | exact Hp].
      * intros it [<- | Hit] Hf He; [fold p in Hf; congruence | now apply Hgone].
      * intros it e' [<- | Hit] Hf He; [fold p in Hf; congruence | now apply (Hfail it e')].
      * exact Hcount.
Qed.


Section DeleteFacts.

Variable COLORAMA_AVAILABLE : bool.
Variable recursion_depth : nat.
Variable shutil_rmtree : string -> gmap string node -> gmap string node * option exn.

Lemma choice_4_warning {A} (k : unit -> M A) (w : World) :
  bind (if COLORAMA_AVAILABLE
        then bind (print MsgDeletionIsPermanent) (fun _ => print MsgProceedWithCaution)
        else print MsgDeletionIsPermanent) k w =
  k tt {| w_fs := w_fs w; w_now := w_now w; w_stdin := w_stdin w;
          w_stdout := w_stdout w ++ deletion_warning COLORAMA_AVAILABLE |}.
Proof.
  unfold deletion_warning. destruct COLORAMA_AVAILABLE; run_action;
    flatten_out; reflexivity.
Qed.

(** The filtered branch of [choice_4] on a directory, up to the call of the
    continuation. *)
Lemma choice_4_filtered c fs now target stdin stdout :
  OsPath.isdir fs target = true ->
  choice_4 COLORAMA_AVAILABLE recursion_depth shutil_rmtree (Some c)
    {| w_fs := fs; w_now := now; w_stdin := target :: stdin; w_stdout := stdout |} =
  choice_4_on_collected target
    (snd (collect_files recursion_depth fs now target (Some c)))
    {| w_fs := fs; w_now := now; w_stdin := stdin;
       w_stdout := stdout ++ deletion_warning COLORAMA_AVAILABLE ++
                   [PromptPathToDelete; MsgFiltersActive] ++
                   fst (collect_files recursion_depth fs now target (Some c)) |}.
Proof.
  intros Hdir. unfold choice_4. rewrite choice_4_warning.
  run_action.
  rewrite (isdir_exists _ _ Hdir), (isdir_not_isfile _ _ Hdir), Hdir. cbn.
  destruct (collect_files recursion_depth fs now target (Some c)) as [out data].
  cbn. flatten_out. reflexivity.
Qed.


End DeleteFacts.

(** ** The name of the JSON file *)

Lemma append_nil t : "" +:+ t = t.
Proof. reflexivity. Qed.

Lemma append_cons c s t : String c s +:+ t = String c (s +:+ t).
Proof. reflexivity. Qed.

Ltac push_append := rewrite ?append_cons, ?append_nil.

Lemma startswith_refl p s : PyStr.startswith (p +:+ s) p = true.
Proof.
  induction p as [| a p IH]; [reflexivity |].
  push_append. cbn [PyStr.startswith]. now rewrite Ascii.eqb_refl.
Qed.

Lemma string_length_app s t :
  String.length (s +:+ t) = (String.length s + String.length t)%nat.
Proof.
  induction s as [| c s IH]; push_append; cbn; [reflexivity | now rewrite IH].
Qed.

Lemma drop_app_length s t : PyStr.drop (String.length s) (s +:+ t) = t.
Proof.
  induction s as [| c s IH]; push_append; cbn; [now destruct t | exact IH].
Qed.

Lemma substring_app_length s t : String.substring 0 (String.length s) (s +:+ t) = s.
Proof.
  induction s as [| c s IH]; push_append; cbn; [now destruct t | now rewrite IH].
Qed.

Lemma endswith_app s p : PyStr.endswith (s +:+ p) p = true.
Proof.
  unfold PyStr.endswith. rewrite string_length_app.
  replace (String.length s + String.length p - String.length p)%nat
    with (String.length s) by lia.
  rewrite drop_app_length, String.eqb_refl, andb_true_r.
  apply Nat.leb_le. lia.
Qed.

(** A string that ends with [p] contains [p]. *)
Lemma contains_drop p : forall n s,
  PyStr.startswith (PyStr.drop n s) p = true -> PyStr.contains s p = true.
Proof.
  induction n as [| n IH]; intros s H.
  - destruct s; cbn in *; [exact H | now rewrite H].
  - destruct s as [| c s]; cbn in *; [exact H |].
    rewrite (IH s H). apply orb_true_r.
Qed.

Lemma endswith_contains s p : PyStr.endswith s p = true -> PyStr.contains s p = true.
Proof.
  unfold PyStr.endswith. intros H. apply andb_true_iff in H as [_ H].
  apply String.eqb_eq in H.
  apply (contains_drop p (String.length s - String.length p)).
  rewrite H. rewrite <- (startswith_refl p "") at 1.
  f_equal. clear. induction p as [| a p IH]; push_append; [reflexivity | now rewrite <- IH].
Qed.

(** Replacing the one-character string "." by nothing drops the dots. *)
Lemma replace_dot s : PyStr.replace s "." "" = without_dots s.
Proof.
  unfold PyStr.replace.
  induction s as [| c s IH]; [reflexivity |].
  cbn [PyStr.replace_from PyStr.startswith without_dots String.length Nat.sub].
  rewrite (Ascii.eqb_sym "."%char c).
  destruct (Ascii.eqb c "."%char); push_append.
  - exact IH.
  - now rewrite IH.
Qed.

Lemma count_char_app c s t :
  PyStr.count_char c (s +:+ t) = (PyStr.count_char c s + PyStr.count_char c t)%nat.
Proof.
  induction s as [| a s IH]; push_append; cbn [PyStr.count_char]; [reflexivity |].
  rewrite IH. lia.
Qed.

Lemma count_dots_without_dots s : PyStr.count_char "."%char (without_dots s) = 0%nat.
Proof.
  induction s as [| c s IH]; [reflexivity |].
  cbn [without_dots]. destruct (Ascii.eqb c "."%char) eqn:E; [exact IH |].
  cbn [PyStr.count_char]. now rewrite E, IH.
Qed.

(** Where [old] does not occur there is nothing to replace. *)
Lemma replace_from_absent old new s :
  PyStr.contains s old = false -> PyStr.replace_from 0 old new s = s.
Proof.
  induction s as [| c s IH]; [reflexivity |].
  intros H. change (PyStr.contains (String c s) old)
    with (PyStr.startswith (String c s) old || PyStr.contains s old) in H.
  apply orb_false_iff in H as [Hhere Hlater].
  cbn [PyStr.replace_from]. rewrite Hhere. now rewrite IH.
Qed.

(** An occurrence of ".json" cannot begin inside a non-empty [s] and run
    over into a ".json" put after it: past its first character ".json"
    has no dot. *)
Lemma startswith_json_app c s :
  PyStr.startswith (String c s) ".json" = false ->
  PyStr.startswith (String c s +:+ ".json") ".json" = false.
Proof.
  destruct s as [| c2 [| c3 [| c4 [| c5 s]]]]; push_append; cbn [PyStr.startswith];
    repeat match goal with
           | |- context [Ascii.eqb ?a ?b] => destruct (Ascii.eqb a b) eqn:?
           end;
    intros; subst; try reflexivity; try discriminate;
    repeat match goal with
           | H : Ascii.eqb _ _ = true |- _ => apply Ascii.eqb_eq in H; subst
           end;
    try discriminate; try reflexivity.
Qed.

Lemma replace_json_suffix stem :
  PyStr.contains stem ".json" = false ->
  PyStr.replace (stem +:+ ".json") ".json" "" = stem.
Proof.
  unfold PyStr.replace.
  induction stem as [| c stem IH]; [reflexivity |].
  intros H. change (PyStr.contains (String c stem) ".json")
    with (PyStr.startswith (String c stem) ".json" || PyStr.contains stem ".json") in H.
  apply orb_false_iff in H as [Hhere Hlater].
  rewrite append_cons. cbn [PyStr.replace_from].
  rewrite <- append_cons, (startswith_json_app c stem Hhere). now rewrite IH.
Qed.

(** C5 (amended).  An empty answer gives "dataStore.json".  For a
    non-empty answer (white space trimmed) the name is the answer with every
    occurrence of ".json" removed, wherever it stands, then every dot
    removed, then ".json" put at the end; it ends in ".json" and has exactly
    one dot.  This is the name the interface section words (suffix stripped,
    dots stripped, one extension added) whenever ".json" occurs nowhere in
    the answer, or only once, at its end. *)
Theorem json_file_name_shape :
  forall name : string,
    json_file_name "" = "dataStore.json"
    /\ (name <> "" ->
          json_file_name name =
            without_dots (PyStr.replace name ".json" "") +:+ ".json"
          /\ PyStr.endswith (json_file_name name) ".json" = true
          /\ PyStr.count_char "."%char (json_file_name name) = 1%nat)
    /\ (PyStr.contains name ".json" = false ->
          json_file_name name = json_file_name_as_worded name
          /\ json_file_name (name +:+ ".json") =
             json_file_name_as_worded (name +:+ ".json")).
Proof.
  intros name. split; [reflexivity |]. split.
  - intros Hne. apply String.eqb_neq in Hne.
    unfold json_file_name. rewrite Hne, replace_dot.
    split; [reflexivity |]. split.
    + apply endswith_app.
    + rewrite count_char_app, count_dots_without_dots. reflexivity.
  - intros Habsent. split.
    + unfold json_file_name, json_file_name_as_worded.
      destruct (String.eqb name "") eqn:Hname; [reflexivity |].
      rewrite replace_dot. f_equal.
      unfold PyStr.replace at 1. rewrite (replace_from_absent _ _ _ Habsent).
      unfold removesuffix.
      destruct (PyStr.endswith name ".json") eqn:Hends; [| reflexivity].
      apply endswith_contains in Hends. congruence.
    + unfold json_file_name, json_file_name_as_worded.
      assert (Hne : String.eqb (name +:+ ".json") "" = false)
        by (destruct name; reflexivity).
      rewrite Hne, replace_dot, (replace_json_suffix _ Habsent).
      unfold removesuffix. rewrite endswith_app, string_length_app.
      replace (String.length name + String.length ".json" - String.length ".json")%nat
        with (String.length name) by lia.
      now rewrite substring_app_length.
Qed.

(* ====================================================================== *)
(** * The statements on the sample worlds *)
(* ====================================================================== *)

(** Both kind flags on: neither the jar file nor the directory passes. *)
Lemma both_kind_flags_sample :
  only_files both_kinds = true
  /\ only_dirs both_kinds = true
  /\ should_include exactly_1024_kib both_kinds "a.jar" "d/a.jar" false = false
  /\ should_include exactly_1024_kib both_kinds "sub" "d/sub" true = false.
Proof.
  split; [reflexivity |]. split; [reflexivity |]. split.
  - exact (both_kind_flags_exclude_everything exactly_1024_kib both_kinds
             "a.jar" "d/a.jar" false eq_refl eq_refl).
  - exact (both_kind_flags_exclude_everything exactly_1024_kib both_kinds
             "sub" "d/sub" true eq_refl eq_refl).
Defined.

(** A directory passes the jar-only criteria, whatever its name. *)
Lemma directory_passes_sample :
  only_files jar_only = false
  /\ should_include size_unreadable jar_only "photos" "d/photos" true = true.
Proof.
  split; [reflexivity |].
  exact (proj1 directory_passes_unless_files_only size_unreadable jar_only
           "photos" "d/photos" eq_refl).
Defined.

(** With the size unreadable the under-1MB flag decides nothing: the file
    passes, where the same file reported at 1048576 bytes does not; with the
    modification time unreadable the last-24h flag excludes. *)
Lemma stat_failure_sample :
  getsize size_unreadable "d/a.txt" = None
  /\ getmtime mtime_unreadable "d/a.txt" = None
  /\ modified_last_24h small_and_recent = true
  /\ getmtime exactly_1024_kib "d/a.txt" = getmtime size_unreadable "d/a.txt"
  /\ time_time exactly_1024_kib = time_time size_unreadable
  /\ should_include exactly_1024_kib small_and_recent "a.txt" "d/a.txt" false = false
  /\ should_include size_unreadable small_and_recent "a.txt" "d/a.txt" false = true
  /\ should_include size_unreadable small_and_recent "a.txt" "d/a.txt" false =
     should_include exactly_1024_kib
       (set_size_less_than_1mb false (set_size_more_than_1mb false small_and_recent))
       "a.txt" "d/a.txt" false
  /\ should_include size_unreadable
       (set_size_less_than_1mb true (set_size_more_than_1mb true FilterCriteria_init))
       "a.txt" "d/a.txt" false = true
  /\ should_include mtime_unreadable small_and_recent "a.txt" "d/a.txt" false = false.
Proof.
  split; [reflexivity |]. split; [reflexivity |]. split; [reflexivity |].
  split; [reflexivity |]. split; [reflexivity |]. split; [reflexivity |].
  split; [reflexivity |].
  destruct (proj1 (stat_failure_open_for_size_closed_for_mtime size_unreadable
                     small_and_recent "a.txt" "d/a.txt") eq_refl) as [Hany Hflags].
  split; [exact (proj1 (Hany exactly_1024_kib eq_refl eq_refl)) |].
  split; [exact (Hflags true true) |].
  exact (proj2 (stat_failure_open_for_size_closed_for_mtime mtime_unreadable
                  small_and_recent "a.txt" "d/a.txt") eq_refl (or_introl eq_refl)).
Defined.

(** A file of exactly 1048576 bytes fails under-1MB and passes over-1MB. *)
Lemma size_boundary_sample :
  getsize exactly_1024_kib "d/a.bin" = Some 1048576
  /\ should_include exactly_1024_kib
       (set_size_less_than_1mb true FilterCriteria_init) "a.bin" "d/a.bin" false = false
  /\ should_include exactly_1024_kib
       (set_size_more_than_1mb true FilterCriteria_init) "a.bin" "d/a.bin" false = true.
Proof.
  split; [reflexivity |].
  destruct (size_filters_split_at_1024_kib exactly_1024_kib "a.bin" "d/a.bin"
              1048576 eq_refl) as (Hless & _ & _ & Hmore).
  split.
  - exact (Hless (set_size_less_than_1mb true FilterCriteria_init) eq_refl eq_refl).
  - exact Hmore.
Defined.

(** The answers "my.report" and "my.report.json" both give "myreport.json". *)
Lemma json_file_name_sample :
  "my.report" <> ""
  /\ PyStr.contains "my.report" ".json" = false
  /\ PyStr.endswith (json_file_name "my.report") ".json" = true
  /\ PyStr.count_char "."%char (json_file_name "my.report") = 1%nat
  /\ json_file_name ("my.report" +:+ ".json") =
     json_file_name_as_worded ("my.report" +:+ ".json").
Proof.
  assert (Hne : "my.report" <> "") by discriminate.
  split; [exact Hne |]. split; [reflexivity |].
  destruct (json_file_name_shape "my.report") as (_ & Hshape & Hworded).
  destruct (Hshape Hne) as (_ & Hends & Hdots).
  split; [exact Hends |]. split; [exact Hdots |].
  exact (proj2 (Hworded eq_refl)).
Defined.

(** C5, as stated, fails: the answer "v1.json.bak" has no ".json" suffix,
    so stripping the suffix and the dots gives "v1jsonbak.json"; the program
    removes the inner ".json" and names the file "v1bak.json". *)
Lemma json_file_name_inner_occurrence :
  PyStr.strip "v1.json.bak" = "v1.json.bak"
  /\ json_file_name "v1.json.bak" = "v1bak.json"
  /\ json_file_name_as_worded "v1.json.bak" = "v1jsonbak.json"
  /\ json_file_name "v1.json.bak" <> json_file_name_as_worded "v1.json.bak".
Proof.
  split; [reflexivity |]. split; [reflexivity |]. split; [reflexivity |].
  vm_compute. discriminate.
Qed.

(** Moving the directory [d] with the answer "no". *)
Lemma move_directory_cancelled_sample :
  w_stdin (sample_world ["d"; "elsewhere"; "No"]) = ["d"; "elsewhere"; "No"]
  /\ OsPath.isdir (w_fs (sample_world ["d"; "elsewhere"; "No"])) "d" = true
  /\ PyStr.lower "No" <> "yes"
  /\ choice_3 sample_move None (sample_world ["d"; "elsewhere"; "No"]) =
     (Ok tt,
      {| w_fs := sample_fs; w_now := 100%Q; w_stdin := [];
         w_stdout := [PromptMoveSource; PromptDestination; PromptMovingDirectory;
                      MsgMoveCancelled] |}).
Proof.
  assert (Hno : PyStr.lower "No" <> "yes") by (vm_compute; discriminate).
  split; [reflexivity |]. split; [reflexivity |]. split; [exact Hno |].
  exact (move_directory_cancelled sample_move None
           (sample_world ["d"; "elsewhere"; "No"]) "d" "elsewhere" "No" []
           eq_refl eq_refl Hno).
Defined.

(** Tree mode on [texts]: the empty list, as under jar-only, which excludes
    its one text file; nothing is written. *)
Lemma tree_mode_sample :
  show_tree tree_only = true
  /\ OsPath.isdir sample_fs "texts" = true
  /\ show_tree jar_only = false
  /\ Os.listdir sample_fs "texts" = inl ["notes.txt"]
  /\ snd (collect_files 5 sample_fs 100%Q "texts" (Some tree_only)) = Some []
  /\ w_fs (snd (choice_1 "/opt/arbor" 5 sample_makedirs sample_json_dump
                  (Some tree_only) (sample_world ["texts"; "yes"]))) = sample_fs
  /\ snd (collect_files 5 sample_fs 100%Q "texts" (Some jar_only)) =
     snd (collect_files 5 sample_fs 100%Q "texts" (Some tree_only)).
Proof.
  split; [reflexivity |]. split; [reflexivity |].
  split; [reflexivity |]. split; [reflexivity |].
  destruct (tree_mode_returns_empty_list "/opt/arbor" 5 sample_makedirs
              sample_json_dump sample_fs 100%Q "texts" tree_only eq_refl eq_refl)
    as (Hempty & Hrun & Hsame).
  split; [exact Hempty |]. split.
  - unfold sample_world. rewrite (Hrun ["yes"] []). reflexivity.
  - apply (Hsame jar_only ["notes.txt"] eq_refl eq_refl).
    intros entry [<- | []]. reflexivity.
Defined.

(** The four ways of [collect_files] on the sample file system: a missing
    path, a file, a directory that cannot be listed, a directory whose one
    entry is excluded. *)
Lemma collect_files_absence_and_empty_sample :
  OsPath.exists_ sample_fs "nowhere" = false
  /\ OsPath.isfile sample_fs "d/a.jar" = true
  /\ Os.listdir sample_fs "locked" = inr PermissionError
  /\ Os.listdir sample_fs "texts" = inl ["notes.txt"]
  /\ snd (collect_files 5 sample_fs 100%Q "nowhere" (Some jar_only)) = None
  /\ snd (collect_files 5 sample_fs 100%Q "d/a.jar" (Some jar_only)) = None
  /\ snd (collect_files 5 sample_fs 100%Q "locked" (Some jar_only)) = None
  /\ snd (collect_files 5 sample_fs 100%Q "texts" (Some jar_only)) = Some [].
Proof.
  split; [reflexivity |]. split; [reflexivity |].
  split; [reflexivity |]. split; [reflexivity |].
  split; [| split; [| split]].
  - exact (proj1 (collect_files_absence_and_empty "/opt/arbor" 5 sample_makedirs
                    sample_json_dump sample_fs 100%Q "nowhere" (Some jar_only))
             eq_refl).
  - destruct (collect_files_absence_and_empty "/opt/arbor" 5 sample_makedirs
                sample_json_dump sample_fs 100%Q "d/a.jar" (Some jar_only))
      as (_ & Hfile & _).
    exact (Hfile eq_refl).
  - destruct (collect_files_absence_and_empty "/opt/arbor" 5 sample_makedirs
                sample_json_dump sample_fs 100%Q "locked" (Some jar_only))
      as (_ & _ & Hraise & _).
    exact (Hraise eq_refl PermissionError eq_refl).
  - destruct (collect_files_absence_and_empty "/opt/arbor" 5 sample_makedirs
                sample_json_dump sample_fs 100%Q "texts" (Some jar_only))
      as (_ & _ & _ & Hempty & _).
    apply (Hempty eq_refl ["notes.txt"] eq_refl).
    intros entry [<- | []]. reflexivity.
Defined.

(** C1, as stated, fails.  The filtered branch of [choice_4] does the same
    on [None] and on the empty list: run on [locked], which cannot be
    listed, and on [texts], whose one file jar-only excludes, it ends both
    times with the same "nothing to delete" line, and only the line printed
    inside [collect_files] differs.  And in tree mode a listing that raises
    gives the empty list, not [None]. *)
Lemma choice_4_merges_absence_and_empty :
  choice_4_on_collected "locked" None (sample_world []) =
  choice_4_on_collected "locked" (Some []) (sample_world [])
  /\ ~ distinguishes (choice_4_on_collected "locked")
  /\ snd (collect_files 5 sample_fs 100%Q "locked" (Some jar_only)) = None
  /\ snd (collect_files 5 sample_fs 100%Q "texts" (Some jar_only)) = Some []
  /\ w_stdout (snd (choice_4 false 5 sample_rmtree (Some jar_only)
                      (sample_world ["locked"]))) =
     [MsgDeletionIsPermanent; PromptPathToDelete; MsgFiltersActive;
      MsgPermissionDeniedAccessing "locked"; MsgNothingToDelete]
  /\ w_stdout (snd (choice_4 false 5 sample_rmtree (Some jar_only)
                      (sample_world ["texts"]))) =
     [MsgDeletionIsPermanent; PromptPathToDelete; MsgFiltersActive;
      MsgCollected 0; MsgNothingToDelete]
  /\ Os.listdir sample_fs "locked" = inr PermissionError
  /\ snd (collect_files 5 sample_fs 100%Q "locked" (Some tree_only)) = Some [].
Proof.
  split; [reflexivity |]. split.
  - intros H. exact (H (sample_world []) eq_refl).
  - repeat split; vm_compute; reflexivity.
Qed.


(* ====================================================================== *)
(** * Further properties *)
(* ====================================================================== *)

(** ** The filter predicate, continued *)

Lemma should_include_dir os c name path :
  should_include os c name path true = negb (only_files c).
Proof.
  unfold should_include. rewrite andb_true_r. cbn [negb]. rewrite andb_false_r.
  destruct (only_files c); reflexivity.
Qed.

Lemma truthy_lower k : PyStr.truthy (PyStr.lower k) = PyStr.truthy k.
Proof. destruct k; reflexivity. Qed.

Lemma truthy_same_lower k k' :
  PyStr.lower k = PyStr.lower k' -> PyStr.truthy k = PyStr.truthy k'.
Proof. intros H. rewrite <- (truthy_lower k), H. apply truthy_lower. Qed.

(** X1.  The filter does not look at letter case: two names with the same
    lower-case form get the same answer, and so do two exclude keywords, or
    two include keywords, with the same lower-case form. *)
Theorem should_include_ignores_case :
  forall (os : StatView) (c : FilterCriteria) (path : string) (is_dir : bool),
    (forall name name',
        PyStr.lower name = PyStr.lower name' ->
        should_include os c name path is_dir = should_include os c name' path is_dir)
    /\ (forall k k' name,
        PyStr.lower k = PyStr.lower k' ->
        should_include os (set_exclude_keyword (Some k) c) name path is_dir =
        should_include os (set_exclude_keyword (Some k') c) name path is_dir)
    /\ (forall k k' name,
        PyStr.lower k = PyStr.lower k' ->
        should_include os (set_include_keyword (Some k) c) name path is_dir =
        should_include os (set_include_keyword (Some k') c) name path is_dir).
Proof.
  intros os c path [|].
  - repeat split; intros; rewrite !should_include_dir; reflexivity.
  - split; [| split].
    + intros name name' H. rewrite !should_include_file.
      unfold exclude_keyword_rejects, include_keyword_rejects. now rewrite H.
    + intros k k' name H. rewrite !should_include_file.
      unfold exclude_keyword_rejects. cbn.
      now rewrite H, (truthy_same_lower _ _ H).
    + intros k k' name H. rewrite !should_include_file.
      unfold include_keyword_rejects. cbn.
      now rewrite H, (truthy_same_lower _ _ H).
Qed.





(** X3.  A keyword that is the empty string filters nothing: the answer
    is the one given with no keyword at all. *)
Theorem empty_keyword_filters_nothing :
  forall (os : StatView) (c : FilterCriteria) (name path : string) (is_dir : bool),
    should_include os (set_exclude_keyword (Some "") c) name path is_dir =
    should_include os (set_exclude_keyword None c) name path is_dir
    /\ should_include os (set_include_keyword (Some "") c) name path is_dir =
       should_include os (set_include_keyword None c) name path is_dir.
Proof.
  intros os c name path [|].
  - rewrite !should_include_dir. split; reflexivity.
  - rewrite !should_include_file. split; reflexivity.
Qed.

(** Strings that end alike. *)
Lemma drop_split n : forall s, exists pre, s = pre +:+ PyStr.drop n s.
Proof.
  induction n as [| n IH]; intros s.
  - exists "". reflexivity.
  - destruct s as [| c s]; [exists ""; reflexivity |].
    destruct (IH s) as [pre Hpre]. exists (String c pre).
    rewrite append_cons. cbn [PyStr.drop]. now rewrite <- Hpre.
Qed.

Lemma endswith_split s p : PyStr.endswith s p = true -> exists pre, s = pre +:+ p.
Proof.
  unfold PyStr.endswith. intros H. apply andb_true_iff in H as [_ H].
  apply String.eqb_eq in H.
  destruct (drop_split (String.length s - String.length p) s) as [pre Hpre].
  exists pre. now rewrite <- H.
Qed.

Lemma string_app_assoc s t u : (s +:+ t) +:+ u = s +:+ (t +:+ u).
Proof.
  induction s as [| c s IH]; push_append; [reflexivity | now rewrite IH].
Qed.

Lemma append_last_inj s : forall s' a b,
  s +:+ String a "" = s' +:+ String b "" -> a = b.
Proof.
  induction s as [| c s IH]; intros [| c' s'] a b H; push_append; rewrite ?append_cons, ?append_nil in H.
  - now injection H.
  - injection H as _ H. destruct s'; discriminate.
  - injection H as _ H. destruct s; discriminate.
  - injection H as _ H. exact (IH _ _ _ H).
Qed.

Lemma endswith_jar_not_json s :
  PyStr.endswith s ".jar" = true -> PyStr.endswith s ".json" = false.
Proof.
  intros Hjar. destruct (PyStr.endswith s ".json") eqn:Hjson; [| reflexivity].
  apply endswith_split in Hjar as [pre Hpre].
  apply endswith_split in Hjson as [pre' Hpre'].
  rewrite Hpre in Hpre'.
  change ".jar" with (".ja" +:+ "r") in Hpre'.
  change ".json" with (".jso" +:+ "n") in Hpre'.
  rewrite <- !string_app_assoc in Hpre'.
  apply append_last_inj in Hpre'. discriminate.
Qed.

(** X4.  With the jar-only and the json-only flags both set no file
    passes, whatever its name: a name cannot end in ".jar" and in ".json". *)
Theorem jar_and_json_exclude_every_file :
  forall (os : StatView) (c : FilterCriteria) (name path : string),
    only_jar c = true ->
    only_json c = true ->
    should_include os c name path false = false.
Proof.
  intros os c name path Hjar Hjson.
  rewrite should_include_file, Hjar, Hjson. cbn [andb].
  destruct (PyStr.endswith (PyStr.lower name) ".jar") eqn:E.
  - rewrite (endswith_jar_not_json _ E). cbn.
    now rewrite andb_false_r.
  - cbn. now rewrite andb_false_r.
Qed.

(** X5.  With the under-1MB and the over-1MB flags both set, a file whose
    size can be read is excluded whatever that size is. *)
Theorem both_size_flags_exclude_sized_files :
  forall (os : StatView) (c : FilterCriteria) (name path : string) (size : Z),
    size_less_than_1mb c = true ->
    size_more_than_1mb c = true ->
    getsize os path = Some size ->
    should_include os c name path false = false.
Proof.
  intros os c name path size Hless Hmore Hsize.
  rewrite should_include_file, (size_filter_rejects_known _ _ _ _ Hsize), Hless, Hmore.
  cbn [andb]. rewrite Z.ltb_antisym.
  destruct (1048576 <=? size); cbn; now rewrite ?andb_false_r.
Qed.

Lemma should_include_reads_same os c name path is_dir :
  should_include_reads os os c name path is_dir = should_include os c name path is_dir.
Proof.
  unfold should_include_reads, should_include.
  now destruct (modified_last_24h c).
Qed.

Lemma should_include_reads_file os os2 c name path :
  modified_last_24h c = true ->
  should_include_reads os os2 c name path false = true ->
  modified_last_24h_rejects os c path = false
  /\ modified_over_24h_rejects os2 c path = false.
Proof.
  intros Hlast. unfold should_include_reads. rewrite Hlast.
  rewrite andb_false_r. cbn [negb]. rewrite andb_true_r.
  destruct (only_dirs c); [discriminate |].
  destruct (only_jar c && _); [discriminate |].
  destruct (only_json c && _); [discriminate |].
  destruct (size_filter_rejects os c path); [discriminate |].
  destruct (exclude_keyword_rejects c name); [discriminate |].
  destruct (include_keyword_rejects c name); [discriminate |].
  destruct (modified_last_24h_rejects os c path); [discriminate |].
  destruct (modified_over_24h_rejects os2 c path); [discriminate |].
  split; reflexivity.
Qed.

(** X6.  With the last-24h and the over-24h flags both set, the second
    test reads the modification time and the clock afresh.  A file passes
    only when both modification times can be read, it is at most 86400
    seconds old at the first pair of reads and more than 86400 seconds old at
    the second; with no other flag or keyword set it then does pass.  When
    the second reads return what the first returned, no file passes. *)
Theorem both_mtime_flags_pass_only_across_the_boundary :
  forall (os os2 : StatView) (c : FilterCriteria) (name path : string),
    modified_last_24h c = true ->
    modified_over_24h c = true ->
    let crossed :=
      exists mtime mtime2,
        getmtime os path = Some mtime
        /\ getmtime os2 path = Some mtime2
        /\ (time_time os - mtime <= 86400)%Q
        /\ (86400 < time_time os2 - mtime2)%Q in
    (should_include_reads os os2 c name path false = true -> crossed)
    /\ (crossed ->
        should_include_reads os os2
          (set_modified_over_24h true (set_modified_last_24h true FilterCriteria_init))
          name path false = true)
    /\ should_include_reads os os c name path false = false.
Proof.
  intros os os2 c name path Hlast Hover crossed. subst crossed.
  split; [| split].
  - intros Hpass.
    destruct (should_include_reads_file _ _ _ _ _ Hlast Hpass) as [H9 H10].
    unfold modified_last_24h_rejects in H9. unfold modified_over_24h_rejects in H10.
    rewrite Hlast in H9. rewrite Hover in H10.
    destruct (getmtime os path) as [mtime |]; [| discriminate].
    destruct (getmtime os2 path) as [mtime2 |]; [| discriminate].
    exists mtime, mtime2. split; [reflexivity |]. split; [reflexivity |].
    unfold Qlt_bool in H9. apply negb_false_iff in H9.
    split; [now apply Qle_bool_iff |].
    apply Qnot_le_lt. intros Hle. apply Qle_bool_iff in Hle. congruence.
  - intros (mtime & mtime2 & Hm & Hm2 & Hle & Hlt).
    unfold should_include_reads, size_filter_rejects, exclude_keyword_rejects,
      include_keyword_rejects, modified_last_24h_rejects, modified_over_24h_rejects,
      Qlt_bool.
    cbn. rewrite Hm, Hm2.
    apply Qle_bool_iff in Hle. rewrite Hle.
    destruct (Qle_bool (time_time os2 - mtime2) 86400) eqn:E.
    + apply Qle_bool_iff in E. exfalso. exact (Qlt_not_le _ _ Hlt E).
    + destruct (getsize os path); reflexivity.
  - rewrite should_include_reads_same, should_include_file.
    unfold modified_last_24h_rejects, modified_over_24h_rejects.
    rewrite Hlast, Hover.
    destruct (getmtime os path) as [mtime |].
    + unfold Qlt_bool.
      destruct (Qle_bool (time_time os - mtime) 86400); cbn; now rewrite ?andb_false_r.
    + cbn. now rewrite andb_false_r.
Qed.

(** X7.  For a file whose modification time can be read, the last-24h flag
    alone lets it pass exactly when the clock is at most 86400 seconds past
    that time (a time in the future included), and the over-24h flag alone
    exactly when it is more than 86400 seconds past it. *)
Theorem mtime_filters_split_at_86400 :
  forall (os : StatView) (name path : string) (mtime : Q),
    getmtime os path = Some mtime ->
    (should_include os (set_modified_last_24h true FilterCriteria_init)
       name path false = true
     <-> (time_time os - mtime <= 86400)%Q)
    /\ (should_include os (set_modified_over_24h true FilterCriteria_init)
          name path false = true
        <-> (86400 < time_time os - mtime)%Q).
Proof.
  intros os name path mtime Hmtime.
  rewrite !should_include_file.
  unfold size_filter_rejects, exclude_keyword_rejects, include_keyword_rejects,
    modified_last_24h_rejects, modified_over_24h_rejects, Qlt_bool.
  cbn. rewrite Hmtime.
  destruct (getsize os path); cbn; rewrite ?andb_true_r, ?negb_involutive.
  all: split.
  all: try (apply Qle_bool_iff).
  all: destruct (Qle_bool (time_time os - mtime) 86400) eqn:E; cbn;
    split; intros H; try discriminate; try reflexivity.
  all: try (apply Qle_bool_iff in E; exfalso; exact (Qlt_not_le _ _ H E)).
  all: apply Qnot_le_lt; intros Hle; apply Qle_bool_iff in Hle; congruence.
Qed.

(** ** The collector, continued *)

Lemma collect_entries_names fs now path criteria entries :
  List.map Name (collect_entries fs now path criteria entries) =
  List.filter
    (fun entry =>
       passes (stat_view fs now) criteria entry (OsPath.join path entry)
         (OsPath.isdir fs (OsPath.join path entry)))
    entries.
Proof.
  induction entries as [| entry rest IH]; [reflexivity |].
  cbn [collect_entries List.filter].
  destruct (passes (stat_view fs now) criteria entry (OsPath.join path entry)
              (OsPath.isdir fs (OsPath.join path entry))); cbn [negb].
  - cbn [List.map Name]. now rewrite IH.
  - exact IH.
Qed.

(** X8.  Outside tree mode, on a directory that can be listed,
    [collect_files] returns one record for each entry that passes the
    criteria, in the order of the listing, and prints their number; with no
    criteria it returns one record for every entry. *)
Theorem collected_names_are_the_passing_entries :
  forall (depth : nat) (fs : gmap string node) (now : Q) (path : string)
         (criteria : option FilterCriteria) (entries : list string),
    tree_mode criteria = false ->
    Os.listdir fs path = inl entries ->
    exists data,
      collect_files depth fs now path criteria = ([MsgCollected (length data)], Some data)
      /\ List.map Name data =
         List.filter
           (fun entry =>
              passes (stat_view fs now) criteria entry (OsPath.join path entry)
                (OsPath.isdir fs (OsPath.join path entry)))
           entries
      /\ (criteria = None -> List.map Name data = entries).
Proof.
  intros depth fs now path criteria entries Htree Hlist.
  exists (collect_entries fs now path criteria entries).
  split; [now apply collect_files_listed |].
  split; [apply collect_entries_names |].
  intros ->. rewrite collect_entries_names. cbn [passes].
  clear. induction entries as [| e rest IH]; cbn; [reflexivity | now rewrite IH].
Qed.

Lemma collect_entries_record fs now path criteria entries item :
  In item (collect_entries fs now path criteria entries) ->
  In (Name item) entries
  /\ passes (stat_view fs now) criteria (Name item) (OsPath.join path (Name item))
       (OsPath.isdir fs (OsPath.join path (Name item))) = true
  /\ Type_ item =
     (if OsPath.isdir fs (OsPath.join path (Name item)) then Directory else File_)
  /\ Size item =
     size_string (stat_view fs now) (OsPath.join path (Name item))
       (OsPath.isdir fs (OsPath.join path (Name item))).
Proof.
  induction entries as [| entry rest IH]; [intros [] |].
  cbn [collect_entries].
  destruct (passes (stat_view fs now) criteria entry (OsPath.join path entry)
              (OsPath.isdir fs (OsPath.join path entry))) eqn:Hpass; cbn [negb].
  - intros [<- | Hin].
    + cbn [Name Type_ Size]. repeat split; [now left | exact Hpass].
    + destruct (IH Hin) as (H1 & H2). split; [now right | exact H2].
  - intros Hin. destruct (IH Hin) as (H1 & H2). split; [now right | exact H2].
Qed.

(** X9.  Every record [collect_files] returns describes an entry of the
    listing that passes the criteria.  A directory is recorded with type
    Directory and size "0 bytes"; anything else with type File and its size
    in KB when below 1048576 bytes, in MB from 1048576 bytes on, and
    "Unknown" when the size cannot be read. *)
Theorem collected_records_describe_entries :
  forall (depth : nat) (fs : gmap string node) (now : Q) (path : string)
         (criteria : option FilterCriteria) (data : list file_data)
         (item : file_data),
    snd (collect_files depth fs now path criteria) = Some data ->
    In item data ->
    let full_path := OsPath.join path (Name item) in
    (exists entries, Os.listdir fs path = inl entries /\ In (Name item) entries)
    /\ passes (stat_view fs now) criteria (Name item) full_path
         (OsPath.isdir fs full_path) = true
    /\ (OsPath.isdir fs full_path = true ->
        Type_ item = Directory /\ Size item = ZeroBytes)
    /\ (OsPath.isdir fs full_path = false ->
        Type_ item = File_
        /\ match getsize (stat_view fs now) full_path with
           | None => Size item = Unknown
           | Some size =>
               if size <? 1048576
               then Size item = KB (inject_Z size / 1024)
               else Size item = MB (inject_Z size / 1024 / 1024)
           end).
Proof.
  intros depth fs now path criteria data item Hdata Hin full_path.
  unfold collect_files in Hdata.
  destruct (OsPath.exists_ fs path); [| discriminate]. cbn [negb] in Hdata.
  destruct (OsPath.isfile fs path); [discriminate |].
  destruct (tree_mode criteria).
  { cbn in Hdata. injection Hdata as <-. destruct Hin. }
  destruct (Os.listdir fs path) as [entries | e] eqn:Hlist;
    [| destruct e; discriminate].
  cbn in Hdata. injection Hdata as <-.
  destruct (collect_entries_record _ _ _ _ _ _ Hin) as (Hname & Hpass & Htype & Hsize).
  fold full_path in Hpass, Htype, Hsize.
  split; [exists entries; now split |]. split; [exact Hpass |]. split.
  - intros Hdir. rewrite Hdir in Htype, Hsize. now split.
  - intros Hdir. rewrite Hdir in Htype, Hsize. split; [exact Htype |].
    unfold size_string in Hsize. cbn [negb] in Hsize.
    destruct (getsize (stat_view fs now) full_path) as [size |]; [| exact Hsize].
    cbv zeta in Hsize. rewrite size_kb_lt_1024 in Hsize.
    destruct (size <? 1048576); exact Hsize.
Qed.

(** ** The tree printer, continued *)

Ltac step_tree :=
  cbn -[passes OsPath.join OsPath.isdir show_directory_tree stat_view getsize
        should_include].

(** Every line of a tree printed at depth [indent] is at that depth or
    deeper. *)
Lemma tree_lines_indented depth :
  forall fs now path indent criteria out,
    show_directory_tree depth fs now path indent criteria = Some out ->
    Forall (fun m => exists i, tree_indent m = Some i /\ (indent <= i)%nat) out.
Proof.
  induction depth as [| depth IH]; intros fs now path indent criteria out H;
    [discriminate |].
  cbn [show_directory_tree] in H. injection H as <-.
  destruct (Os.listdir fs path) as [entries | e].
  - induction entries as [| entry rest IHe]; [constructor |].
    step_tree.
    destruct (passes _ _ _ _ _); cbn [negb]; [| exact IHe].
    destruct (OsPath.isdir fs (OsPath.join path entry)).
    + constructor; [exists indent; split; [reflexivity | lia] |].
      destruct (show_directory_tree depth fs now (OsPath.join path entry)
                  (S indent) criteria) as [sub |] eqn:Hsub.
      * apply Forall_app. split; [| exact IHe].
        apply IH in Hsub. eapply Forall_impl; [exact Hsub |].
        intros m (i & Hi & Hle). exists i. split; [exact Hi | lia].
      * constructor; [exists indent; split; [reflexivity | lia] | constructor].
    + constructor; [exists indent; split; [reflexivity | lia] | exact IHe].
  - destruct e; (constructor; [exists indent; split; [reflexivity | lia] | constructor]).
Qed.

Lemma entries_at_deeper indent out :
  Forall (fun m => exists i, tree_indent m = Some i /\ (S indent <= i)%nat) out ->
  entries_at indent out = [].
Proof.
  induction 1 as [| m out (i & Hi & Hle) _ IH]; [reflexivity |].
  unfold entries_at in *.
  destruct m; cbn in Hi |- *; try discriminate; try exact IH;
    injection Hi as ->; (destruct (Nat.eqb_spec i indent); [lia | exact IH]).
Qed.

Lemma entries_at_dir indent entry out :
  entries_at indent (TreeDirLine indent entry :: out) = entry :: entries_at indent out.
Proof. unfold entries_at. cbn. now rewrite Nat.eqb_refl. Qed.

Lemma entries_at_file indent entry size out :
  entries_at indent (TreeFileLine indent entry size :: out) =
  entry :: entries_at indent out.
Proof. unfold entries_at. cbn. now rewrite Nat.eqb_refl. Qed.

Lemma entries_at_app indent out out' :
  entries_at indent (out ++ out') = entries_at indent out ++ entries_at indent out'.
Proof. unfold entries_at. apply omap_app. Qed.

(** X10.  When at least one nested call is allowed, the lines the tree
    shows at its first level are exactly the entries of the listing
    that pass the criteria, in the order of the listing: a subdirectory
    that cannot be listed, or that lists nothing that passes, does not stop
    the entries after it from being shown. *)
Theorem tree_shows_the_passing_entries :
  forall (depth : nat) (fs : gmap string node) (now : Q) (path : string)
         (indent : nat) (criteria : option FilterCriteria) (entries : list string),
    Os.listdir fs path = inl entries ->
    exists out,
      show_directory_tree (S (S depth)) fs now path indent criteria = Some out
      /\ entries_at indent out =
         List.filter
           (fun entry =>
              passes (stat_view fs now) criteria entry (OsPath.join path entry)
                (OsPath.isdir fs (OsPath.join path entry)))
           entries.
Proof.
  intros depth fs now path indent criteria entries Hlist.
  remember (S depth) as depth' eqn:Hdepth.
  eexists. split.
  { cbn [show_directory_tree]. rewrite Hlist. reflexivity. }
  clear Hlist. induction entries as [| entry rest IHe]; [reflexivity |].
  step_tree.
  destruct (passes _ _ _ _ _); cbn [negb]; [| exact IHe].
  destruct (OsPath.isdir fs (OsPath.join path entry)).
  - destruct (show_directory_tree depth' fs now (OsPath.join path entry)
                (S indent) criteria) as [sub |] eqn:Hsub.
    + rewrite entries_at_dir, entries_at_app, IHe. f_equal.
      rewrite (entries_at_deeper indent sub); [reflexivity |].
      exact (tree_lines_indented _ _ _ _ _ _ _ Hsub).
    + exfalso. subst depth'.
      destruct (show_directory_tree_returns depth fs now (OsPath.join path entry)
                  (S indent) criteria) as [sub Hsome].
      congruence.
  - rewrite entries_at_file, IHe. reflexivity.
Qed.

(** X11.  With the files-only flag the tree is flat: no directory is
    shown or entered, and the lines are those of the entries of the listing
    that pass, one line each. *)
Theorem tree_with_files_only_is_flat :
  forall (depth : nat) (fs : gmap string node) (now : Q) (path : string)
         (indent : nat) (c : FilterCriteria) (entries : list string),
    only_files c = true ->
    Os.listdir fs path = inl entries ->
    show_directory_tree (S depth) fs now path indent (Some c) =
    Some
      (List.map
         (fun entry =>
            TreeFileLine indent entry
              (getsize (stat_view fs now) (OsPath.join path entry)))
         (List.filter
            (fun entry =>
               should_include (stat_view fs now) c entry (OsPath.join path entry)
                 (OsPath.isdir fs (OsPath.join path entry)))
            entries)).
Proof.
  intros depth fs now path indent c entries Hfiles Hlist.
  cbn [show_directory_tree]. rewrite Hlist. f_equal.
  clear Hlist. induction entries as [| entry rest IHe]; [reflexivity |].
  step_tree. cbn [passes].
  destruct (OsPath.isdir fs (OsPath.join path entry)) eqn:Hdir.
  - rewrite should_include_dir, Hfiles. cbn [negb]. exact IHe.
  - destruct (should_include _ _ _ _ _); cbn [negb List.map]; [now f_equal | exact IHe].
Qed.

(** ** The actions, continued *)

Arguments OsPath.join : simpl never.
Arguments json_file_name : simpl never.

Section MoreActionFacts.

Variable COLORAMA_AVAILABLE : bool.
Variable script_dir : string.
Variable recursion_depth : nat.
Variable os_makedirs : string -> gmap string node -> gmap string node * option exn.
Variable json_dump_to :
  string -> json_doc -> gmap string node -> gmap string node * option exn.
Variable shutil_move :
  string -> string -> gmap string node -> gmap string node * option exn.
Variable shutil_rmtree : string -> gmap string node -> gmap string node * option exn.

(** X12.  [choice_4] changes the file system only after the answer "yes":
    when the input has no second line, or a second line that is not "yes"
    in some letter case, the file system is afterwards what it was, whatever
    the target, the criteria and [shutil.rmtree] are. *)
Theorem choice_4_changes_nothing_without_yes :
  forall (criteria : option FilterCriteria) (w : World),
    (forall target answer rest,
        w_stdin w = target :: answer :: rest -> PyStr.lower answer <> "yes") ->
    w_fs (snd (choice_4 COLORAMA_AVAILABLE recursion_depth shutil_rmtree criteria w))
    = w_fs w.
Proof.
  intros criteria [fs now stdin stdout] H. cbn [w_stdin] in H.
  unfold choice_4. rewrite choice_4_warning. run_action.
  destruct stdin as [| target tail]; [reflexivity |]. cbn.
  assert (Hno : forall answer rest, tail = answer :: rest ->
                  String.eqb (PyStr.lower answer) "yes" = false).
  { intros answer rest ->. apply String.eqb_neq. exact (H _ _ _ eq_refl). }
  destruct (OsPath.exists_ fs target); cbn; [| reflexivity].
  destruct (OsPath.isfile fs target); cbn.
  { destruct tail as [| answer rest]; cbn; [reflexivity |].
    rewrite (Hno _ _ eq_refl). reflexivity. }
  destruct (OsPath.isdir fs target); cbn; [| reflexivity].
  destruct criteria as [c |]; cbn.
  - destruct (collect_files recursion_depth fs now target (Some c)) as [out data].
    cbn. destruct data as [[| item more] |]; cbn; try reflexivity.
    run_action.
    destruct tail as [| answer rest]; cbn; [reflexivity |].
    rewrite (Hno _ _ eq_refl). reflexivity.
  - destruct tail as [| answer rest]; cbn; [reflexivity |].
    rewrite (Hno _ _ eq_refl). reflexivity.
Qed.

(** X13.  With the tree flag among the criteria, [choice_4] on a directory
    prints the tree and the "nothing to delete" line and stops: it asks for
    no confirmation and removes nothing, whatever the directory holds and
    whatever the other flags are. *)
Theorem delete_in_tree_mode_removes_nothing :
  forall (c : FilterCriteria) (fs : gmap string node) (now : Q)
         (target : string) (stdin : list string) (stdout : list msg),
    show_tree c = true ->
    OsPath.isdir fs target = true ->
    choice_4 COLORAMA_AVAILABLE recursion_depth shutil_rmtree (Some c)
      {| w_fs := fs; w_now := now; w_stdin := target :: stdin; w_stdout := stdout |} =
    (Ok tt,
     {| w_fs := fs; w_now := now; w_stdin := stdin;
        w_stdout := stdout ++ deletion_warning COLORAMA_AVAILABLE ++
          [PromptPathToDelete; MsgFiltersActive] ++
          fst (collect_files recursion_depth fs now target (Some c)) ++
          [MsgNothingToDelete] |}).
Proof.
  intros c fs now target stdin stdout Htree Hdir.
  rewrite (choice_4_filtered COLORAMA_AVAILABLE recursion_depth shutil_rmtree
             c fs now target stdin stdout Hdir).
  rewrite (collect_files_tree recursion_depth fs now target c Htree Hdir).
  cbn [fst snd choice_4_on_collected]. unfold print. cbn.
  flatten_out. reflexivity.
Qed.

(** X14.  A target that is a file is removed on "yes" whatever the
    criteria are, also when they exclude it; when [os.remove] raises, the
    error is printed, the file stays and the action returns. *)
Theorem delete_file_target_ignores_criteria :
  forall (criteria : option FilterCriteria) (fs : gmap string node) (now : Q)
         (target answer : string) (stdin : list string) (stdout : list msg),
    OsPath.isfile fs target = true ->
    PyStr.lower answer = "yes" ->
    choice_4 COLORAMA_AVAILABLE recursion_depth shutil_rmtree criteria
      {| w_fs := fs; w_now := now; w_stdin := target :: answer :: stdin;
         w_stdout := stdout |} =
    (Ok tt,
     {| w_fs := match remove_error fs target with
                | None => Os.unlink target fs
                | Some _ => fs
                end;
        w_now := now; w_stdin := stdin;
        w_stdout := stdout ++ deletion_warning COLORAMA_AVAILABLE ++
          [PromptPathToDelete; PromptDeleteFile target;
           match remove_error fs target with
           | None => MsgDeleted target
           | Some e => MsgErrorDeleting e
           end] |}).
Proof.
  intros criteria fs now target answer stdin stdout Hfile Hyes.
  apply String.eqb_eq in Hyes.
  unfold choice_4. rewrite choice_4_warning. run_action.
  rewrite (isfile_exists _ _ Hfile), Hfile. cbn. rewrite Hyes.
  rewrite (remove_file _ _ Hfile).
  destruct (remove_error fs target); cbn; flatten_out; reflexivity.
Qed.

(** X15.  [choice_3] and [choice_4] catch what the library calls raise:
    they raise nothing but [EOFError], and that only when the input has
    fewer than three lines, respectively two. *)
Theorem move_and_delete_raise_only_at_end_of_input :
  forall (criteria : option FilterCriteria) (w : World) (e : exn),
    (fst (choice_3 shutil_move criteria w) = Raise e ->
       e = EOFError /\ (length (w_stdin w) < 3)%nat)
    /\ (fst (choice_4 COLORAMA_AVAILABLE recursion_depth shutil_rmtree criteria w)
          = Raise e ->
        e = EOFError /\ (length (w_stdin w) < 2)%nat).
Proof.
  intros criteria [fs now stdin stdout] e. split.
  - unfold choice_3. run_action.
    destruct stdin as [| source tail]; cbn; [intros [= <-]; split; [reflexivity | lia] |].
    destruct (OsPath.exists_ fs source); cbn; [| discriminate].
    destruct tail as [| destination tail]; cbn;
      [intros [= <-]; split; [reflexivity | lia] |].
    destruct (OsPath.isdir fs source); cbn.
    + destruct tail as [| confirm tail]; cbn;
        [intros [= <-]; split; [reflexivity | lia] |].
      destruct (String.eqb (PyStr.lower confirm) "yes"); cbn; [| discriminate].
      destruct (shutil_move source destination fs) as [fs' [err |]]; cbn; discriminate.
    + destruct (shutil_move source destination fs) as [fs' [err |]]; cbn; discriminate.
  - unfold choice_4. rewrite choice_4_warning. run_action.
    destruct stdin as [| target tail]; cbn; [intros [= <-]; split; [reflexivity | lia] |].
    destruct (OsPath.exists_ fs target); cbn; [| discriminate].
    destruct (OsPath.isfile fs target); cbn.
    { destruct tail as [| answer rest]; cbn;
        [intros [= <-]; split; [reflexivity | lia] |].
      destruct (String.eqb (PyStr.lower answer) "yes"); cbn; [| discriminate].
      destruct (Os.remove target fs); cbn; discriminate. }
    destruct (OsPath.isdir fs target); cbn; [| discriminate].
    destruct criteria as [c |]; cbn.
    + destruct (collect_files recursion_depth fs now target (Some c)) as [out data].
      cbn. destruct data as [[| item more] |]; [cbn; discriminate | | cbn; discriminate].
      unfold choice_4_on_collected.
      remember (item :: more) as batch eqn:Hbatch.
      run_action.
      destruct tail as [| answer rest]; cbn;
        [intros [= <-]; split; [reflexivity | lia] |].
      destruct (String.eqb (PyStr.lower answer) "yes"); cbn; [| discriminate].
      match goal with
      | |- context [delete_collected ?t ?d ?n ?w] =>
          destruct (delete_collected_run t d n w) as (removed & lines & Hrun & _)
      end.
      unfold bind. rewrite Hrun. cbn. discriminate.
    + destruct tail as [| answer rest]; cbn;
        [intros [= <-]; split; [reflexivity | lia] |].
      destruct (String.eqb (PyStr.lower answer) "yes"); cbn; [| discriminate].
      destruct (shutil_rmtree target fs) as [fs' [err |]]; cbn; discriminate.
Qed.

(** X16.  What [choice_3] does with a source that is not a directory:
    a missing source ends the action after the first line, with nothing
    changed; an existing one is moved by one call of [shutil.move] with the
    two lines as typed, without a second question, and when the call raises
    the error is printed and whatever the call did stays. *)
Theorem move_of_a_file :
  forall (criteria : option FilterCriteria) (fs : gmap string node) (now : Q)
         (source destination : string) (stdin : list string) (stdout : list msg),
    (OsPath.exists_ fs source = false ->
       choice_3 shutil_move criteria
         {| w_fs := fs; w_now := now; w_stdin := source :: stdin; w_stdout := stdout |} =
       (Ok tt,
        {| w_fs := fs; w_now := now; w_stdin := stdin;
           w_stdout := stdout ++ [PromptMoveSource; MsgSourceNotExist] |}))
    /\ (OsPath.exists_ fs source = true ->
        OsPath.isdir fs source = false ->
        choice_3 shutil_move criteria
          {| w_fs := fs; w_now := now; w_stdin := source :: destination :: stdin;
             w_stdout := stdout |} =
        (Ok tt,
         {| w_fs := fst (shutil_move source destination fs); w_now := now;
            w_stdin := stdin;
            w_stdout := stdout ++
              [PromptMoveSource; PromptDestination;
               match snd (shutil_move source destination fs) with
               | None => MsgMoved source destination
               | Some e => MsgErrorMoving e
               end] |})).
Proof.
  intros criteria fs now source destination stdin stdout. split.
  - intros Hex. unfold choice_3. run_action. rewrite Hex. cbn.
    flatten_out. reflexivity.
  - intros Hex Hdir. unfold choice_3. run_action. rewrite Hex. cbn. rewrite Hdir. cbn.
    destruct (shutil_move source destination fs) as [fs' [err |]]; cbn;
      flatten_out; reflexivity.
Qed.


(** X18.  Any answer but "yes" to the question whether to create a JSON
    file does not skip the writing: the next line is taken as the path, white
    space trimmed and nothing else changed (no ".json" added, no folder
    made), and the records are written there. *)
Theorem store_at_a_typed_path :
  forall (data : list file_data) (fs : gmap string node) (now : Q)
         (create typed store_type : string)
         (stdin : list string) (stdout : list msg),
    PyStr.lower create <> "yes" ->
    let json_path := PyStr.strip typed in
    let doc := if String.eqb store_type "2" then NamesOnly (List.map Name data)
               else FullData data in
    choice_1_store script_dir os_makedirs json_dump_to data
      {| w_fs := fs; w_now := now; w_stdin := create :: typed :: store_type :: stdin;
         w_stdout := stdout |} =
    (Ok tt,
     {| w_fs := fst (json_dump_to json_path doc fs); w_now := now; w_stdin := stdin;
        w_stdout := stdout ++
          [PromptCreateJson; PromptFullJsonPath; MsgStorageOptions; MsgStorageFull;
           MsgStorageNamesOnly; PromptChooseStorage;
           match snd (json_dump_to json_path doc fs) with
           | None => MsgDataSavedTo json_path
           | Some e => MsgErrorSavingJson e
           end] |}).
Proof.
  intros data fs now create typed store_type stdin stdout Hno json_path doc.
  apply String.eqb_neq in Hno.
  unfold choice_1_store. run_action. rewrite Hno. cbn.
  fold json_path. fold doc.
  destruct (json_dump_to json_path doc fs) as [fs2 [e |]]; cbn;
    flatten_out; reflexivity.
Qed.

End MoreActionFacts.

(** ** setup_filters *)

Ltac run_session :=
  unfold sbind, sret, sprint, sprint_all, sinput, sget; cbn.

Lemma eqb_other n f : f <> n -> String.eqb n f = false.
Proof. intros H. apply String.eqb_neq. congruence. Qed.

Ltac flag_case :=
  run_session; intros [= <- <-]; cbn; split; [reflexivity |];
  exists []; split; [reflexivity |]; split; [discriminate |];
  intros c' [= <-]; cbn; rewrite ?orb_true_r, ?orb_false_r;
  repeat split; try reflexivity; try discriminate.

(** What one token does. *)
Lemma apply_filter_effect f c s r s' :
  apply_filter f c s = (r, s') ->
  s_fs s' = s_fs s
  /\ exists kws,
       s_stdin s = kws ++ s_stdin s'
       /\ (forall e, r = Raise e -> e = EOFError)
       /\ forall c', r = Ok c' ->
            length kws = keyword_questions [f]
            /\ flag_values c' =
               zip_with orb (flag_values c)
                 (List.map (fun n => String.eqb n f) flag_numbers)
            /\ (String.eqb "7" f = false -> exclude_keyword c' = exclude_keyword c)
            /\ (String.eqb "7" f = true ->
                exists k, exclude_keyword c' = Some k /\ In k kws)
            /\ (String.eqb "8" f = false -> include_keyword c' = include_keyword c)
            /\ (String.eqb "8" f = true ->
                exists k, include_keyword c' = Some k /\ In k kws).
Proof.
  unfold apply_filter.
  destruct (String.eqb_spec f "1") as [-> | N1]; [flag_case |].
  destruct (String.eqb_spec f "2") as [-> | N2]; [flag_case |].
  destruct (String.eqb_spec f "3") as [-> | N3]; [flag_case |].
  destruct (String.eqb_spec f "4") as [-> | N4]; [flag_case |].
  destruct (String.eqb_spec f "5") as [-> | N5]; [flag_case |].
  destruct (String.eqb_spec f "6") as [-> | N6]; [flag_case |].
  destruct (String.eqb_spec f "7") as [-> | N7].
  { run_session. destruct (s_stdin s) as [| keyword rest] eqn:Hin.
    - intros [= <- <-]. cbn. split; [reflexivity |].
      exists []. split; [reflexivity |]. split; [now intros e [= <-] | discriminate].
    - intros [= <- <-]. cbn. split; [reflexivity |].
      exists [keyword]. split; [reflexivity |]. split; [discriminate |].
      intros c' [= <-]. cbn. rewrite ?orb_false_r.
      repeat split; try reflexivity; try discriminate.
      intros _. exists keyword. split; [reflexivity | now left]. }
  destruct (String.eqb_spec f "8") as [-> | N8].
  { run_session. destruct (s_stdin s) as [| keyword rest] eqn:Hin.
    - intros [= <- <-]. cbn. split; [reflexivity |].
      exists []. split; [reflexivity |]. split; [now intros e [= <-] | discriminate].
    - intros [= <- <-]. cbn. split; [reflexivity |].
      exists [keyword]. split; [reflexivity |]. split; [discriminate |].
      intros c' [= <-]. cbn. rewrite ?orb_false_r.
      repeat split; try reflexivity; try discriminate.
      intros _. exists keyword. split; [reflexivity | now left]. }
  destruct (String.eqb_spec f "9") as [-> | N9]; [flag_case |].
  destruct (String.eqb_spec f "10") as [-> | N10]; [flag_case |].
  destruct (String.eqb_spec f "11") as [-> | N11]; [flag_case |].
  unfold sret. intros [= <- <-]. split; [reflexivity |].
  exists []. split; [reflexivity |]. split; [discriminate |].
  intros c' [= <-].
  unfold keyword_questions, flag_numbers. cbn [List.map List.filter].
  rewrite !(eqb_other _ f) by assumption.
  apply String.eqb_neq in N7, N8. rewrite N7, N8. cbn.
  rewrite ?orb_false_r.
  repeat split; try reflexivity; discriminate.
Qed.

Lemma keyword_questions_cons f rest :
  keyword_questions (f :: rest) = (keyword_questions [f] + keyword_questions rest)%nat.
Proof.
  unfold keyword_questions. cbn [List.filter].
  destruct (String.eqb f "7" || String.eqb f "8"); reflexivity.
Qed.

(** What the tokens of the filter line do, one after the other. *)
Lemma apply_filters_effect tokens :
  forall c s r s',
    apply_filters tokens c s = (r, s') ->
    s_fs s' = s_fs s
    /\ exists kws,
         s_stdin s = kws ++ s_stdin s'
         /\ (forall e, r = Raise e -> e = EOFError)
         /\ forall c', r = Ok c' ->
              length kws = keyword_questions tokens
              /\ flag_values c' =
                 zip_with orb (flag_values c)
                   (List.map (fun n => existsb (String.eqb n) tokens) flag_numbers)
              /\ (existsb (String.eqb "7") tokens = false ->
                  exclude_keyword c' = exclude_keyword c)
              /\ (existsb (String.eqb "7") tokens = true ->
                  exists k, exclude_keyword c' = Some k /\ In k kws)
              /\ (existsb (String.eqb "8") tokens = false ->
                  include_keyword c' = include_keyword c)
              /\ (existsb (String.eqb "8") tokens = true ->
                  exists k, include_keyword c' = Some k /\ In k kws).
Proof.
  induction tokens as [| f rest IH]; intros c s r s' H.
  - cbn in H. injection H as <- <-. split; [reflexivity |].
    exists []. split; [reflexivity |]. split; [discriminate |].
    intros c' [= <-]. cbn. rewrite ?orb_false_r.
    repeat split; try reflexivity; discriminate.
  - cbn [apply_filters] in H. unfold sbind in H.
    destruct (apply_filter f c s) as [r1 s1] eqn:H1.
    apply apply_filter_effect in H1 as (Hfs1 & kws1 & Hin1 & Hraise1 & Hok1).
    destruct r1 as [c1 | e1].
    + apply IH in H as (Hfs2 & kws2 & Hin2 & Hraise2 & Hok2).
      split; [congruence |].
      exists (kws1 ++ kws2). split; [now rewrite Hin1, Hin2, app_assoc |].
      split; [exact Hraise2 |].
      intros c' Hr.
      destruct (Hok1 c1 eq_refl) as (Hlen1 & Hflags1 & Hex1 & Hex1' & Hinc1 & Hinc1').
      destruct (Hok2 c' Hr) as (Hlen2 & Hflags2 & Hex2 & Hex2' & Hinc2 & Hinc2').
      split; [rewrite length_app, keyword_questions_cons; lia |].
      split.
      { rewrite Hflags2, Hflags1.
        unfold flag_values, flag_numbers.
        cbn [zip_with List.map existsb]. rewrite !orb_assoc. reflexivity. }
      cbn [existsb]. rewrite !orb_false_iff, !orb_true_iff.
      split; [intros [Hf Hrest]; rewrite (Hex2 Hrest); exact (Hex1 Hf) |].
      split.
      { intros Hsome.
        destruct (existsb (String.eqb "7") rest) eqn:Hrest.
        - destruct (Hex2' eq_refl) as (k & Hk & Hkin).
          exists k. split; [exact Hk | apply in_or_app; now right].
        - destruct Hsome as [Hf | Hf]; [| discriminate].
          destruct (Hex1' Hf) as (k & Hk & Hkin).
          exists k. split; [rewrite (Hex2 eq_refl); exact Hk | apply in_or_app; now left]. }
      split; [intros [Hf Hrest]; rewrite (Hinc2 Hrest); exact (Hinc1 Hf) |].
      intros Hsome.
      destruct (existsb (String.eqb "8") rest) eqn:Hrest.
      * destruct (Hinc2' eq_refl) as (k & Hk & Hkin).
        exists k. split; [exact Hk | apply in_or_app; now right].
      * destruct Hsome as [Hf | Hf]; [| discriminate].
        destruct (Hinc1' Hf) as (k & Hk & Hkin).
        exists k. split; [rewrite (Hinc2 eq_refl); exact Hk | apply in_or_app; now left].
    + injection H as <- <-. split; [exact Hfs1 |].
      exists kws1. split; [exact Hin1 |]. split; [exact Hraise1 | discriminate].
Qed.

(** [setup_filters] as a whole. *)
Lemma setup_filters_effect s r s' :
  setup_filters s = (r, s') ->
  s_fs s' = s_fs s
  /\ (forall e, r = Raise e -> e = EOFError)
  /\ (r = Ok None ->
      exists answer rest,
        s_stdin s = answer :: rest /\ PyStr.lower answer <> "yes"
        /\ s_stdin s' = rest
        /\ s_stdout s' = s_stdout s ++ [Menu PromptApplyFilters])
  /\ (forall c, r = Ok (Some c) ->
      exists answer filter_input kws,
        s_stdin s = answer :: filter_input :: kws ++ s_stdin s'
        /\ PyStr.lower answer = "yes"
        /\ length kws = keyword_questions (filter_tokens filter_input)
        /\ flag_values c =
           List.map (fun n => chosen n filter_input) flag_numbers
        /\ (chosen "7" filter_input = false -> exclude_keyword c = None)
        /\ (chosen "7" filter_input = true ->
            exists k, exclude_keyword c = Some k /\ In k kws)
        /\ (chosen "8" filter_input = false -> include_keyword c = None)
        /\ (chosen "8" filter_input = true ->
            exists k, include_keyword c = Some k /\ In k kws))
  /\ s_stdin s' `suffix_of` s_stdin s.
Proof.
  unfold setup_filters. destruct s as [fs now stdin stdout]. run_session.
  destruct stdin as [| answer tail].
  { intros [= <- <-]. cbn. repeat split; try discriminate; try reflexivity.
    now intros e [= <-]. }
  destruct (String.eqb (PyStr.lower answer) "yes") eqn:Hyes; cbn.
  2:{ intros [= <- <-]. cbn. apply String.eqb_neq in Hyes.
      repeat split; try discriminate.
      - intros _. exists answer, tail. repeat split; assumption.
      - now apply suffix_cons_r. }
  apply String.eqb_eq in Hyes.
  destruct tail as [| filter_input tail].
  { intros [= <- <-]. cbn. repeat split; try discriminate.
    - now intros e [= <-].
    - apply suffix_nil. }
  cbn.
  match goal with
  | |- context [apply_filters ?t ?c ?s0] =>
      destruct (apply_filters t c s0) as [r2 s2] eqn:H2
  end.
  apply apply_filters_effect in H2 as (Hfs & kws & Hin & Hraise & Hok).
  cbn in Hfs, Hin.
  destruct r2 as [c |]; intros [= <- <-].
  - split; [exact Hfs |]. split; [discriminate |]. split; [discriminate |]. split.
    + intros c0 [= <-].
      destruct (Hok c eq_refl) as (Hlen & Hflags & Hex & Hex' & Hinc & Hinc').
      exists answer, filter_input, kws.
      split; [now rewrite Hin |]. split; [exact Hyes |]. split; [exact Hlen |].
      split; [| unfold chosen; repeat split; assumption].
      rewrite Hflags. unfold flag_values, flag_numbers, chosen. cbn. reflexivity.
    + rewrite Hin. do 2 apply suffix_cons_r. now apply suffix_app_r.
  - split; [exact Hfs |]. split; [intros e' [= <-]; now apply Hraise |].
    split; [discriminate |]. split; [discriminate |].
    rewrite Hin. do 2 apply suffix_cons_r. now apply suffix_app_r.
Qed.

(** X19.  When [setup_filters] returns criteria, the first answer was
    "yes" and each of the nine flags is set exactly when its number is among
    the comma-separated tokens of the second line, white space around a
    token not counting: tokens that are no filter number are passed over,
    and a number given twice counts once.  A keyword is set exactly when 7,
    respectively 8, is among the tokens, and it is one of the lines read
    after the filter line, of which there is one for each token 7 or 8. *)
Theorem setup_filters_sets_the_chosen_flags :
  forall (s s' : Session) (c : FilterCriteria),
    setup_filters s = (Ok (Some c), s') ->
    exists answer filter_input kws,
      s_stdin s = answer :: filter_input :: kws ++ s_stdin s'
      /\ PyStr.lower answer = "yes"
      /\ length kws = keyword_questions (filter_tokens filter_input)
      /\ flag_values c = List.map (fun n => chosen n filter_input) flag_numbers
      /\ (chosen "7" filter_input = false -> exclude_keyword c = None)
      /\ (chosen "7" filter_input = true ->
          exists k, exclude_keyword c = Some k /\ In k kws)
      /\ (chosen "8" filter_input = false -> include_keyword c = None)
      /\ (chosen "8" filter_input = true ->
          exists k, include_keyword c = Some k /\ In k kws)
      /\ s_fs s' = s_fs s.
Proof.
  intros s s' c H.
  destruct (setup_filters_effect _ _ _ H) as (Hfs & _ & _ & Hsome & _).
  destruct (Hsome c eq_refl)
    as (answer & filter_input & kws & H1 & H2 & H3 & H4 & H5 & H6 & H7 & H8).
  exists answer, filter_input, kws. repeat split; assumption.
Qed.

(** X20.  [setup_filters] returns no criteria exactly when the first
    answer is not "yes" in some letter case; it then has read that one line
    and printed nothing but its question. *)
Theorem setup_filters_declined :
  forall (s : Session) (answer : string) (rest : list string),
    s_stdin s = answer :: rest ->
    (PyStr.lower answer <> "yes" ->
       setup_filters s =
       (Ok None,
        {| s_fs := s_fs s; s_now := s_now s; s_stdin := rest;
           s_stdout := s_stdout s ++ [Menu PromptApplyFilters] |}))
    /\ (fst (setup_filters s) = Ok None -> PyStr.lower answer <> "yes").
Proof.
  intros [fs now stdin stdout] answer rest Hin. cbn in Hin. subst stdin. split.
  - intros Hno. apply String.eqb_neq in Hno.
    unfold setup_filters. run_session. now rewrite Hno.
  - intros Hnone.
    destruct (setup_filters {| s_fs := fs; s_now := now; s_stdin := answer :: rest;
                               s_stdout := stdout |}) as [r s'] eqn:H.
    cbn in Hnone. subst r.
    destruct (setup_filters_effect _ _ _ H) as (_ & _ & Hdecl & _).
    destruct (Hdecl eq_refl) as (answer' & rest' & Hin & Hno & _).
    cbn in Hin. now injection Hin as <- _.
Qed.

(** X21.  The numbers 1 and 2 on the same filter line are accepted
    without a word, and the criteria they give exclude every entry. *)
Theorem choosing_files_and_directories_excludes_everything :
  forall (s s' : Session) (c : FilterCriteria) (answer filter_input : string)
         (rest : list string),
    s_stdin s = answer :: filter_input :: rest ->
    setup_filters s = (Ok (Some c), s') ->
    chosen "1" filter_input = true ->
    chosen "2" filter_input = true ->
    forall (os : StatView) (name path : string) (is_dir : bool),
      should_include os c name path is_dir = false.
Proof.
  intros s s' c answer filter_input rest Hin H H1 H2 os name path is_dir.
  destruct (setup_filters_effect _ _ _ H) as (_ & _ & _ & Hsome & _).
  destruct (Hsome c eq_refl) as (answer' & filter_input' & kws & Hin' & _ & _ & Hflags & _).
  rewrite Hin in Hin'. injection Hin' as <- <- _.
  unfold flag_values, flag_numbers in Hflags. cbn [List.map] in Hflags.
  injection Hflags as Hfiles Hdirs _.
  unfold should_include. rewrite Hfiles, Hdirs, H1, H2.
  destruct is_dir; reflexivity.
Qed.

Lemma apply_filters_unknown tokens :
  forall c s,
    Forall (fun f => existsb (String.eqb f)
                       ["1"; "2"; "3"; "4"; "5"; "6"; "7"; "8"; "9"; "10"; "11"]
                     = false) tokens ->
    apply_filters tokens c s = (Ok c, s).
Proof.
  induction tokens as [| f rest IH]; intros c s Hall; [reflexivity |].
  apply Forall_cons in Hall as [Hf Hrest].
  cbn [apply_filters]. unfold sbind.
  assert (Hstep : apply_filter f c s = (Ok c, s)).
  { unfold apply_filter. cbn [existsb] in Hf.
    repeat (apply orb_false_iff in Hf as [?H Hf]).
    repeat match goal with H : String.eqb f _ = false |- _ => rewrite H; clear H end.
    reflexivity. }
  rewrite Hstep. now apply IH.
Qed.

(** X22.  Answering "yes" and then giving no filter number (an empty
    line, or tokens that are no number from 1 to 11) still returns criteria:
    those of [__init__], which exclude nothing.  The actions then take the
    branch for active filters. *)
Theorem yes_without_numbers_gives_empty_criteria :
  forall (s : Session) (answer filter_input : string) (rest : list string),
    s_stdin s = answer :: filter_input :: rest ->
    PyStr.lower answer = "yes" ->
    Forall (fun f => existsb (String.eqb f)
                       ["1"; "2"; "3"; "4"; "5"; "6"; "7"; "8"; "9"; "10"; "11"]
                     = false) (filter_tokens filter_input) ->
    setup_filters s =
    (Ok (Some FilterCriteria_init),
     {| s_fs := s_fs s; s_now := s_now s; s_stdin := rest;
        s_stdout := s_stdout s ++
          List.map Menu
            ([PromptApplyFilters; MsgAvailableFilters] ++
             List.map MsgFilterChoice (seq 1 11) ++
             [MsgSelectMultiple; PromptFilterNumbers]) |}).
Proof.
  intros [fs now stdin stdout] answer filter_input rest Hin Hyes Hall.
  cbn in Hin. subst stdin. apply String.eqb_eq in Hyes.
  unfold setup_filters. run_session. rewrite Hyes. cbn.
  rewrite (apply_filters_unknown _ _ _ Hall). cbn.
  repeat (rewrite <- ?app_assoc; cbn [app]). reflexivity.
Qed.

(** ** choice_2 *)

Lemma contains_empty s : PyStr.contains s "" = true.
Proof. destruct s; reflexivity. Qed.

Lemma found_lines_app out out' :
  found_lines (out ++ out') = found_lines out ++ found_lines out'.
Proof. unfold found_lines. apply omap_app. Qed.

Lemma found_paths_app out out' :
  found_paths (out ++ out') = found_paths out ++ found_paths out'.
Proof. unfold found_paths. apply omap_app. Qed.

(** The loop over the files of one directory. *)
Lemma search_files_effect os criteria term root files :
  forall count,
    let hits :=
      List.filter
        (fun file =>
           PyStr.contains (PyStr.lower file) term
           && passes os criteria file (OsPath.join root file) false)
        files in
    snd (search_files os criteria term root files count) = (count + length hits)%nat
    /\ found_lines (fst (search_files os criteria term root files count)) =
       combine (seq (S count) (length hits)) hits
    /\ found_paths (fst (search_files os criteria term root files count)) =
       List.map (OsPath.join root) hits.
Proof.
  induction files as [| file rest IH]; intros count hits.
  - cbn. rewrite Nat.add_0_r. repeat split.
  - subst hits. cbn [search_files List.filter].
    destruct (PyStr.contains (PyStr.lower file) term); cbn [andb];
      [| exact (IH count)].
    destruct (passes os criteria file (OsPath.join root file) false); cbn [negb];
      [| exact (IH count)].
    destruct (IH (S count)) as (Hn & Hlines & Hpaths).
    destruct (search_files os criteria term root rest (S count)) as [out n].
    cbn [fst snd] in *. cbn [length seq combine List.map].
    split; [lia |]. split.
    + change (MsgFound (S count) file :: MsgFoundPath (OsPath.join root file) ::
              match getsize os (OsPath.join root file) with
              | Some size => [MsgFoundSize size]
              | None => []
              end ++ out)
        with ([MsgFound (S count) file; MsgFoundPath (OsPath.join root file)] ++
              match getsize os (OsPath.join root file) with
              | Some size => [MsgFoundSize size]
              | None => []
              end ++ out).
      rewrite !found_lines_app, Hlines.
      destruct (getsize os (OsPath.join root file)); reflexivity.
    + change (MsgFound (S count) file :: MsgFoundPath (OsPath.join root file) ::
              match getsize os (OsPath.join root file) with
              | Some size => [MsgFoundSize size]
              | None => []
              end ++ out)
        with ([MsgFound (S count) file; MsgFoundPath (OsPath.join root file)] ++
              match getsize os (OsPath.join root file) with
              | Some size => [MsgFoundSize size]
              | None => []
              end ++ out).
      rewrite !found_paths_app, Hpaths.
      destruct (getsize os (OsPath.join root file)); reflexivity.
Qed.

Lemma combine_seq_app {A} (l l' : list A) (n : nat) :
  combine (seq n (length l + length l')) (l ++ l') =
  combine (seq n (length l)) l ++ combine (seq (n + length l) (length l')) l'.
Proof.
  revert n. induction l as [| x l IH]; intros n.
  - cbn. now rewrite Nat.add_0_r.
  - cbn. rewrite IH. now rewrite Nat.add_succ_r.
Qed.

(** The loop over the walk. *)
Lemma search_walk_effect os criteria term walk :
  forall count,
    let hits := search_matches os criteria term walk in
    snd (search_walk os criteria term walk count) = (count + length hits)%nat
    /\ found_lines (fst (search_walk os criteria term walk count)) =
       combine (seq (S count) (length hits)) (List.map snd hits)
    /\ found_paths (fst (search_walk os criteria term walk count)) =
       List.map (fun hit => OsPath.join (fst hit) (snd hit)) hits.
Proof.
  induction walk as [| [[root dirs] files] rest IH]; intros count hits.
  - cbn. rewrite Nat.add_0_r. repeat split.
  - subst hits. unfold search_matches. cbn [search_walk List.map List.concat].
    fold (search_matches os criteria term rest).
    destruct (search_files_effect os criteria term root files count)
      as (Hn & Hlines & Hpaths).
    destruct (search_files os criteria term root files count) as [out n].
    cbn [fst snd] in *.
    destruct (IH n) as (Hn' & Hlines' & Hpaths').
    destruct (search_walk os criteria term rest n) as [out' n'].
    cbn [fst snd] in *.
    rewrite length_app, List.length_map, !List.map_app, !List.map_map.
    cbn [fst snd].
    split; [lia |]. split.
    + rewrite found_lines_app, Hlines, Hlines', Hn.
      rewrite List.map_id.
      rewrite <- (List.length_map snd (search_matches os criteria term rest)).
      rewrite combine_seq_app. now rewrite Nat.add_succ_l.
    + rewrite found_paths_app, Hpaths, Hpaths'. reflexivity.
Qed.

Section SearchFacts.

Variable os_walk :
  gmap string node -> string ->
  list (string * list string * list string) * option exn.

(** X23.  [choice_2] reads two lines and reports, numbered from 1 in the
    order of the walk, exactly the files [os.walk] yields whose name contains
    the search term, letter case apart, and that pass the criteria, each with
    its path.  When the walk ends without an exception it prints the closing
    rule and the number found, or the "no files" line when there is none.
    When the walk raises, the files yielded before are reported, nothing is
    printed after them and the exception leaves [choice_2].  The file system
    is as it was in both cases. *)
Theorem search_reports_the_matches :
  forall (criteria : option FilterCriteria) (fs : gmap string node) (now : Q)
         (path term : string) (stdin : list string) (stdout : list line),
    let hits :=
      search_matches (stat_view fs now) criteria (PyStr.lower term)
        (fst (os_walk fs path)) in
    let asked :=
      [PromptSearchPath; PromptSearchTerm; MsgSearching (PyStr.lower term) path;
       MsgDashes] in
    exists out,
      found_lines out = combine (seq 1 (length hits)) (List.map snd hits)
      /\ found_paths out = List.map (fun hit => OsPath.join (fst hit) (snd hit)) hits
      /\ choice_2 os_walk criteria
           {| s_fs := fs; s_now := now; s_stdin := path :: term :: stdin;
              s_stdout := stdout |} =
         match snd (os_walk fs path) with
         | None =>
             (Ok tt,
              {| s_fs := fs; s_now := now; s_stdin := stdin;
                 s_stdout := stdout ++
                   List.map Menu
                     (asked ++ out ++
                      [MsgDashes;
                       match hits with
                       | [] => MsgNoneFound (PyStr.lower term)
                       | _ :: _ => MsgFoundTotal (length hits) (PyStr.lower term)
                       end]) |})
         | Some e =>
             (Raise e,
              {| s_fs := fs; s_now := now; s_stdin := stdin;
                 s_stdout := stdout ++ List.map Menu (asked ++ out) |})
         end.
Proof.
  intros criteria fs now path term stdin stdout hits asked.
  destruct (search_walk_effect (stat_view fs now) criteria (PyStr.lower term)
              (fst (os_walk fs path)) 0) as (Hn & Hlines & Hpaths).
  fold hits in Hn, Hlines, Hpaths.
  exists (fst (search_walk (stat_view fs now) criteria (PyStr.lower term)
                 (fst (os_walk fs path)) 0)).
  split; [exact Hlines |]. split; [exact Hpaths |].
  unfold choice_2. run_session.
  destruct (os_walk fs path) as [walk raised]. cbn [fst snd] in *.
  destruct (search_walk (stat_view fs now) criteria (PyStr.lower term) walk 0)
    as [out n].
  cbn [fst snd] in *. subst n asked.
  destruct raised as [e |]; cbn.
  - rewrite ?List.map_app; repeat (rewrite <- ?app_assoc; cbn [app List.map]).
    reflexivity.
  - destruct hits as [| hit more]; cbn;
      rewrite !List.map_app; repeat (rewrite <- ?app_assoc; cbn [app List.map]);
      reflexivity.
Qed.

End SearchFacts.

(** X24.  An empty search term matches every name: the paths reported
    are those of all the files of the walk that pass the criteria, directory
    by directory in the order of the walk. *)
Theorem empty_search_term_matches_every_file :
  forall (os : StatView) (criteria : option FilterCriteria)
         (walk : list (string * list string * list string)),
    found_paths (fst (search_walk os criteria "" walk 0)) =
    List.concat
      (List.map
         (fun '(root, _, files) =>
            List.map (OsPath.join root)
              (List.filter
                 (fun file => passes os criteria file (OsPath.join root file) false)
                 files))
         walk).
Proof.
  intros os criteria walk.
  destruct (search_walk_effect os criteria "" walk 0) as (_ & _ & ->).
  unfold search_matches.
  induction walk as [| [[root dirs] files] rest IH]; [reflexivity |].
  cbn [List.map List.concat]. rewrite List.map_app, IH. f_equal.
  rewrite List.map_map. cbn [fst snd].
  f_equal. apply List.filter_ext. intros file. now rewrite contains_empty.
Qed.

(** ** Reading forwards, raising little *)

Lemma behaves_weaken {A} (P Q : exn -> Prop) (a : M A) :
  (forall e, Q e -> P e) -> behaves Q a -> behaves P a.
Proof.
  intros HPQ Ha w. destruct (Ha w) as [Hsuf Hraise].
  split; [exact Hsuf | intros e He; apply HPQ, Hraise, He].
Qed.

Lemma behaves_ret {A} P (a : A) : behaves P (ret a).
Proof. intros w. split; [reflexivity | discriminate]. Qed.

Lemma behaves_print P m : behaves P (print m).
Proof. intros w. split; [reflexivity | discriminate]. Qed.

Lemma behaves_print_all P ms : behaves P (print_all ms).
Proof. intros w. split; [reflexivity | discriminate]. Qed.

Lemma behaves_get_fs P : behaves P get_fs.
Proof. intros w. split; [reflexivity | discriminate]. Qed.

Lemma behaves_get_now P : behaves P get_now.
Proof. intros w. split; [reflexivity | discriminate]. Qed.

Lemma behaves_put_fs P fs : behaves P (put_fs fs).
Proof. intros w. split; [reflexivity | discriminate]. Qed.

Lemma behaves_input (P : exn -> Prop) prompt : P EOFError -> behaves P (input prompt).
Proof.
  intros HP w. unfold input. destruct (w_stdin w) as [| l rest]; cbn.
  - split; [reflexivity | now intros e [= <-]].
  - split; [now apply suffix_cons_r | discriminate].
Qed.

Lemma behaves_os_call (P : exn -> Prop) f :
  (forall fs e, snd (f fs) = Some e -> P e) -> behaves P (os_call f).
Proof.
  intros HP w. unfold os_call.
  destruct (f (w_fs w)) as [fs' [e |]] eqn:Hf; cbn.
  - split; [reflexivity |]. intros e' [= <-]. apply (HP (w_fs w)). now rewrite Hf.
  - split; [reflexivity | discriminate].
Qed.

Lemma behaves_bind {A B} P (c : M A) (k : A -> M B) :
  behaves P c -> (forall a, behaves P (k a)) -> behaves P (bind c k).
Proof.
  intros Hc Hk w. unfold bind. destruct (Hc w) as [Hsuf Hraise].
  destruct (c w) as [[a | e] w1]; cbn in *.
  - destruct (Hk a w1) as [Hsuf' Hraise'].
    split; [now transitivity (w_stdin w1) | exact Hraise'].
  - split; [exact Hsuf |]. intros e' [= <-]. now apply Hraise.
Qed.

Lemma behaves_try_except {A} P Q (body : M A) (handler : exn -> M A) :
  behaves Q body -> (forall e, behaves P (handler e)) ->
  behaves P (try_except body handler).
Proof.
  intros Hb Hh w. unfold try_except. destruct (Hb w) as [Hsuf _].
  destruct (body w) as [[a | e] w1]; cbn in *.
  - split; [exact Hsuf | discriminate].
  - destruct (Hh e w1) as [Hsuf' Hraise'].
    split; [now transitivity (w_stdin w1) | exact Hraise'].
Qed.

Ltac behave :=
  repeat first
    [ apply behaves_ret
    | apply behaves_print
    | apply behaves_print_all
    | apply behaves_get_fs
    | apply behaves_get_now
    | apply behaves_put_fs
    | apply behaves_bind; [| intros ?]
    | match goal with
      | |- behaves _ (if ?b then _ else _) => destruct b
      | |- behaves _ (match ?x with _ => _ end) => destruct x
      | |- behaves _ (let '(_, _) := ?x in _) => destruct x
      end ].

Lemma behaves_delete_collected P target data :
  forall deleted, behaves P (delete_collected target data deleted).
Proof.
  induction data as [| item rest IH]; intros deleted; cbn [delete_collected].
  - apply behaves_ret.
  - behave; apply IH.
Qed.

Section Behaviour.

Variable COLORAMA_AVAILABLE : bool.
Variable script_dir : string.
Variable recursion_depth : nat.
Variable os_makedirs : string -> gmap string node -> gmap string node * option exn.
Variable json_dump_to :
  string -> json_doc -> gmap string node -> gmap string node * option exn.
Variable shutil_move :
  string -> string -> gmap string node -> gmap string node * option exn.
Variable shutil_rmtree : string -> gmap string node -> gmap string node * option exn.
Variable os_walk :
  gmap string node -> string ->
  list (string * list string * list string) * option exn.

Lemma behaves_call_collect_files P path criteria :
  behaves P (call_collect_files recursion_depth path criteria).
Proof. unfold call_collect_files. behave. Qed.

Lemma behaves_choice_1 criteria :
  behaves (end_of_input_or_makedirs os_makedirs)
    (choice_1 script_dir recursion_depth os_makedirs json_dump_to criteria).
Proof.
  assert (Heof : end_of_input_or_makedirs os_makedirs EOFError) by now left.
  assert (Hmk : forall d, behaves (end_of_input_or_makedirs os_makedirs)
                            (os_call (os_makedirs d))).
  { intros d. apply behaves_os_call. intros fs e He. right. now exists d, fs. }
  unfold choice_1, choice_1_on_collected, choice_1_store, data_store_path.
  behave; try (apply behaves_input; exact Heof);
    try apply behaves_call_collect_files; try apply Hmk.
  all: eapply (behaves_try_except _ (fun _ => True)); [| intros ?; behave].
  all: behave; apply behaves_os_call; trivial.
Qed.

Lemma behaves_choice_3 criteria :
  behaves (fun e => e = EOFError) (choice_3 shutil_move criteria).
Proof.
  unfold choice_3.
  behave; try (apply behaves_input; reflexivity).
  all: eapply (behaves_try_except _ (fun _ => True)); [| intros ?; behave].
  all: behave; apply behaves_os_call; trivial.
Qed.

Lemma behaves_choice_4 criteria :
  behaves (fun e => e = EOFError)
    (choice_4 COLORAMA_AVAILABLE recursion_depth shutil_rmtree criteria).
Proof.
  unfold choice_4, choice_4_on_collected.
  behave; try (apply behaves_input; reflexivity);
    try apply behaves_call_collect_files; try apply behaves_delete_collected.
  all: eapply (behaves_try_except _ (fun _ => True)); [| intros ?; behave].
  all: behave; apply behaves_os_call; trivial.
Qed.

End Behaviour.

(** ** main *)

Arguments setup_filters : simpl never.
Arguments act : simpl never.
Arguments choice_2 : simpl never.

Lemma sbehaves_act {A} P (a : M A) : behaves P a -> sbehaves P (act a).
Proof.
  intros Ha s. unfold act.
  destruct (Ha {| w_fs := s_fs s; w_now := s_now s; w_stdin := s_stdin s;
                  w_stdout := [] |}) as [Hsuf Hraise].
  destruct (a _) as [r w]. cbn in *. split; assumption.
Qed.

Lemma suffix_In {A} (l1 l2 : list A) x : l1 `suffix_of` l2 -> In x l1 -> In x l2.
Proof. intros [k ->] H. apply in_or_app. now right. Qed.

Section MainFacts.

Variable COLORAMA_AVAILABLE : bool.
Variable script_dir : string.
Variable recursion_depth : nat.
Variable os_makedirs : string -> gmap string node -> gmap string node * option exn.
Variable json_dump_to :
  string -> json_doc -> gmap string node -> gmap string node * option exn.
Variable shutil_move :
  string -> string -> gmap string node -> gmap string node * option exn.
Variable shutil_rmtree : string -> gmap string node -> gmap string node * option exn.
Variable os_walk :
  gmap string node -> string ->
  list (string * list string * list string) * option exn.

Lemma choice_2_effect criteria s :
  s_fs (snd (choice_2 os_walk criteria s)) = s_fs s
  /\ s_stdin (snd (choice_2 os_walk criteria s)) `suffix_of` s_stdin s
  /\ forall e, fst (choice_2 os_walk criteria s) = Raise e ->
       e = EOFError \/ exists fs path, snd (os_walk fs path) = Some e.
Proof.
  destruct s as [fs now stdin stdout]. unfold choice_2. run_session.
  destruct stdin as [| path [| term rest]]; cbn.
  - split; [reflexivity |]. split; [reflexivity | intros e [= <-]; now left].
  - split; [reflexivity |]. split; [apply suffix_nil | intros e [= <-]; now left].
  - destruct (os_walk fs path) as [walk raised] eqn:Hwalk.
    destruct (search_walk _ _ _ _ _) as [out n]. cbn.
    destruct raised as [e |]; cbn.
    + split; [reflexivity |].
      split; [do 2 apply suffix_cons_r; reflexivity |].
      intros e' [= <-]. right. exists fs, path. now rewrite Hwalk.
    + destruct (n =? 0)%nat; cbn;
        (split; [reflexivity |];
         split; [do 2 apply suffix_cons_r; reflexivity | discriminate]).
Qed.

(** The branch of [main_pass] that runs an action. *)
Lemma dispatch_effect choice criteria s :
  let run :=
    if String.eqb choice "1" then
      act (choice_1 script_dir recursion_depth os_makedirs json_dump_to criteria)
    else if String.eqb choice "2" then choice_2 os_walk criteria
    else if String.eqb choice "3" then act (choice_3 shutil_move criteria)
    else if String.eqb choice "4" then
      act (choice_4 COLORAMA_AVAILABLE recursion_depth shutil_rmtree criteria)
    else sprint MsgInvalidChoice in
  s_stdin (snd (run s)) `suffix_of` s_stdin s
  /\ (forall e, fst (run s) = Raise e ->
        end_of_input_makedirs_or_walk os_makedirs os_walk e)
  /\ (~ In choice ["1"; "3"; "4"] -> s_fs (snd (run s)) = s_fs s).
Proof.
  cbv zeta.
  destruct (String.eqb_spec choice "1") as [-> | N1].
  { destruct (sbehaves_act _ _ (behaves_choice_1 script_dir recursion_depth
                                   os_makedirs json_dump_to criteria) s) as [H1 H2].
    split; [exact H1 |]. split; [intros e He; left; now apply H2 |].
    intros H. exfalso. apply H. now left. }
  destruct (String.eqb_spec choice "2") as [-> | N2].
  { destruct (choice_2_effect criteria s) as (Hfs & Hsuf & Hraise).
    split; [exact Hsuf |]. split; [| intros _; exact Hfs].
    intros e He. destruct (Hraise e He) as [-> | Hwalk].
    - left. now left.
    - right. exact Hwalk. }
  destruct (String.eqb_spec choice "3") as [-> | N3].
  { destruct (sbehaves_act _ _ (behaves_choice_3 shutil_move criteria) s) as [H1 H2].
    split; [exact H1 |]. split.
    - intros e He. left. left. now apply H2.
    - intros H. exfalso. apply H. right. now left. }
  destruct (String.eqb_spec choice "4") as [-> | N4].
  { destruct (sbehaves_act _ _ (behaves_choice_4 COLORAMA_AVAILABLE recursion_depth
                                   shutil_rmtree criteria) s) as [H1 H2].
    split; [exact H1 |]. split.
    - intros e He. left. left. now apply H2.
    - intros H. exfalso. apply H. right. right. now left. }
  cbn. split; [reflexivity |]. split; [discriminate | reflexivity].
Qed.

Lemma main_pass_effect s r s' :
  main_pass COLORAMA_AVAILABLE script_dir recursion_depth os_makedirs json_dump_to
    shutil_move shutil_rmtree os_walk s = (r, s') ->
  s_stdin s' `suffix_of` s_stdin s
  /\ (forall e, r = Raise e -> end_of_input_makedirs_or_walk os_makedirs os_walk e)
  /\ (r = Ok None -> (length (s_stdin s') < length (s_stdin s))%nat)
  /\ (forall code, r = Ok (Some code) ->
        code = 0 /\ exists l rest, s_stdin s = l :: rest /\ is_exit l = true)
  /\ ((forall l rest, s_stdin s = l :: rest ->
         ~ In (PyStr.lower (PyStr.strip l)) ["1"; "3"; "4"]) ->
      s_fs s' = s_fs s).
Proof.
  destruct s as [fs now stdin stdout]. unfold main_pass. run_session.
  destruct stdin as [| l rest]; cbn.
  { intros [= <- <-]. cbn.
    split; [reflexivity |]. split; [intros e [= <-]; left; now left |].
    split; [discriminate |]. split; [discriminate | reflexivity]. }
  remember (PyStr.lower (PyStr.strip l)) as choice eqn:Hchoice.
  destruct (String.eqb choice "exit") eqn:Hexit; cbn.
  { intros [= <- <-]. cbn.
    split; [now apply suffix_cons_r |]. split; [discriminate |].
    split; [discriminate |]. split; [| reflexivity].
    intros code [= <-]. split; [reflexivity |].
    exists l, rest. split; [reflexivity |].
    unfold is_exit. now rewrite <- Hchoice. }
  match goal with
  | |- context [setup_filters ?s0] =>
      destruct (setup_filters s0) as [r1 s1] eqn:Hsetup
  end.
  destruct (setup_filters_effect _ _ _ Hsetup) as (Hfs1 & Hraise1 & _ & _ & Hsuf1).
  cbn in Hfs1, Hsuf1.
  destruct r1 as [criteria | e1]; cbn.
  2:{ intros [= <- <-].
      split; [now apply suffix_cons_r |].
      split; [intros e [= <-]; left; left; now apply Hraise1 |].
      split; [discriminate |]. split; [discriminate |].
      intros _. exact Hfs1. }
  match goal with
  | |- context [(if String.eqb choice "1" then ?a else ?b) ?s0] =>
      pose proof (dispatch_effect choice criteria s0) as Hrun;
      destruct ((if String.eqb choice "1" then a else b) s0) as [r2 s2] eqn:Hdisp
  end.
  cbv zeta in Hrun. unfold sprint in Hrun. rewrite Hdisp in Hrun. cbn in Hrun.
  destruct Hrun as (Hsuf2 & Hraise2 & Hfs2).
  assert (Hsuf : s_stdin s2 `suffix_of` rest) by now transitivity (s_stdin s1).
  destruct r2 as [[] | e2]; cbn; intros [= <- <-].
  - split; [now apply suffix_cons_r |]. split; [discriminate |].
    split; [intros _; apply suffix_length in Hsuf; cbn; lia |].
    split; [discriminate |].
    intros Hsafe. rewrite Hfs2; [exact Hfs1 |].
    rewrite Hchoice. exact (Hsafe l rest eq_refl).
  - split; [now apply suffix_cons_r |].
    split; [intros e [= <-]; now apply Hraise2 |].
    split; [discriminate |]. split; [discriminate |].
    intros Hsafe. rewrite Hfs2; [exact Hfs1 |].
    rewrite Hchoice. exact (Hsafe l rest eq_refl).
Qed.

Lemma main_loop_ends passes_left :
  forall s,
    (length (s_stdin s) < passes_left)%nat ->
    exists e s',
      main_loop COLORAMA_AVAILABLE script_dir recursion_depth os_makedirs json_dump_to
        shutil_move shutil_rmtree os_walk passes_left s = Some (e, s')
      /\ match e with
         | SystemExit code =>
             code = 0 /\ exists l, In l (s_stdin s) /\ is_exit l = true
         | Uncaught x => end_of_input_makedirs_or_walk os_makedirs os_walk x
         end.
Proof.
  induction passes_left as [| passes_left IH]; intros s Hlen; [lia |].
  cbn [main_loop].
  destruct (main_pass _ _ _ _ _ _ _ _ s) as [r s1] eqn:Hpass.
  destruct (main_pass_effect _ _ _ Hpass) as (Hsuf & Hraise & Hshort & Hexit & _).
  destruct r as [[code |] | e].
  - exists (SystemExit code), s1. split; [reflexivity |].
    destruct (Hexit code eq_refl) as (-> & l & rest & Hin & Hl).
    split; [reflexivity |]. exists l. split; [rewrite Hin; now left | exact Hl].
  - specialize (Hshort eq_refl).
    destruct (IH s1) as (e & s' & Hloop & Hend); [lia |].
    exists e, s'. split; [exact Hloop |].
    destruct e as [code | x]; [| exact Hend].
    destruct Hend as (-> & l & Hin & Hl).
    split; [reflexivity |]. exists l. split; [| exact Hl].
    exact (suffix_In _ _ _ Hsuf Hin).
  - exists (Uncaught e), s1. split; [reflexivity |]. now apply Hraise.
Qed.

(** X25.  [main] ends on every input: one pass of the menu more than
    there are lines is enough.  It ends by [sys.exit(0)] only when some line
    of the input, white space and letter case apart, is "exit"; otherwise it
    ends by an exception that nothing catches, which is [EOFError] at the end
    of the input, an exception raised by [os.makedirs], or an exception that
    ends the iteration of [os.walk]: what [shutil.move], [shutil.rmtree],
    [os.remove] and the writing of the JSON file raise never ends the
    program. *)
Theorem main_always_ends :
  forall s : Session,
    exists (e : ending) (s' : Session),
      main COLORAMA_AVAILABLE script_dir recursion_depth os_makedirs json_dump_to
        shutil_move shutil_rmtree os_walk s = Some (e, s')
      /\ match e with
         | SystemExit code =>
             code = 0 /\ exists l, In l (s_stdin s) /\ is_exit l = true
         | Uncaught x => end_of_input_makedirs_or_walk os_makedirs os_walk x
         end.
Proof.
  intros s. unfold main.
  match goal with
  | |- context [match ?b with (_, _) => _ end] => destruct b as [r0 s0] eqn:Hb
  end.
  unfold sbind, sprint in Hb. cbn in Hb. injection Hb as _ <-.
  cbn [s_stdin].
  match goal with
  | |- context [main_loop _ _ _ _ _ _ _ _ ?n ?s0] =>
      destruct (main_loop_ends n s0) as (e & s' & Hloop & Hend); [cbn; lia |]
  end.
  exists e, s'. split; [exact Hloop | exact Hend].
Qed.

(** X26.  When the first line typed at the menu is "exit" (white space
    and letter case apart), [main] prints the banner, the menu and the
    goodbye line and ends by [sys.exit(0)]: no filter question is asked and
    the file system is as it was. *)
Theorem main_exits_at_once :
  forall (s : Session) (l : string) (rest : list string),
    s_stdin s = l :: rest ->
    is_exit l = true ->
    main COLORAMA_AVAILABLE script_dir recursion_depth os_makedirs json_dump_to
      shutil_move shutil_rmtree os_walk s =
    Some (SystemExit 0,
          {| s_fs := s_fs s; s_now := s_now s; s_stdin := rest;
             s_stdout := s_stdout s ++
               List.map Menu (banner_lines ++ menu_lines ++ [MsgGoodbye]) |}).
Proof.
  intros [fs now stdin stdout] l rest Hin Hexit. cbn in Hin. subst stdin.
  unfold is_exit in Hexit.
  unfold main. unfold sbind at 1 2, sprint. cbn [s_stdin length main_loop].
  unfold main_pass. run_session. rewrite Hexit.
  cbn. repeat (rewrite <- ?app_assoc; cbn [app]). reflexivity.
Qed.

(** X27.  A choice that is none of 1, 2, 3, 4 and exit is found out only
    after the filter question: the pass asks whether to apply filters, and
    with that declined prints the "invalid choice" line and goes round
    again, two lines read and nothing changed. *)
Theorem invalid_choice_comes_after_the_filters :
  forall (s : Session) (l answer : string) (rest : list string),
    s_stdin s = l :: answer :: rest ->
    ~ In (PyStr.lower (PyStr.strip l)) ["exit"; "1"; "2"; "3"; "4"] ->
    PyStr.lower answer <> "yes" ->
    main_pass COLORAMA_AVAILABLE script_dir recursion_depth os_makedirs json_dump_to
      shutil_move shutil_rmtree os_walk s =
    (Ok None,
     {| s_fs := s_fs s; s_now := s_now s; s_stdin := rest;
        s_stdout := s_stdout s ++
          List.map Menu
            (menu_lines ++
             [MsgFiltersRule; PromptApplyFilters; MsgFiltersRuleEnd;
              MsgInvalidChoice]) |}).
Proof.
  intros [fs now stdin stdout] l answer rest Hin Hnot Hno. cbn in Hin. subst stdin.
  apply String.eqb_neq in Hno.
  assert (Hne : forall n, In n ["exit"; "1"; "2"; "3"; "4"] ->
                  String.eqb (PyStr.lower (PyStr.strip l)) n = false).
  { intros n Hn. apply String.eqb_neq. intros Heq. apply Hnot. now rewrite Heq. }
  unfold main_pass. run_session.
  rewrite (Hne "exit") by (cbn; tauto). cbn.
  unfold setup_filters. run_session. rewrite Hno. cbn.
  rewrite (Hne "1"), (Hne "2"), (Hne "3"), (Hne "4") by (cbn; tauto).
  cbn. repeat (rewrite <- ?app_assoc; cbn [app]). reflexivity.
Qed.

(** X28.  Only the choices 1, 3 and 4 can change the file system: after
    a pass of the menu with any other first line (2, exit, anything else, or
    no line at all) the file system is what it was, whatever is answered to
    the filter questions and whatever the search walks. *)
Theorem only_store_move_and_delete_change_files :
  forall s : Session,
    (forall l rest, s_stdin s = l :: rest ->
        ~ In (PyStr.lower (PyStr.strip l)) ["1"; "3"; "4"]) ->
    s_fs (snd (main_pass COLORAMA_AVAILABLE script_dir recursion_depth os_makedirs
                 json_dump_to shutil_move shutil_rmtree os_walk s)) = s_fs s.
Proof.
  intros s Hsafe.
  destruct (main_pass _ _ _ _ _ _ _ _ s) as [r s'] eqn:Hpass.
  destruct (main_pass_effect _ _ _ Hpass) as (_ & _ & _ & _ & Hfs).
  exact (Hfs Hsafe).
Qed.

End MainFacts.

(* ====================================================================== *)
(** * The further statements on the sample worlds *)
(* ====================================================================== *)

Lemma should_include_ignores_case_sample :
  PyStr.lower "Report.JAR" = PyStr.lower "report.jar"
  /\ PyStr.lower "LOG" = PyStr.lower "log"
  /\ should_include exactly_1024_kib jar_only "Report.JAR" "d/x" false =
     should_include exactly_1024_kib jar_only "report.jar" "d/x" false
  /\ should_include exactly_1024_kib (set_include_keyword (Some "LOG") jar_only)
       "access.log" "d/x" false =
     should_include exactly_1024_kib (set_include_keyword (Some "log") jar_only)
       "access.log" "d/x" false.
Proof.
  split; [reflexivity |]. split; [reflexivity |].
  destruct (should_include_ignores_case exactly_1024_kib jar_only "d/x" false)
    as (Hname & _ & Hinclude).
  split.
  - exact (Hname "Report.JAR" "report.jar" eq_refl).
  - exact (Hinclude "LOG" "log" "access.log" eq_refl).
Defined.


Lemma jar_and_json_sample :
  only_jar jar_and_json = true
  /\ only_json jar_and_json = true
  /\ should_include exactly_1024_kib jar_and_json "a.jar" "d/a.jar" false = false
  /\ should_include exactly_1024_kib jar_and_json "a.json" "d/a.json" false = false.
Proof.
  split; [reflexivity |]. split; [reflexivity |]. split.
  - exact (jar_and_json_exclude_every_file exactly_1024_kib jar_and_json
             "a.jar" "d/a.jar" eq_refl eq_refl).
  - exact (jar_and_json_exclude_every_file exactly_1024_kib jar_and_json
             "a.json" "d/a.json" eq_refl eq_refl).
Defined.

Lemma both_size_flags_sample :
  size_less_than_1mb both_sizes = true
  /\ size_more_than_1mb both_sizes = true
  /\ getsize exactly_1024_kib "d/a.bin" = Some 1048576
  /\ should_include exactly_1024_kib both_sizes "a.bin" "d/a.bin" false = false.
Proof.
  split; [reflexivity |]. split; [reflexivity |]. split; [reflexivity |].
  exact (both_size_flags_exclude_sized_files exactly_1024_kib both_sizes
           "a.bin" "d/a.bin" 1048576 eq_refl eq_refl eq_refl).
Defined.

(** A file last modified at time 0 and tested at 86400, then again one
    second later, passes both tests; tested twice at 86400 it does not. *)
Lemma both_mtime_flags_sample :
  modified_last_24h both_mtimes = true
  /\ modified_over_24h both_mtimes = true
  /\ should_include_reads first_reads second_reads both_mtimes "a.bin" "d/a.bin" false
     = true
  /\ should_include_reads first_reads first_reads both_mtimes "a.bin" "d/a.bin" false
     = false
  /\ exists mtime mtime2,
       getmtime first_reads "d/a.bin" = Some mtime
       /\ getmtime second_reads "d/a.bin" = Some mtime2
       /\ (time_time first_reads - mtime <= 86400)%Q
       /\ (86400 < time_time second_reads - mtime2)%Q.
Proof.
  split; [reflexivity |]. split; [reflexivity |]. split; [reflexivity |].
  destruct (both_mtime_flags_pass_only_across_the_boundary first_reads second_reads
              both_mtimes "a.bin" "d/a.bin" eq_refl eq_refl)
    as (Honly & _ & _).
  split.
  - exact (proj2 (proj2 (both_mtime_flags_pass_only_across_the_boundary first_reads
                           first_reads both_mtimes "a.bin" "d/a.bin"
                           eq_refl eq_refl))).
  - exact (Honly eq_refl).
Defined.

(** Fifty seconds old: within the last 24 hours. *)
Lemma mtime_split_sample :
  getmtime exactly_1024_kib "d/a.bin" = Some 50%Q
  /\ (time_time exactly_1024_kib - 50 <= 86400)%Q
  /\ should_include exactly_1024_kib (set_modified_last_24h true FilterCriteria_init)
       "a.bin" "d/a.bin" false = true.
Proof.
  assert (Hle : (time_time exactly_1024_kib - 50 <= 86400)%Q).
  { unfold Qle. cbn. intros H. discriminate H. }
  split; [reflexivity |]. split; [exact Hle |].
  exact (proj2 (proj1 (mtime_filters_split_at_86400 exactly_1024_kib
                         "a.bin" "d/a.bin" 50%Q eq_refl)) Hle).
Defined.

Lemma collected_names_sample :
  tree_mode (Some jar_only) = false
  /\ Os.listdir sample_fs "d" = inl ["a.jar"; "b.txt"]
  /\ exists data,
       collect_files 5 sample_fs 100%Q "d" (Some jar_only) =
         ([MsgCollected (length data)], Some data)
       /\ List.map Name data = ["a.jar"].
Proof.
  split; [reflexivity |]. split; [reflexivity |].
  destruct (collected_names_are_the_passing_entries 5 sample_fs 100%Q "d"
              (Some jar_only) ["a.jar"; "b.txt"] eq_refl eq_refl)
    as (data & Hrun & Hnames & _).
  exists data. split; [exact Hrun | exact Hnames].
Defined.

Lemma collected_records_sample :
  snd (collect_files 5 sample_fs 100%Q "d" None) =
    Some [{| Name := "a.jar"; Type_ := File_; Size := KB (10 # 1024) |};
          {| Name := "b.txt"; Type_ := File_;
             Size := MB (inject_Z 2000000 / 1024 / 1024) |}]
  /\ OsPath.isdir sample_fs (OsPath.join "d" "b.txt") = false
  /\ Type_ {| Name := "b.txt"; Type_ := File_;
              Size := MB (inject_Z 2000000 / 1024 / 1024) |} = File_.
Proof.
  assert (Hdata : snd (collect_files 5 sample_fs 100%Q "d" None) =
    Some [{| Name := "a.jar"; Type_ := File_; Size := KB (10 # 1024) |};
          {| Name := "b.txt"; Type_ := File_;
             Size := MB (inject_Z 2000000 / 1024 / 1024) |}]) by reflexivity.
  split; [exact Hdata |]. split; [reflexivity |].
  destruct (collected_records_describe_entries 5 sample_fs 100%Q "d" None _
              {| Name := "b.txt"; Type_ := File_;
                 Size := MB (inject_Z 2000000 / 1024 / 1024) |}
              Hdata (or_intror (or_introl eq_refl)))
    as (_ & _ & _ & Hfile).
  exact (proj1 (Hfile eq_refl)).
Defined.

(** The tree of [top]: its four entries at the first level, although [shut]
    cannot be listed. *)
Lemma tree_sample :
  Os.listdir tree_fs "top" = inl ["one.txt"; "sub"; "shut"; "two.txt"]
  /\ exists out,
       show_directory_tree 2 tree_fs 100%Q "top" 0 None = Some out
       /\ entries_at 0 out = ["one.txt"; "sub"; "shut"; "two.txt"]
       /\ In (TreePermissionDenied 1) out.
Proof.
  split; [reflexivity |].
  destruct (tree_shows_the_passing_entries 0 tree_fs 100%Q "top" 0 None
              ["one.txt"; "sub"; "shut"; "two.txt"] eq_refl)
    as (out & Hrun & Hentries).
  exists out. split; [exact Hrun |]. split; [exact Hentries |].
  assert (Hout : Some out = show_directory_tree 2 tree_fs 100%Q "top" 0 None)
    by (symmetry; exact Hrun).
  vm_compute in Hout. injection Hout as ->.
  right. right. right. right. left. reflexivity.
Defined.

Lemma tree_files_only_sample :
  only_files files_only = true
  /\ Os.listdir tree_fs "top" = inl ["one.txt"; "sub"; "shut"; "two.txt"]
  /\ show_directory_tree 2 tree_fs 100%Q "top" 0 (Some files_only) =
     Some [TreeFileLine 0 "one.txt" (Some 1); TreeFileLine 0 "two.txt" (Some 3)].
Proof.
  split; [reflexivity |]. split; [reflexivity |].
  rewrite (tree_with_files_only_is_flat 1 tree_fs 100%Q "top" 0 files_only
             ["one.txt"; "sub"; "shut"; "two.txt"] eq_refl eq_refl).
  reflexivity.
Defined.

Lemma choice_4_without_yes_sample :
  (forall target answer rest,
      w_stdin (sample_world ["d/a.jar"; "maybe"]) = target :: answer :: rest ->
      PyStr.lower answer <> "yes")
  /\ w_fs (snd (choice_4 true 5 sample_rmtree None
                  (sample_world ["d/a.jar"; "maybe"]))) = sample_fs.
Proof.
  assert (H : forall target answer rest,
             w_stdin (sample_world ["d/a.jar"; "maybe"]) = target :: answer :: rest ->
             PyStr.lower answer <> "yes").
  { intros target answer rest [= _ <- _]. vm_compute. discriminate. }
  split; [exact H |].
  exact (choice_4_changes_nothing_without_yes true 5 sample_rmtree None
           (sample_world ["d/a.jar"; "maybe"]) H).
Defined.

Lemma delete_in_tree_mode_sample :
  show_tree tree_only = true
  /\ OsPath.isdir sample_fs "d" = true
  /\ fst (choice_4 false 5 sample_rmtree (Some tree_only)
            {| w_fs := sample_fs; w_now := 100%Q; w_stdin := ["d"; "yes"];
               w_stdout := [] |}) = Ok tt
  /\ w_fs (snd (choice_4 false 5 sample_rmtree (Some tree_only)
                  {| w_fs := sample_fs; w_now := 100%Q; w_stdin := ["d"; "yes"];
                     w_stdout := [] |})) = sample_fs
  /\ w_stdin (snd (choice_4 false 5 sample_rmtree (Some tree_only)
                     {| w_fs := sample_fs; w_now := 100%Q; w_stdin := ["d"; "yes"];
                        w_stdout := [] |})) = ["yes"].
Proof.
  split; [reflexivity |]. split; [reflexivity |].
  rewrite (delete_in_tree_mode_removes_nothing false 5 sample_rmtree tree_only
             sample_fs 100%Q "d" ["yes"] [] eq_refl eq_refl).
  repeat split.
Defined.

(** [d/b.txt] is no jar file; it is removed all the same. *)
Lemma delete_file_target_sample :
  OsPath.isfile sample_fs "d/b.txt" = true
  /\ PyStr.lower "YES" = "yes"
  /\ should_include (stat_view sample_fs 100%Q) jar_only "b.txt" "d/b.txt" false = false
  /\ OsPath.exists_
       (w_fs (snd (choice_4 false 5 sample_rmtree (Some jar_only)
                     {| w_fs := sample_fs; w_now := 100%Q;
                        w_stdin := ["d/b.txt"; "YES"]; w_stdout := [] |})))
       "d/b.txt" = false.
Proof.
  split; [reflexivity |]. split; [reflexivity |]. split; [reflexivity |].
  rewrite (delete_file_target_ignores_criteria false 5 sample_rmtree (Some jar_only)
             sample_fs 100%Q "d/b.txt" "YES" [] [] eq_refl eq_refl).
  reflexivity.
Defined.

(** With no input left both actions raise [EOFError]; a move that fails
    does not raise. *)
Lemma raise_only_at_end_of_input_sample :
  fst (choice_3 failing_move None (sample_world [])) = Raise EOFError
  /\ fst (choice_4 false 5 sample_rmtree None (sample_world [])) = Raise EOFError
  /\ (length (w_stdin (sample_world [])) < 3)%nat
  /\ (length (w_stdin (sample_world [])) < 2)%nat
  /\ fst (choice_3 failing_move None (sample_world ["d/a.jar"; "x"; "y"])) = Ok tt.
Proof.
  split; [reflexivity |]. split; [reflexivity |].
  destruct (move_and_delete_raise_only_at_end_of_input false 5 failing_move
              sample_rmtree None (sample_world []) EOFError) as (Hmove & Hdelete).
  split; [exact (proj2 (Hmove eq_refl)) |].
  split; [exact (proj2 (Hdelete eq_refl)) |].
  reflexivity.
Defined.

Lemma move_of_a_file_sample :
  OsPath.exists_ sample_fs "nowhere" = false
  /\ OsPath.exists_ sample_fs "d/a.jar" = true
  /\ OsPath.isdir sample_fs "d/a.jar" = false
  /\ w_fs (snd (choice_3 sample_move None
                  {| w_fs := sample_fs; w_now := 100%Q; w_stdin := ["nowhere"];
                     w_stdout := [] |})) = sample_fs
  /\ choice_3 failing_move None
       {| w_fs := sample_fs; w_now := 100%Q; w_stdin := ["d/a.jar"; "e/a.jar"];
          w_stdout := [] |} =
     (Ok tt,
      {| w_fs := sample_fs; w_now := 100%Q; w_stdin := [];
         w_stdout := [PromptMoveSource; PromptDestination;
                      MsgErrorMoving PermissionError] |}).
Proof.
  split; [reflexivity |]. split; [reflexivity |]. split; [reflexivity |]. split.
  - rewrite (proj1 (move_of_a_file sample_move None sample_fs 100%Q
                      "nowhere" "" [] []) eq_refl).
    reflexivity.
  - exact (proj2 (move_of_a_file failing_move None sample_fs 100%Q
                    "d/a.jar" "e/a.jar" [] []) eq_refl eq_refl).
Defined.


(** Answering "no" and typing " out " writes the file [out]. *)
Lemma store_at_a_typed_path_sample :
  PyStr.lower "no" <> "yes"
  /\ OsPath.exists_
       (w_fs (snd (choice_1_store "/opt/arbor" sample_makedirs sample_json_dump []
                     {| w_fs := sample_fs; w_now := 100%Q;
                        w_stdin := ["no"; " out "; "1"]; w_stdout := [] |})))
       "out" = true.
Proof.
  assert (Hno : PyStr.lower "no" <> "yes") by (vm_compute; discriminate).
  split; [exact Hno |].
  rewrite (store_at_a_typed_path "/opt/arbor" sample_makedirs sample_json_dump
             [] sample_fs 100%Q "no" " out " "1" [] [] Hno).
  reflexivity.
Defined.

(** "yes", then " 3 ,1,x,7, 3": jar-only and files-only are set, "x" is
    passed over, and the exclude keyword is the line typed next. *)
Lemma setup_filters_sample :
  exists c s',
    setup_filters (sample_session ["yes"; " 3 ,1,x,7, 3"; "tmp"; "left"]) =
      (Ok (Some c), s')
    /\ flag_values c = [true; false; true; false; false; false; false; false; false]
    /\ (exists k, exclude_keyword c = Some k /\ In k ["tmp"])
    /\ include_keyword c = None
    /\ s_stdin s' = ["left"].
Proof.
  eassert (H : setup_filters (sample_session ["yes"; " 3 ,1,x,7, 3"; "tmp"; "left"]) =
               (Ok (Some _), _)) by (vm_compute; reflexivity).
  eexists. eexists. split; [exact H |].
  destruct (setup_filters_sets_the_chosen_flags _ _ _ H)
    as (answer & filter_input & kws & Hin & _ & Hlen & Hflags & _ & Hex & Hinc & _ & _).
  cbn in Hin. injection Hin as <- <- Hkws.
  destruct kws as [| k [| k' kws]]; try discriminate Hlen.
  injection Hkws as <-.
  split; [exact Hflags |]. split; [exact (Hex eq_refl) |].
  split; [exact (Hinc eq_refl) | reflexivity].
Defined.

Lemma setup_filters_declined_sample :
  s_stdin (sample_session ["No"; "1"]) = ["No"; "1"]
  /\ PyStr.lower "No" <> "yes"
  /\ setup_filters (sample_session ["No"; "1"]) =
     (Ok None,
      {| s_fs := sample_fs; s_now := 100%Q; s_stdin := ["1"];
         s_stdout := [Menu PromptApplyFilters] |}).
Proof.
  assert (Hno : PyStr.lower "No" <> "yes") by (vm_compute; discriminate).
  split; [reflexivity |]. split; [exact Hno |].
  exact (proj1 (setup_filters_declined (sample_session ["No"; "1"]) "No" ["1"] eq_refl)
           Hno).
Defined.

Lemma files_and_directories_sample :
  exists c s',
    s_stdin (sample_session ["yes"; "1,2"]) = ["yes"; "1,2"]
    /\ setup_filters (sample_session ["yes"; "1,2"]) = (Ok (Some c), s')
    /\ chosen "1" "1,2" = true
    /\ chosen "2" "1,2" = true
    /\ should_include exactly_1024_kib c "a.jar" "d/a.jar" false = false
    /\ should_include exactly_1024_kib c "sub" "d/sub" true = false.
Proof.
  eassert (H : setup_filters (sample_session ["yes"; "1,2"]) = (Ok (Some _), _))
    by (vm_compute; reflexivity).
  eexists. eexists. split; [reflexivity |]. split; [exact H |].
  split; [reflexivity |]. split; [reflexivity |].
  split;
    exact (choosing_files_and_directories_excludes_everything
             (sample_session ["yes"; "1,2"]) _ _ "yes" "1,2" []
             eq_refl H eq_refl eq_refl exactly_1024_kib _ _ _).
Defined.

Lemma yes_without_numbers_sample :
  s_stdin (sample_session ["yes"; ""]) = ["yes"; ""]
  /\ PyStr.lower "yes" = "yes"
  /\ filter_tokens "" = [""]
  /\ fst (setup_filters (sample_session ["yes"; ""])) = Ok (Some FilterCriteria_init).
Proof.
  split; [reflexivity |]. split; [reflexivity |]. split; [reflexivity |].
  rewrite (yes_without_numbers_gives_empty_criteria (sample_session ["yes"; ""])
             "yes" "" [] eq_refl eq_refl).
  - reflexivity.
  - constructor; [reflexivity | constructor].
Defined.

Lemma main_exits_at_once_sample :
  s_stdin (sample_session [" EXIT "; "1"]) = [" EXIT "; "1"]
  /\ is_exit " EXIT " = true
  /\ main true "/opt/arbor" 5 sample_makedirs sample_json_dump sample_move
       sample_rmtree sample_walk (sample_session [" EXIT "; "1"]) =
     Some (SystemExit 0,
           {| s_fs := sample_fs; s_now := 100%Q; s_stdin := ["1"];
              s_stdout := List.map Menu (banner_lines ++ menu_lines ++ [MsgGoodbye]) |}).
Proof.
  split; [reflexivity |]. split; [reflexivity |].
  exact (main_exits_at_once true "/opt/arbor" 5 sample_makedirs sample_json_dump
           sample_move sample_rmtree sample_walk (sample_session [" EXIT "; "1"])
           " EXIT " ["1"] eq_refl eq_refl).
Defined.

Lemma invalid_choice_sample :
  s_stdin (sample_session ["9"; "no"; "exit"]) = ["9"; "no"; "exit"]
  /\ ~ In (PyStr.lower (PyStr.strip "9")) ["exit"; "1"; "2"; "3"; "4"]
  /\ PyStr.lower "no" <> "yes"
  /\ fst (main_pass true "/opt/arbor" 5 sample_makedirs sample_json_dump sample_move
            sample_rmtree sample_walk (sample_session ["9"; "no"; "exit"])) = Ok None.
Proof.
  assert (Hnot : ~ In (PyStr.lower (PyStr.strip "9")) ["exit"; "1"; "2"; "3"; "4"]).
  { vm_compute. intros [H | [H | [H | [H | [H | []]]]]]; discriminate H. }
  assert (Hno : PyStr.lower "no" <> "yes") by (vm_compute; discriminate).
  split; [reflexivity |]. split; [exact Hnot |]. split; [exact Hno |].
  rewrite (invalid_choice_comes_after_the_filters true "/opt/arbor" 5 sample_makedirs
             sample_json_dump sample_move sample_rmtree sample_walk
             (sample_session ["9"; "no"; "exit"]) "9" "no" ["exit"] eq_refl Hnot Hno).
  reflexivity.
Defined.

(** A search in [d] leaves the files alone. *)
Lemma only_store_move_and_delete_sample :
  (forall l rest,
      s_stdin (sample_session ["2"; "no"; "d"; "jar"]) = l :: rest ->
      ~ In (PyStr.lower (PyStr.strip l)) ["1"; "3"; "4"])
  /\ s_fs (snd (main_pass true "/opt/arbor" 5 sample_makedirs sample_json_dump
                  sample_move sample_rmtree sample_walk
                  (sample_session ["2"; "no"; "d"; "jar"]))) = sample_fs.
Proof.
  assert (H : forall l rest,
             s_stdin (sample_session ["2"; "no"; "d"; "jar"]) = l :: rest ->
             ~ In (PyStr.lower (PyStr.strip l)) ["1"; "3"; "4"]).
  { intros l rest [= <- _]. vm_compute.
    intros [H | [H | [H | []]]]; discriminate H. }
  split; [exact H |].
  exact (only_store_move_and_delete_change_files true "/opt/arbor" 5 sample_makedirs
           sample_json_dump sample_move sample_rmtree sample_walk
           (sample_session ["2"; "no"; "d"; "jar"]) H).
Defined.

(** A search from a path that holds a NUL character: the walk raises, and
    [choice_2] ends by that exception after the first rule, with no closing
    line. *)
Example search_with_nul_path :
  choice_2 sample_walk None (sample_session [nul_path; "jar"; "left"]) =
  (Raise ValueError,
   {| s_fs := sample_fs; s_now := 100%Q; s_stdin := ["left"];
      s_stdout := List.map Menu
        [PromptSearchPath; PromptSearchTerm; MsgSearching "jar" nul_path;
         MsgDashes] |}).
Proof. reflexivity. Qed.

(** A walk that raises after [d] was yielded: the match in [d] is reported
    before the exception leaves. *)
Example search_with_breaking_walk :
  choice_2 breaking_walk None (sample_session ["d"; "JAR"]) =
  (Raise RecursionError,
   {| s_fs := sample_fs; s_now := 100%Q; s_stdin := [];
      s_stdout := List.map Menu
        [PromptSearchPath; PromptSearchTerm; MsgSearching "jar" "d"; MsgDashes;
         MsgFound 1 "a.jar"; MsgFoundPath "d/a.jar"; MsgFoundSize 10] |}).
Proof. reflexivity. Qed.

(** The menu with choice 2, no filters and a path that holds a NUL
    character: [main] ends by the [ValueError] of the walk, the line after
    the search term unread. *)
Example main_ends_by_walk_error :
  exists s',
    main true "/opt/arbor" 5 sample_makedirs sample_json_dump sample_move
      sample_rmtree sample_walk (sample_session ["2"; "no"; nul_path; "x"; "left"]) =
    Some (Uncaught ValueError, s')
    /\ s_stdin s' = ["left"]
    /\ s_fs s' = sample_fs.
Proof. eexists. split; [vm_compute; reflexivity | split; reflexivity]. Qed.
